(** * Booking engine of the room-rental server

    A shallow embedding of [server/storage.ts] (class [DatabaseStorage]),
    of the route handlers registered by [registerRoutes] and of the table
    declarations of [shared/schema], followed by the properties of the
    conflict detector, the booking life cycle and the identity
    reconciliation that the specification states.

    Modelling conventions.
    - A table is the list of its rows; a query is a function of the
      database, a write is a database transformer.  Handlers are written in
      a small monad that threads the database and supports [res.status(..)]
      followed by [return] (constructor [Reply]) and a thrown exception
      (constructor [Throw]), which the [try]/[catch] of every handler turns
      into a 500 answer.
    - A string is the sequence of its UTF-8 bytes.  [trim] removes the
      white space of ECMAScript.  [toLowerCase] folds the capitals of
      ASCII, of Latin-1 and of the Cyrillic block U+0400 to U+042F; a
      letter of another block is left as it is.  Digits are ASCII in the
      source too ([/[^0-9]/g]).
    - [integer] columns are [Z]; a nullable column is an [option]; a request
      key that may be missing is an outer [option] (missing key) around the
      value.
    - Request values have the types the handlers expect of them (an
      integral number where a number is read, a string where a string is
      read), and no string of a request holds U+0000, which the database
      takes in no text value.
    - An [integer] column holds a 32-bit signed number.  An insert or
      update that carries a number outside that range is refused by the
      database: nothing is written, the storage method throws and the
      handler answers 500.  The numbers a handler copies from one row to
      another are in range wherever the rows are, and a comparison of a
      column with a number of the request is taken not to fail.
    - The identifiers and time stamps produced by the database defaults
      ([gen_random_uuid()], [now()]) are arguments of the handlers.
    - Where [ORDER BY] leaves rows with equal keys in any order, the model
      lists them in table order, and an update leaves a row at its place in
      the table.  The database promises neither.  Where a property below
      pairs the rows of a table before and after a request by their
      position, the ids are unique and the pairing is the one by id; no
      property rests on the order of rows with equal keys: the two
      databases of C8 have none.
    - The account, chat and message handlers work on a [Server], the
      database together with the chat and message tables.  The SHA-256
      digest behind [hashPassword] is a variable of the section that
      embeds registration and login; nothing is assumed of it. *)

From Stdlib Require Import String Ascii ZArith NArith List Bool Lia Permutation.
Import ListNotations.
Open Scope string_scope.
Open Scope Z_scope.

(** [a === b] on strings, as the handlers write it. *)
Notation "a === b" := (String.eqb a b) (at level 70, no associativity).

(** ** JavaScript primitives used by the handlers *)

Module Js.

(** [!!s] for a string. *)
Definition truthy (s : string) : bool := negb (s === "").

(** [!!s] for [string | null | undefined]. *)
Definition truthyOpt (o : option string) : bool :=
  match o with
  | Some s => truthy s
  | None => false
  end.

(** [x || 0] for [number | null | undefined]. *)
Definition orZero (o : option Z) : Z :=
  match o with
  | Some n => n
  | None => 0
  end.

(** [x || ''] for [string | null | undefined]. *)
Definition orEmpty (o : option string) : string :=
  match o with
  | Some s => s
  | None => ""
  end.

(** [a === b] between a nullable column and a nullable value. *)
Definition strictEqOpt (a b : option string) : bool :=
  match a, b with
  | Some x, Some y => x === y
  | None, None => true
  | _, _ => false
  end.

Definition isDigit (c : ascii) : bool :=
  ((48 <=? N_of_ascii c) && (N_of_ascii c <=? 57))%N.

(** A string is the sequence of its UTF-8 bytes. *)
Definition code (c : ascii) : N := N_of_ascii c.

(** The white space of [String.prototype.trim] within ASCII: U+0009 to
    U+000D and U+0020. *)
Definition isSpace (c : ascii) : bool :=
  let n := code c in
  ((n =? 32) || ((9 <=? n) && (n <=? 13)))%N.

(** Its white space of three bytes: U+1680, U+2000 to U+200A, U+2028,
    U+2029, U+202F, U+205F, U+3000 and U+FEFF. *)
Definition isWideSpace (a b c : N) : bool :=
  ((a =? 225) && (b =? 154) && (c =? 128)
   || (a =? 226) && (b =? 128)
      && ((128 <=? c) && (c <=? 138) || (c =? 168) || (c =? 169) || (c =? 175))
   || (a =? 226) && (b =? 129) && (c =? 159)
   || (a =? 227) && (b =? 128) && (c =? 128)
   || (a =? 239) && (b =? 187) && (c =? 191))%N.

(** The string after one white-space character at its head, if it has one;
    U+00A0 is the one of two bytes. *)
Definition dropSpace (s : string) : option string :=
  match s with
  | EmptyString => None
  | String a r =>
      if isSpace a then Some r
      else
        match r with
        | EmptyString => None
        | String b r' =>
            if ((code a =? 194) && (code b =? 160))%N then Some r'
            else
              match r' with
              | EmptyString => None
              | String c r'' =>
                  if isWideSpace (code a) (code b) (code c) then Some r''
                  else None
              end
        end
  end.

Fixpoint trimStartFrom (fuel : nat) (s : string) : string :=
  match fuel with
  | O => s
  | S k =>
      match dropSpace s with
      | Some r => trimStartFrom k r
      | None => s
      end
  end.

Definition trimStart (s : string) : string := trimStartFrom (String.length s) s.

Fixpoint allSpacesFrom (fuel : nat) (s : string) : bool :=
  match dropSpace s with
  | None => s === ""
  | Some r =>
      match fuel with
      | O => false
      | S k => allSpacesFrom k r
      end
  end.

Definition allSpaces (s : string) : bool := allSpacesFrom (String.length s) s.

Fixpoint trimEnd (s : string) : string :=
  match s with
  | EmptyString => EmptyString
  | String c r => if allSpaces s then EmptyString else String c (trimEnd r)
  end.

Definition trim (s : string) : string := trimEnd (trimStart s).

Definition lowerChar (c : ascii) : ascii :=
  let n := code c in
  if ((65 <=? n) && (n <=? 90))%N then ascii_of_N (n + 32) else c.

(** The lower-case form of a letter of two bytes: the capitals of Latin-1
    (U+00C0 to U+00DE without U+00D7) and of the Cyrillic block (U+0400 to
    U+042F). *)
Definition lowerPair (a b : N) : option (N * N) :=
  (if a =? 195
   then if (128 <=? b) && (b <=? 158) && negb (b =? 151)
        then Some (195, b + 32) else None
   else if a =? 208
   then if (144 <=? b) && (b <=? 159) then Some (208, b + 32)
        else if (160 <=? b) && (b <=? 175) then Some (209, b - 32)
        else if (128 <=? b) && (b <=? 143) then Some (209, b + 16)
        else None
   else None)%N.

(** [toLowerCase] on ASCII, Latin-1 and the Cyrillic block; a letter of
    another block is left as it is. *)
Fixpoint toLowerCase (s : string) : string :=
  match s with
  | EmptyString => EmptyString
  | String a r =>
      match r with
      | EmptyString => String (lowerChar a) EmptyString
      | String b r' =>
          match lowerPair (code a) (code b) with
          | Some (a', b') =>
              String (ascii_of_N a') (String (ascii_of_N b') (toLowerCase r'))
          | None => String (lowerChar a) (toLowerCase r)
          end
      end
  end.

(** [s.startsWith(p)]. *)
Definition startsWith (s p : string) : bool := String.prefix p s.

(** [s.substring(n)]: the characters from index [n] on. *)
Fixpoint substringFrom (n : nat) (s : string) : string :=
  match n, s with
  | O, _ => s
  | S _, EmptyString => EmptyString
  | S k, String _ r => substringFrom k r
  end.

(** [s.replace(/[^0-9]/g, '')]. *)
Fixpoint stripNonDigits (s : string) : string :=
  match s with
  | EmptyString => EmptyString
  | String c r =>
      if isDigit c then String c (stripNonDigits r) else stripNonDigits r
  end.

(** [a || b] for [number | null | undefined] on the left. *)
Definition orElseZ (o : option Z) (dflt : Z) : Z :=
  match o with
  | Some n => if n =? 0 then dflt else n
  | None => dflt
  end.

(** [a || b] for [string | null | undefined] on the left. *)
Definition orElseStr (o : option string) (dflt : string) : string :=
  match o with
  | Some s => if truthy s then s else dflt
  | None => dflt
  end.

(** [xs.length > 0]. *)
Definition nonEmpty {A : Type} (l : list A) : bool :=
  match l with
  | [] => false
  | _ :: _ => true
  end.

End Js.

(** ** Tables of [shared/schema] *)

Module User.
Record t : Type := mk
  { id : string;
    name : string;
    phone : option string;
    password : option string;
    role : string;
    adminUsername : option string;
    createdAt : Z }.
End User.

Module Booking.
Record t : Type := mk
  { id : string;
    roomNumber : Z;
    userId : string;
    userName : string;
    userPhone : option string;
    date : string;
    startHour : option Z;
    duration : option Z;
    bookingType : string;
    price : Z;
    paid : option bool;
    paymentMethod : option string;
    paidAmount : option Z;
    isDebtor : option bool;
    extraTime : option Z;
    createdAt : Z }.

(** [.set({ userId, userName, userPhone })] *)
Definition setClient (uid uname : string) (uphone : option string) (b : t) : t :=
  mk (id b) (roomNumber b) uid uname uphone (date b) (startHour b)
     (duration b) (bookingType b) (price b) (paid b) (paymentMethod b)
     (paidAmount b) (isDebtor b) (extraTime b) (createdAt b).

(** [.set({ roomNumber, date, startHour, duration, bookingType, price })] *)
Definition setDetails (room : Z) (d : string) (start dur : option Z)
    (ty : string) (p : Z) (b : t) : t :=
  mk (id b) room (userId b) (userName b) (userPhone b) d start dur ty p
     (paid b) (paymentMethod b) (paidAmount b) (isDebtor b) (extraTime b)
     (createdAt b).
End Booking.

Module Cancellation.
Record t : Type := mk
  { id : string;
    userId : string;
    userName : string;
    userPhone : option string;
    roomNumber : Z;
    date : string;
    bookingType : string;
    price : Z;
    cancelledAt : Z }.

Definition setClient (uid uname : string) (uphone : option string) (c : t) : t :=
  mk (id c) uid uname uphone (roomNumber c) (date c) (bookingType c)
     (price c) (cancelledAt c).
End Cancellation.

(** [InsertBooking]: the booking columns without [id] and [createdAt].  For a
    column with a default the outer [option] tells whether the key is
    present. *)
Module InsertBooking.
Record t : Type := mk
  { roomNumber : Z;
    userId : string;
    userName : string;
    userPhone : option string;
    date : string;
    startHour : option Z;
    duration : option Z;
    bookingType : string;
    price : Z;
    paid : option (option bool);
    paymentMethod : option string;
    paidAmount : option Z;
    isDebtor : option (option bool);
    extraTime : option (option Z) }.

Definition setUserPhone (p : option string) (d : t) : t :=
  mk (roomNumber d) (userId d) (userName d) p (date d) (startHour d)
     (duration d) (bookingType d) (price d) (paid d) (paymentMethod d)
     (paidAmount d) (isDebtor d) (extraTime d).

Definition setIdentity (uid uname : string) (p : option string) (d : t) : t :=
  mk (roomNumber d) uid uname p (date d) (startHour d)
     (duration d) (bookingType d) (price d) (paid d) (paymentMethod d)
     (paidAmount d) (isDebtor d) (extraTime d).
End InsertBooking.

(** [InsertCancellation]: the cancellation columns without [id] and
    [cancelledAt]. *)
Module InsertCancellation.
Record t : Type := mk
  { userId : string;
    userName : string;
    userPhone : option string;
    roomNumber : Z;
    date : string;
    bookingType : string;
    price : Z }.
End InsertCancellation.

(** The database: the three tables the engine reads and writes. *)
Record Db : Type := mkDb
  { users : list User.t;
    bookings : list Booking.t;
    cancellations : list Cancellation.t }.

Definition withBookings (f : list Booking.t -> list Booking.t) (db : Db) : Db :=
  mkDb (users db) (f (bookings db)) (cancellations db).

Definition withCancellations (f : list Cancellation.t -> list Cancellation.t)
    (db : Db) : Db :=
  mkDb (users db) (bookings db) (f (cancellations db)).

(** ** [ORDER BY] *)

Section Sorting.
Context {A : Type} (before : A -> A -> bool).

Fixpoint insertBy (x : A) (l : list A) : list A :=
  match l with
  | [] => [x]
  | y :: r => if before x y then x :: l else y :: insertBy x r
  end.

Fixpoint sortBy (l : list A) : list A :=
  match l with
  | [] => []
  | x :: r => insertBy x (sortBy r)
  end.
End Sorting.

(** ** [DatabaseStorage] *)

Module Storage.

(** [orderBy(desc(bookings.date), bookings.startHour)]: dates descending,
    then start hours ascending with [NULL] last.  Dates are compared byte
    by byte, which is how every collation orders dates written
    [YYYY-MM-DD]. *)
Definition bookingBefore (a b : Booking.t) : bool :=
  match String.compare (Booking.date a) (Booking.date b) with
  | Gt => true
  | Lt => false
  | Eq =>
      match Booking.startHour a, Booking.startHour b with
      | Some x, Some y => x <=? y
      | Some _, None => true
      | None, Some _ => false
      | None, None => true
      end
  end.

(** [orderBy(desc(cancellations.cancelledAt))] *)
Definition cancellationBefore (a b : Cancellation.t) : bool :=
  Cancellation.cancelledAt b <=? Cancellation.cancelledAt a.

Definition getUserByPhone (phone : string) (db : Db) : option User.t :=
  find (fun u => Js.strictEqOpt (User.phone u) (Some phone)) (users db).

(** Rows with equal keys are listed in table order; the database leaves
    their order open. *)
Definition getBookings (db : Db) : list Booking.t :=
  sortBy bookingBefore (bookings db).

Definition getBookingsByDate (date : string) (db : Db) : list Booking.t :=
  filter (fun b => Booking.date b === date) (bookings db).

Definition getBookingsByRoom (roomNumber : Z) (date : string) (db : Db)
    : list Booking.t :=
  filter (fun b => (Booking.roomNumber b =? roomNumber)
                   && (Booking.date b === date))
         (bookings db).

Definition getBooking (id : string) (db : Db) : option Booking.t :=
  find (fun b => Booking.id b === id) (bookings db).

(** The row [insert(bookings).values(..)] builds: absent keys take the
    column default. *)
Definition newBooking (uuid : string) (now : Z) (d : InsertBooking.t)
    : Booking.t :=
  Booking.mk uuid (InsertBooking.roomNumber d) (InsertBooking.userId d)
    (InsertBooking.userName d) (InsertBooking.userPhone d)
    (InsertBooking.date d) (InsertBooking.startHour d)
    (InsertBooking.duration d) (InsertBooking.bookingType d)
    (InsertBooking.price d)
    (match InsertBooking.paid d with Some v => v | None => Some false end)
    (InsertBooking.paymentMethod d) (InsertBooking.paidAmount d)
    (match InsertBooking.isDebtor d with Some v => v | None => Some false end)
    (match InsertBooking.extraTime d with Some v => v | None => Some 0 end)
    now.

(** An [integer(..)] column holds a 32-bit signed number.  Postgres refuses
    a statement that carries a number outside that range in such a column,
    and the storage method throws; a write is [None] then. *)
Definition fitsInteger (n : Z) : bool :=
  (-2147483648 <=? n) && (n <=? 2147483647).

Definition fitsIntegerOpt (o : option Z) : bool :=
  match o with
  | Some n => fitsInteger n
  | None => true
  end.

(** The integer columns of [db.insert(bookings).values(insertBooking)]. *)
Definition insertFits (d : InsertBooking.t) : bool :=
  fitsInteger (InsertBooking.roomNumber d)
  && fitsIntegerOpt (InsertBooking.startHour d)
  && fitsIntegerOpt (InsertBooking.duration d)
  && fitsInteger (InsertBooking.price d)
  && fitsIntegerOpt (InsertBooking.paidAmount d)
  && match InsertBooking.extraTime d with
     | Some v => fitsIntegerOpt v
     | None => true
     end.

Definition createBooking (uuid : string) (now : Z) (d : InsertBooking.t)
    (db : Db) : option Db :=
  if insertFits d
  then Some (withBookings (fun t => (t ++ [newBooking uuid now d])%list) db)
  else None.

Definition deleteBooking (id : string) (db : Db) : Db :=
  withBookings (filter (fun b => negb (Booking.id b === id))) db.

(** [.set({ userId, userName, userPhone })].  The callers pass what they
    read from a row or from a request body: a [userName] that is
    [undefined] is [None], and [.set] leaves out a key whose value is
    [undefined], so the column keeps its value. *)
Definition updateBookingClient (id userId : string) (userName : option string)
    (userPhone : string) (db : Db) : Db :=
  withBookings
    (map (fun b => if Booking.id b === id
                   then Booking.setClient userId
                          (match userName with
                           | Some n => n
                           | None => Booking.userName b
                           end)
                          (Some userPhone) b
                   else b))
    db.

(** The integer columns of
    [.set({ roomNumber, date, startHour, duration, bookingType, price })]. *)
Definition detailsFit (roomNumber : Z) (startHour duration : option Z)
    (price : Z) : bool :=
  fitsInteger roomNumber && fitsIntegerOpt startHour
  && fitsIntegerOpt duration && fitsInteger price.

Definition updateBookingDetails (id : string) (roomNumber : Z)
    (date : string) (startHour duration : option Z) (bookingType : string)
    (price : Z) (db : Db) : option Db :=
  if detailsFit roomNumber startHour duration price
  then
    Some (withBookings
            (map (fun b => if Booking.id b === id
                           then Booking.setDetails roomNumber date startHour
                                  duration bookingType price b
                           else b))
            db)
  else None.

Definition getCancellations (db : Db) : list Cancellation.t :=
  sortBy cancellationBefore (cancellations db).

Definition newCancellation (uuid : string) (now : Z)
    (c : InsertCancellation.t) : Cancellation.t :=
  Cancellation.mk uuid (InsertCancellation.userId c)
    (InsertCancellation.userName c) (InsertCancellation.userPhone c)
    (InsertCancellation.roomNumber c) (InsertCancellation.date c)
    (InsertCancellation.bookingType c) (InsertCancellation.price c) now.

Definition createCancellation (uuid : string) (now : Z)
    (c : InsertCancellation.t) (db : Db) : Db :=
  withCancellations (fun t => (t ++ [newCancellation uuid now c])%list) db.

Definition updateCancellationClient (id userId : string)
    (userName : option string) (userPhone : string) (db : Db) : Db :=
  withCancellations
    (map (fun c => if Cancellation.id c === id
                   then Cancellation.setClient userId
                          (match userName with
                           | Some n => n
                           | None => Cancellation.userName c
                           end)
                          (Some userPhone) c
                   else c))
    db.

End Storage.

(** ** Answers and the handler monad *)

Inductive Body : Type :=
| JsonError (error : string)
| JsonBooking (booking : Booking.t)
| JsonSuccess
| JsonUpdated (updatedCount : Z)
| NoBody.

Record Response : Type := mkResponse
  { status : Z;
    body : Body }.

(** [res.status(code).json({ error: msg })] *)
Definition jsonError (code : Z) (msg : string) : Response :=
  mkResponse code (JsonError msg).

Inductive Outcome (A : Type) : Type :=
| Continue (a : A)
| Reply (r : Response)
| Throw.

Arguments Continue {A} a.
Arguments Reply {A} r.
Arguments Throw {A}.

Definition Handler (A : Type) : Type := Db -> Outcome A * Db.

Definition ret {A : Type} (a : A) : Handler A :=
  fun db => (Continue a, db).

Definition bind {A B : Type} (m : Handler A) (k : A -> Handler B) : Handler B :=
  fun db =>
    match m db with
    | (Continue a, db') => k a db'
    | (Reply r, db') => (Reply r, db')
    | (Throw, db') => (Throw, db')
    end.

(** [return res.status(..)...] *)
Definition reply {A : Type} (r : Response) : Handler A :=
  fun db => (Reply r, db).

Definition throw {A : Type} : Handler A :=
  fun db => (Throw, db).

(** [await storage.get..(..)] *)
Definition query {A : Type} (q : Db -> A) : Handler A :=
  fun db => (Continue (q db), db).

(** [await storage.create/update/delete..(..)] *)
Definition exec (w : Db -> Db) : Handler unit :=
  fun db => (Continue tt, w db).

(** The same for a write the database may refuse: the rejected promise is
    thrown at the [await], and nothing is written. *)
Definition attempt (w : Db -> option Db) : Handler unit :=
  fun db =>
    match w db with
    | Some db' => (Continue tt, db')
    | None => (Throw, db)
    end.

Declare Scope handler_scope.
Delimit Scope handler_scope with handler.
Notation "x <- m ;; k" := (bind m (fun x => k))
  (at level 61, m at next level, right associativity) : handler_scope.
Notation "m ;;; k" := (bind m (fun _ => k))
  (at level 61, right associativity) : handler_scope.
Open Scope handler_scope.

(** A [for (const x of xs)] loop that updates a local accumulator. *)
Fixpoint forOf {A B : Type} (xs : list A) (acc : B)
    (step : B -> A -> Handler B) : Handler B :=
  match xs with
  | [] => ret acc
  | x :: r => acc' <- step acc x ;; forOf r acc' step
  end.

(** [try { .. } catch (error) { res.status(500).json({ error: msg }) }] *)
Definition tryCatch (h : Handler Response) (msg : string) (db : Db)
    : Response * Db :=
  match h db with
  | (Continue r, db') => (r, db')
  | (Reply r, db') => (r, db')
  | (Throw, db') => (jsonError 500 msg, db')
  end.

(** ** [server/routes]: the phone normalizer *)

Definition normalizePhone (phone : option string) : string :=
  if negb (Js.truthyOpt phone) then ""
  else
    let digits := Js.stripNonDigits (Js.orEmpty phone) in
    if Js.startsWith digits "7" && (String.length digits =? 11)%nat
    then Js.substringFrom 1 digits
    else if Js.startsWith digits "8" && (String.length digits =? 11)%nat
    then Js.substringFrom 1 digits
    else digits.

(** ** The texts of the refusals *)

Module Msg.
Definition invalidBookingData : string := "Invalid booking data".
Definition roomOccupiedWholeDayCreate : string :=
  "На этот день уже есть бронирования в этом кабинете. Посуточная бронь невозможна.".
Definition roomOccupiedWholeDayEdit : string :=
  "На этот день уже есть бронирования в этом кабинете.".
Definition roomReservedForDayCreate : string :=
  "Кабинет забронирован на весь день. Почасовая бронь невозможна.".
Definition roomReservedForDayEdit : string :=
  "Кабинет забронирован на весь день.".
Definition timeSlotOverlap : string :=
  "Выбранное время пересекается с существующей бронью.".
Definition clientBookedElsewhere : string :=
  "Этот клиент уже забронирован в другом кабинете на этот день.".
Definition clientTimeConflict : string :=
  "Этот клиент уже занят в другом кабинете в это время.".
Definition notFound : string := "Бронирование не найдено".
Definition mergeIdsRequired : string := "sourceUserId and targetUserId required".
End Msg.

(** ** [POST /api/bookings] *)

(** The interval test written in both [some] callbacks:
    [newStart < bEnd && newEnd > bStart]. *)
Definition overlaps (newStart newEnd : Z) (b : Booking.t) : bool :=
  let bStart := Js.orZero (Booking.startHour b) in
  let bEnd := bStart + Js.orZero (Booking.duration b) in
  (newStart <? bEnd) && (newEnd >? bStart).

(** The callback of [clientOverlap]: another room, and either a daily
    booking or an overlapping interval. *)
Definition clientOverlapWith (room newStart newEnd : Z) (b : Booking.t) : bool :=
  if Booking.roomNumber b =? room then false
  else if Booking.bookingType b === "daily" then true
  else overlaps newStart newEnd b.

(** Lines 250-261: normalise the phone, then adopt the registered user that
    owns it.  The only storage call is the read [getUserByPhone]. *)
Definition resolveIdentity (data : InsertBooking.t) (db : Db) : InsertBooking.t :=
  let data :=
    if Js.truthyOpt (InsertBooking.userPhone data)
    then InsertBooking.setUserPhone
           (Some (normalizePhone (InsertBooking.userPhone data))) data
    else data in
  if Js.truthyOpt (InsertBooking.userPhone data)
  then
    let existingUser :=
      Storage.getUserByPhone (Js.orEmpty (InsertBooking.userPhone data)) db in
    match existingUser with
    | Some u =>
        InsertBooking.setIdentity (User.id u) (User.name u)
          (Some (normalizePhone (User.phone u))) data
    | None => data
    end
  else data.

(** Lines 263-284. *)
Definition roomCheckCreate (data : InsertBooking.t) : Handler unit :=
  existingBookings <- query (Storage.getBookingsByRoom
                               (InsertBooking.roomNumber data)
                               (InsertBooking.date data)) ;;
  if InsertBooking.bookingType data === "daily"
  then
    if Js.nonEmpty existingBookings
    then reply (jsonError 409 Msg.roomOccupiedWholeDayCreate)
    else ret tt
  else
    let hasDailyBooking :=
      existsb (fun b => Booking.bookingType b === "daily") existingBookings in
    if hasDailyBooking
    then reply (jsonError 409 Msg.roomReservedForDayCreate)
    else
      let newStart := InsertBooking.startHour data in
      let newEnd := Js.orZero newStart + Js.orZero (InsertBooking.duration data) in
      let overlap := existsb (overlaps (Js.orZero newStart) newEnd) existingBookings in
      if overlap
      then reply (jsonError 409 Msg.timeSlotOverlap)
      else ret tt.

(** Line 287: the bookings of the date that belong to the proposing
    client. *)
Definition userBookingsCreate (data : InsertBooking.t)
    (allDateBookings : list Booking.t) : list Booking.t :=
  filter (fun b => (Booking.userId b === InsertBooking.userId data)
                   || (Js.truthyOpt (InsertBooking.userPhone data)
                       && Js.strictEqOpt (Booking.userPhone b)
                            (InsertBooking.userPhone data)))
         allDateBookings.

(** Lines 286-308. *)
Definition clientCheckCreate (data : InsertBooking.t) : Handler unit :=
  allDateBookings <- query (Storage.getBookingsByDate (InsertBooking.date data)) ;;
  let userBookings := userBookingsCreate data allDateBookings in
  if Js.nonEmpty userBookings
  then
    if InsertBooking.bookingType data === "daily"
    then
      let userInOtherRoom :=
        existsb (fun b => negb (Booking.roomNumber b
                                =? InsertBooking.roomNumber data))
                userBookings in
      if userInOtherRoom
      then reply (jsonError 409 Msg.clientBookedElsewhere)
      else ret tt
    else
      let newStart := Js.orZero (InsertBooking.startHour data) in
      let newEnd := newStart + Js.orZero (InsertBooking.duration data) in
      let clientOverlap :=
        existsb (clientOverlapWith (InsertBooking.roomNumber data)
                   newStart newEnd)
                userBookings in
      if clientOverlap
      then reply (jsonError 409 Msg.clientTimeConflict)
      else ret tt
  else ret tt.

(** The handler.  [reqBody] is [None] when [insertBookingSchema.safeParse]
    refuses the body; [uuid] and [now] are the values the insert draws for
    [id] and [createdAt]. *)
Definition postBookings (uuid : string) (now : Z)
    (reqBody : option InsertBooking.t) : Db -> Response * Db :=
  tryCatch
    (match reqBody with
     | None => reply (jsonError 400 Msg.invalidBookingData)
     | Some parsed =>
         data <- query (resolveIdentity parsed) ;;
         roomCheckCreate data ;;;
         clientCheckCreate data ;;;
         attempt (Storage.createBooking uuid now data) ;;;
         reply (mkResponse 201 (JsonBooking (Storage.newBooking uuid now data)))
     end)
    "Failed to create booking".

(** ** [DELETE /api/bookings/:id] *)

(** [snapshotOk] tells whether the write of the cancellation row succeeds;
    a failed write throws. *)
Definition deleteBookingRoute (snapshotOk : bool) (uuid : string) (now : Z)
    (id : string) : Db -> Response * Db :=
  tryCatch
    (booking <- query (Storage.getBooking id) ;;
     match booking with
     | Some b =>
         if snapshotOk
         then exec (Storage.createCancellation uuid now
                      (InsertCancellation.mk (Booking.userId b)
                         (Booking.userName b) (Booking.userPhone b)
                         (Booking.roomNumber b) (Booking.date b)
                         (Booking.bookingType b) (Booking.price b)))
         else throw
     | None => ret tt
     end ;;;
     exec (Storage.deleteBooking id) ;;;
     reply (mkResponse 204 NoBody))
    "Failed to delete booking".

(** ** [PUT /api/bookings/:id/edit] *)

(** The keys the handler reads from [req.body].  For [startHour] and
    [duration] the handler tells a missing key ([None]) from a present
    [null] ([Some None]).  Any other key of the body, [price] included, is
    never read. *)
Module EditBody.
Record t : Type := mk
  { roomNumber : option Z;
    date : option string;
    startHour : option (option Z);
    duration : option (option Z);
    bookingType : option string;
    price : option Z }.

(** The same body with another value under the key [price]. *)
Definition withPrice (v : option Z) (r : t) : t :=
  mk (roomNumber r) (date r) (startHour r) (duration r) (bookingType r) v.
End EditBody.

(** The values of lines 347-361. *)
Record EditPlan : Type := mkEditPlan
  { newRoom : Z;
    newDate : string;
    newType : string;
    newStart : option Z;
    newDuration : option Z;
    newPrice : Z }.

Definition planEdit (booking : Booking.t) (req : EditBody.t) : EditPlan :=
  let newRoom := Js.orElseZ (EditBody.roomNumber req) (Booking.roomNumber booking) in
  let newDate := Js.orElseStr (EditBody.date req) (Booking.date booking) in
  let newType := Js.orElseStr (EditBody.bookingType req) (Booking.bookingType booking) in
  let newStart :=
    match EditBody.startHour req with
    | Some v => v
    | None => Booking.startHour booking
    end in
  let newDuration :=
    match EditBody.duration req with
    | Some v => v
    | None => Booking.duration booking
    end in
  if newType === "daily"
  then mkEditPlan newRoom newDate newType (Some 20) (Some 24) 3200
  else mkEditPlan newRoom newDate newType newStart newDuration
         (Js.orZero newDuration * 200).

(** Whether the numbers of a plan fit the integer columns they are written
    to at line 411. *)
Definition editFits (p : EditPlan) : bool :=
  Storage.detailsFit (newRoom p) (newStart p) (newDuration p) (newPrice p).

(** Lines 363-385. *)
Definition roomCheckEdit (booking : Booking.t) (p : EditPlan) : Handler unit :=
  existingBookings <- query (Storage.getBookingsByRoom (newRoom p) (newDate p)) ;;
  let otherBookings :=
    filter (fun b => negb (Booking.id b === Booking.id booking)) existingBookings in
  if newType p === "daily"
  then
    if Js.nonEmpty otherBookings
    then reply (jsonError 409 Msg.roomOccupiedWholeDayEdit)
    else ret tt
  else
    let hasDailyBooking :=
      existsb (fun b => Booking.bookingType b === "daily") otherBookings in
    if hasDailyBooking
    then reply (jsonError 409 Msg.roomReservedForDayEdit)
    else
      let ns := Js.orZero (newStart p) in
      let ne := ns + Js.orZero (newDuration p) in
      let overlap := existsb (overlaps ns ne) otherBookings in
      if overlap
      then reply (jsonError 409 Msg.timeSlotOverlap)
      else ret tt.

(** Line 388. *)
Definition userBookingsEdit (booking : Booking.t)
    (allDateBookings : list Booking.t) : list Booking.t :=
  filter (fun b => negb (Booking.id b === Booking.id booking)
                   && ((Booking.userId b === Booking.userId booking)
                       || (Js.truthyOpt (Booking.userPhone booking)
                           && Js.strictEqOpt (Booking.userPhone b)
                                (Booking.userPhone booking))))
         allDateBookings.

(** Lines 387-409. *)
Definition clientCheckEdit (booking : Booking.t) (p : EditPlan) : Handler unit :=
  allDateBookings <- query (Storage.getBookingsByDate (newDate p)) ;;
  let userBookings := userBookingsEdit booking allDateBookings in
  if Js.nonEmpty userBookings
  then
    if newType p === "daily"
    then
      let userInOtherRoom :=
        existsb (fun b => negb (Booking.roomNumber b =? newRoom p)) userBookings in
      if userInOtherRoom
      then reply (jsonError 409 Msg.clientBookedElsewhere)
      else ret tt
    else
      let ns := Js.orZero (newStart p) in
      let ne := ns + Js.orZero (newDuration p) in
      let clientOverlap := existsb (clientOverlapWith (newRoom p) ns ne) userBookings in
      if clientOverlap
      then reply (jsonError 409 Msg.clientTimeConflict)
      else ret tt
  else ret tt.

Definition putBookingEdit (id : string) (req : EditBody.t)
    : Db -> Response * Db :=
  tryCatch
    (found <- query (Storage.getBooking id) ;;
     match found with
     | None => reply (jsonError 404 Msg.notFound)
     | Some booking =>
         let p := planEdit booking req in
         roomCheckEdit booking p ;;;
         clientCheckEdit booking p ;;;
         attempt (Storage.updateBookingDetails id (newRoom p) (newDate p)
                 (newStart p) (newDuration p) (newType p) (newPrice p)) ;;;
         reply (mkResponse 200 JsonSuccess)
     end)
    "Failed to edit booking".

(** ** [POST /api/admin/merge-clients] *)

(** The keys the handler reads from [req.body]; a key that is missing is
    [None].  A missing [targetUserName] reaches the two update methods as
    [undefined]. *)
Module MergeBody.
Record t : Type := mk
  { sourceUserId : option string;
    targetUserId : option string;
    targetUserName : option string;
    targetUserPhone : option string }.
End MergeBody.

Definition postMergeClients (req : MergeBody.t) : Db -> Response * Db :=
  tryCatch
    (if negb (Js.truthyOpt (MergeBody.sourceUserId req))
        || negb (Js.truthyOpt (MergeBody.targetUserId req))
     then reply (jsonError 400 Msg.mergeIdsRequired)
     else
       let sourceUserId := Js.orEmpty (MergeBody.sourceUserId req) in
       let targetUserId := Js.orEmpty (MergeBody.targetUserId req) in
       let targetUserName := MergeBody.targetUserName req in
       allBookings <- query Storage.getBookings ;;
       allCancellations <- query Storage.getCancellations ;;
       let phone := normalizePhone (MergeBody.targetUserPhone req) in
       n <- forOf allBookings 0
              (fun updatedCount b =>
                 if Booking.userId b === sourceUserId
                 then
                   exec (Storage.updateBookingClient (Booking.id b)
                           targetUserId targetUserName phone) ;;;
                   ret (updatedCount + 1)
                 else ret updatedCount) ;;
       n <- forOf allCancellations n
              (fun updatedCount c =>
                 if Cancellation.userId c === sourceUserId
                 then
                   exec (Storage.updateCancellationClient (Cancellation.id c)
                           targetUserId targetUserName phone) ;;;
                   ret (updatedCount + 1)
                 else ret updatedCount) ;;
       reply (mkResponse 200 (JsonUpdated n)))
    "Failed to merge clients".

(** ** [POST /api/admin/cleanup-duplicates] *)

(** [Record<string, T[]>] filled by [groups[k].push(x)]: the own keys in
    insertion order.  The groups hold disjoint rows and every write names
    its row by [id], so the enumeration order of [Object.entries] does not
    show in the result. *)
Definition Groups (A : Type) : Type := list (string * list A).

Fixpoint pushGroup {A : Type} (key : string) (x : A) (g : Groups A) : Groups A :=
  match g with
  | [] => [(key, [x])]
  | (k, xs) :: r =>
      if k === key then (k, (xs ++ [x])%list) :: r
      else (k, xs) :: pushGroup key x r
  end.

Fixpoint lookupGroup {A : Type} (key : string) (g : Groups A) : option (list A) :=
  match g with
  | [] => None
  | (k, xs) :: r => if k === key then Some xs else lookupGroup key r
  end.

(** The lower-case names that an object literal inherits from
    [Object.prototype]: for them [groups[name]] is truthy and has no
    [push], and the loop throws. *)
Definition inheritedKey (key : string) : bool :=
  (key === "constructor") || (key === "__proto__").

(** Lines 758-764 and 797-803. *)
Fixpoint groupWalkIns {A : Type} (userId userName : A -> string)
    (rows : list A) (groups : Groups A) : option (Groups A) :=
  match rows with
  | [] => Some groups
  | b :: r =>
      if negb (Js.startsWith (userId b) "walk_in_")
      then groupWalkIns userId userName r groups
      else
        let trimmedName := Js.toLowerCase (Js.trim (userName b)) in
        if negb (Js.truthy trimmedName)
        then groupWalkIns userId userName r groups
        else if inheritedKey trimmedName then None
        else groupWalkIns userId userName r (pushGroup trimmedName b groups)
  end.

(** [b.userPhone && b.userPhone.trim() !== ''] *)
Definition hasPhone (b : Booking.t) : bool :=
  match Booking.userPhone b with
  | Some p => Js.truthy p && negb (Js.trim p === "")
  | None => false
  end.

(** [bookings.find(hasPhone) || bookings[0]] *)
Definition canonicalOf (group : list Booking.t) : option Booking.t :=
  match find hasPhone group with
  | Some b => Some b
  | None => hd_error group
  end.

(** Lines 767-781, one group. *)
Definition dedupGroup (updatedCount : Z) (group : list Booking.t) : Handler Z :=
  if (length group <=? 1)%nat then ret updatedCount
  else
    match canonicalOf group with
    | None => throw
    | Some canonical =>
        let canonicalId := Booking.userId canonical in
        let canonicalName := Js.trim (Booking.userName canonical) in
        let canonicalPhone := normalizePhone (Booking.userPhone canonical) in
        forOf group updatedCount
          (fun updatedCount b =>
             if (Booking.userId b === canonicalId)
                && (Booking.userName b === canonicalName)
                && (normalizePhone (Booking.userPhone b) === canonicalPhone)
             then ret updatedCount
             else
               exec (Storage.updateBookingClient (Booking.id b) canonicalId
                       (Some canonicalName) canonicalPhone) ;;;
               ret (updatedCount + 1))
    end.

(** Lines 784-792. *)
Definition normalizeStoredPhone (updatedCount : Z) (b : Booking.t) : Handler Z :=
  match Booking.userPhone b with
  | Some p =>
      if Js.truthy p
      then
        let norm := normalizePhone (Some p) in
        if negb (norm === p)
        then
          exec (Storage.updateBookingClient (Booking.id b) (Booking.userId b)
                  (Some (Booking.userName b)) norm) ;;;
          ret (updatedCount + 1)
        else ret updatedCount
      else ret updatedCount
  | None => ret updatedCount
  end.

(** Lines 806-823, one group of cancellations. *)
Definition dedupCancelGroup (groups : Groups Booking.t) (updatedCount : Z)
    (entry : string * list Cancellation.t) : Handler Z :=
  let (name, cancels) := entry in
  match lookupGroup name groups with
  | None => ret updatedCount
  | Some group =>
      match canonicalOf group with
      | None => throw
      | Some canonical =>
          let reassign (c : Cancellation.t) : Handler unit :=
            exec (Storage.updateCancellationClient (Cancellation.id c)
                    (Booking.userId canonical)
                    (Some (Js.trim (Booking.userName canonical)))
                    (normalizePhone (Booking.userPhone canonical))) in
          forOf cancels updatedCount
            (fun updatedCount c =>
               if Js.truthyOpt (Cancellation.userPhone c)
               then
                 let norm := normalizePhone (Cancellation.userPhone c) in
                 if negb (Js.strictEqOpt (Some norm) (Cancellation.userPhone c))
                    || negb (Cancellation.userId c === Booking.userId canonical)
                 then reassign c ;;; ret (updatedCount + 1)
                 else ret updatedCount
               else reassign c ;;; ret (updatedCount + 1))
      end
  end.

Definition orThrow {A : Type} (o : option A) : Handler A :=
  match o with
  | Some a => ret a
  | None => throw
  end.

Definition postCleanupDuplicates : Db -> Response * Db :=
  tryCatch
    (allBookings <- query Storage.getBookings ;;
     groups <- orThrow (groupWalkIns Booking.userId Booking.userName
                          allBookings []) ;;
     n <- forOf groups 0 (fun updatedCount entry => dedupGroup updatedCount (snd entry)) ;;
     n <- forOf allBookings n normalizeStoredPhone ;;
     allCancellations <- query Storage.getCancellations ;;
     cancelGroups <- orThrow (groupWalkIns Cancellation.userId
                                Cancellation.userName allCancellations []) ;;
     n <- forOf cancelGroups n (dedupCancelGroup groups) ;;
     reply (mkResponse 200 (JsonUpdated n)))
    "Failed to clean up duplicates".

(** ** The reasons of the specification

    The handlers tell the refusals apart by status and text only; this is
    the reading of the texts in the vocabulary of the specification. *)

Inductive Reason : Type :=
| InvalidBookingData
| RoomOccupiedWholeDay
| RoomReservedForDay
| TimeSlotOverlap
| ClientBookedElsewhere
| ClientTimeConflict
| NotFound.

Definition reasonOfText (msg : string) : option Reason :=
  if msg === Msg.invalidBookingData then Some InvalidBookingData
  else if (msg === Msg.roomOccupiedWholeDayCreate)
          || (msg === Msg.roomOccupiedWholeDayEdit)
  then Some RoomOccupiedWholeDay
  else if (msg === Msg.roomReservedForDayCreate)
          || (msg === Msg.roomReservedForDayEdit)
  then Some RoomReservedForDay
  else if msg === Msg.timeSlotOverlap then Some TimeSlotOverlap
  else if msg === Msg.clientBookedElsewhere then Some ClientBookedElsewhere
  else if msg === Msg.clientTimeConflict then Some ClientTimeConflict
  else if msg === Msg.notFound then Some NotFound
  else None.

Definition reasonOf (r : Response) : option Reason :=
  match body r with
  | JsonError msg => reasonOfText msg
  | _ => None
  end.

(** A booking type is daily exactly when it is the literal the handlers
    test for; every other value takes their hourly branch. *)
Definition isDaily (ty : string) : bool := ty === "daily".

(** The bookings a proposal is compared with in its room and date: lines
    263 (create) and 363-364 (edit, without the edited booking). *)
Definition roomOthersCreate (data : InsertBooking.t) (db : Db) : list Booking.t :=
  Storage.getBookingsByRoom (InsertBooking.roomNumber data)
    (InsertBooking.date data) db.

Definition roomOthersEdit (booking : Booking.t) (p : EditPlan) (db : Db)
    : list Booking.t :=
  filter (fun b => negb (Booking.id b === Booking.id booking))
         (Storage.getBookingsByRoom (newRoom p) (newDate p) db).

(** The client's bookings of the date in another room: lines 286-298
    (create) and 387-399 (edit). *)
Definition clientOthersCreate (data : InsertBooking.t) (db : Db) : list Booking.t :=
  filter (fun b => negb (Booking.roomNumber b =? InsertBooking.roomNumber data))
         (userBookingsCreate data
            (Storage.getBookingsByDate (InsertBooking.date data) db)).

Definition clientOthersEdit (booking : Booking.t) (p : EditPlan) (db : Db)
    : list Booking.t :=
  filter (fun b => negb (Booking.roomNumber b =? newRoom p))
         (userBookingsEdit booking (Storage.getBookingsByDate (newDate p) db)).

(** The half-open interval a proposal asks for. *)
Definition createStart (data : InsertBooking.t) : Z :=
  Js.orZero (InsertBooking.startHour data).

Definition createEnd (data : InsertBooking.t) : Z :=
  createStart data + Js.orZero (InsertBooking.duration data).

Definition editStart (p : EditPlan) : Z := Js.orZero (newStart p).

Definition editEnd (p : EditPlan) : Z := editStart p + Js.orZero (newDuration p).

(** Strings made of decimal digits only. *)
Fixpoint allDigits (s : string) : bool :=
  match s with
  | EmptyString => true
  | String c r => Js.isDigit c && allDigits r
  end.

(** The half-open interval test of the specification between a proposed
    interval [[s, e)] and a stored booking:
    [proposed.start < other.end && proposed.end > other.start]. *)
Definition HalfOpenOverlap (s e : Z) (other : Booking.t) : Prop :=
  s < Js.orZero (Booking.startHour other) + Js.orZero (Booking.duration other)
  /\ e > Js.orZero (Booking.startHour other).

(** A run of a handler that refuses with status 409 and the text [msg] and
    leaves the database as it found it. *)
Definition Refused (run : Response * Db) (msg : string) (db : Db) : Prop :=
  run = (jsonError 409 msg, db).

(** A run that refuses with status 409 for the reason [reason] of the
    specification and leaves the database as it found it. *)
Definition RefusedFor (run : Response * Db) (reason : Reason) (db : Db) : Prop :=
  status (fst run) = 409 /\ reasonOf (fst run) = Some reason /\ snd run = db.

(** ** Sample data

    The scenarios of the specification, on one date. *)

Module Scenario.

Definition day : string := "2025-03-01".

(** A stored booking with the column defaults. *)
Definition stored (id : string) (room : Z) (uid uname : string)
    (phone : option string) (start dur : option Z) (ty : string) (price : Z)
    : Booking.t :=
  Booking.mk id room uid uname phone day start dur ty price (Some false)
    None None (Some false) (Some 0) 0.

(** A request body for [POST /api/bookings] without payment keys. *)
Definition request (room : Z) (uid uname : string) (phone : option string)
    (start dur : option Z) (ty : string) (price : Z) : InsertBooking.t :=
  InsertBooking.mk room uid uname phone day start dur ty price None None
    None None None.

(** An edit body with no key. *)
Definition noKeys : EditBody.t := EditBody.mk None None None None None None.

(** Room 2 holds 10:00-12:00 for client X. *)
Definition tenToTwelve : Booking.t :=
  stored "b1" 2 "x" "X" None (Some 20) (Some 4) "hourly" 800.

Definition dbHourly : Db := mkDb [] [tenToTwelve] [].

(** Room 2 also holds 12:00-13:00 for client Y. *)
Definition noon : Booking.t :=
  stored "b2" 2 "y" "Y" None (Some 24) (Some 2) "hourly" 400.

Definition dbTwoInRoom : Db := mkDb [] [tenToTwelve; noon] [].

(** Room 1 holds a daily booking for client X. *)
Definition wholeDay : Booking.t :=
  stored "b1" 1 "x" "X" None (Some 20) (Some 24) "daily" 3200.

Definition dbDaily : Db := mkDb [] [wholeDay] [].

(** Room 1 holds 10:00-12:00 for client X. *)
Definition roomOneMorning : Booking.t :=
  stored "b1" 1 "x" "X" None (Some 20) (Some 4) "hourly" 800.

Definition dbRoomOne : Db := mkDb [] [roomOneMorning] [].

(** Room 1 holds 10:00-12:00 for a walk-in with a stored phone. *)
Definition walkInMorning : Booking.t :=
  stored "b1" 1 "walk_in_9" "Ivan" (Some "9123456789") (Some 20) (Some 4)
    "hourly" 800.

Definition dbWalkIn : Db := mkDb [] [walkInMorning] [].

(** Another user id asks for room 2 at 11:00-12:00 with the same phone. *)
Definition samePhoneRequest : InsertBooking.t :=
  request 2 "u7" "Ivan P." (Some "+7 (912) 345-67-89") (Some 22) (Some 2)
    "hourly" 400.

(** A walk-in holds room 1 at 10:00-12:00 and has one cancellation on
    record; user u7 holds room 2 at 11:00-12:00. *)
Definition dbMerge : Db :=
  mkDb []
    [walkInMorning;
     stored "b2" 2 "u7" "Ivan P." (Some "9123456789") (Some 22) (Some 2)
       "hourly" 400]
    [Cancellation.mk "c1" "walk_in_9" "Ivan" None 3 day "hourly" 400 5].

Definition mergeWalkIn : MergeBody.t :=
  MergeBody.mk (Some "walk_in_9") (Some "u7") (Some "Ivan P.")
    (Some "+7 (912) 345-67-89").

(** One walk-in booking and one cancellation of the same walk-in, both
    without a phone. *)
Definition dbPhoneless : Db :=
  mkDb []
    [stored "b1" 1 "walk_in_1" "Ivan" None (Some 20) (Some 2) "hourly" 400]
    [Cancellation.mk "c1" "walk_in_1" "Ivan" None 1 day "hourly" 400 5].

(** Two walk-in bookings under one name; the second carries another id and
    a phone that is not yet normalised. *)
Definition dbTwoWalkIns : Db :=
  mkDb []
    [stored "b1" 1 "walk_in_1" "Ivan" (Some "9990001122") (Some 20) (Some 2)
       "hourly" 400;
     stored "b2" 1 "walk_in_2" "Ivan" (Some "8 (912) 345-67-89") (Some 24)
       (Some 2) "hourly" 400]
    [].

End Scenario.

(** [UPDATE t SET .. WHERE id = i], on the rows of a table: [change] is
    applied to the rows whose [id] is [i]. *)
Definition updateById {Row : Type} (rowId : Row -> string) (change : Row -> Row)
    (i : string) (table : list Row) : list Row :=
  map (fun r => if rowId r === i then change r else r) table.




(** ** The invariants of the booking table *)

(** The interval a stored booking occupies, as the overlap callbacks read
    it: [b.startHour || 0] and [bStart + (b.duration || 0)]. *)
Definition bookingStart (b : Booking.t) : Z := Js.orZero (Booking.startHour b).

Definition bookingEnd (b : Booking.t) : Z :=
  bookingStart b + Js.orZero (Booking.duration b).

(** Two bookings of one client, as the filters of lines 287 and 388 decide
    it: the same userId, or the same non-empty userPhone. *)
Definition SameClient (a b : Booking.t) : Prop :=
  Booking.userId a = Booking.userId b \/
  (Js.truthyOpt (Booking.userPhone a) = true /\
   Booking.userPhone a = Booking.userPhone b).

(** Two bookings that can stand side by side: on one date, in one room or
    for one client, neither is daily and their intervals do not overlap. *)
Definition Compatible (a b : Booking.t) : Prop :=
  Booking.date a = Booking.date b ->
  Booking.roomNumber a = Booking.roomNumber b \/ SameClient a b ->
  isDaily (Booking.bookingType a) = false /\
  isDaily (Booking.bookingType b) = false /\
  ~ HalfOpenOverlap (bookingStart a) (bookingEnd a) b.

(** No two rows of the booking table conflict. *)
Definition Consistent (db : Db) : Prop :=
  ForallOrdPairs Compatible (bookings db).

(** [id] is the primary key of the booking table. *)
Definition UniqueIds (db : Db) : Prop :=
  NoDup (map Booking.id (bookings db)).

(** ** Stored phones *)

(** A stored phone is clean when it is [NULL] or a value the normalizer
    returns unchanged. *)
Definition CleanPhone (p : option string) : Prop :=
  forall s, p = Some s -> normalizePhone (Some s) = s.

Definition PhonesClean (db : Db) : Prop :=
  forall b, In b (bookings db) -> CleanPhone (Booking.userPhone b).

(** The columns of a booking that [updateBookingClient] does not set, and
    those of a cancellation that [updateCancellationClient] does not set:
    the row with the three client columns blanked. *)
Definition bookingFrame (b : Booking.t) : Booking.t :=
  Booking.setClient "" "" None b.

Definition cancellationFrame (c : Cancellation.t) : Cancellation.t :=
  Cancellation.setClient "" "" None c.

(** Two databases that differ at most in the client columns of their
    bookings and cancellations. *)
Definition SameFrame (db db' : Db) : Prop :=
  users db' = users db /\
  map bookingFrame (bookings db') = map bookingFrame (bookings db) /\
  map cancellationFrame (cancellations db')
  = map cancellationFrame (cancellations db).

(** The same up to the order in which the tables hold their rows. *)
Definition SameOutsideClient (db db' : Db) : Prop :=
  users db' = users db /\
  Permutation (map bookingFrame (bookings db'))
    (map bookingFrame (bookings db)) /\
  Permutation (map cancellationFrame (cancellations db'))
    (map cancellationFrame (cancellations db)).

(** ** More sample data *)

Module Sample.

(** A registered client whose phone is stored in normal form. *)
Definition registered : User.t :=
  User.mk "u1" "Anna" (Some "9123456789") (Some "hash") "client" None 0.

Definition dbRegistered : Db := mkDb [registered] [] [].

(** A walk-in request that carries the registered client's phone. *)
Definition walkInWithKnownPhone : InsertBooking.t :=
  Scenario.request 1 "walk_in_5" "A." (Some "8 (912) 345-67-89") (Some 20)
    (Some 2) "hourly" 400.

End Sample.

(** A handler step keeps [P] when the database it leaves satisfies [P]
    whenever the one it found did, however the step ends. *)
Definition Keeps {A : Type} (P : Db -> Prop) (m : Handler A) : Prop :=
  forall db, P db -> P (snd (m db)).

(** ** [markBookingPaid] and [PUT /api/bookings/:id/paid] *)

(** [.set(updateData)]: [paid] and [paymentMethod] are always set; the
    other three columns only when [updateData] has their key. *)
Definition setPayment (paid : bool) (paymentMethod : option string)
    (paidAmount : option (option Z)) (isDebtor : option (option bool))
    (extraTime : option (option Z)) (b : Booking.t) : Booking.t :=
  Booking.mk (Booking.id b) (Booking.roomNumber b) (Booking.userId b)
    (Booking.userName b) (Booking.userPhone b) (Booking.date b)
    (Booking.startHour b) (Booking.duration b) (Booking.bookingType b)
    (Booking.price b) (Some paid) paymentMethod
    (match paidAmount with Some v => v | None => Booking.paidAmount b end)
    (match isDebtor with Some v => v | None => Booking.isDebtor b end)
    (match extraTime with Some v => v | None => Booking.extraTime b end)
    (Booking.createdAt b).

(** [x] under a key of [updateData] that may be missing, for an
    [integer(..)] column. *)
Definition fitsIntegerKey (v : option (option Z)) : bool :=
  match v with
  | Some x => Storage.fitsIntegerOpt x
  | None => true
  end.

(** Lines 117-126.  An argument that is [undefined] is [None].  The
    update is refused when [updateData] carries a number outside the range
    of [paid_amount] or [extra_time]. *)
Definition markBookingPaid (id : string) (paid : bool)
    (paymentMethod : option string) (paidAmount : option (option Z))
    (isDebtor : option (option bool)) (extraTime : option (option Z))
    (db : Db) : option Db :=
  let method :=
    if paid
    then (if Js.truthyOpt paymentMethod then paymentMethod else None)
    else None in
  let amount := if negb paid then Some None else paidAmount in
  if fitsIntegerKey amount && fitsIntegerKey extraTime
  then
    Some (withBookings
            (map (fun b => if Booking.id b === id
                           then setPayment paid method amount isDebtor extraTime b
                           else b))
            db)
  else None.

(** The keys the handler reads from [req.body]; [paid] is [Some v] when the
    body has a boolean under that key. *)
Module PaidBody.
Record t : Type := mk
  { paid : option bool;
    paymentMethod : option string;
    paidAmount : option (option Z);
    isDebtor : option (option bool);
    extraTime : option (option Z) }.
End PaidBody.

(** Lines 419-428; [paid === true]. *)
Definition putBookingPaid (id : string) (req : PaidBody.t)
    : Db -> Response * Db :=
  tryCatch
    (attempt (markBookingPaid id
             (match PaidBody.paid req with
              | Some true => true
              | _ => false
              end)
             (PaidBody.paymentMethod req) (PaidBody.paidAmount req)
             (PaidBody.isDebtor req) (PaidBody.extraTime req)) ;;;
     reply (mkResponse 204 NoBody))
    "Failed to update payment status".

(** Whether the numbers a payment body sends to the table fit the integer
    columns: [paidAmount] is sent as [null] unless [paid] is [true]. *)
Definition paidFits (req : PaidBody.t) : bool :=
  match PaidBody.paid req with
  | Some true => fitsIntegerKey (PaidBody.paidAmount req)
  | _ => true
  end
  && fitsIntegerKey (PaidBody.extraTime req).

(** The columns of a booking other than the five payment columns: the row
    with those five blanked. *)
Definition withoutPayment (b : Booking.t) : Booking.t :=
  setPayment false None (Some None) (Some None) (Some None) b.

(** ** [getBookingsByUserId] *)

(** Lines 87-93: the bookings of a user in the order of [getBookings]. *)
Definition getBookingsByUserId (userId : string) (db : Db) : list Booking.t :=
  sortBy Storage.bookingBefore
    (filter (fun b => Booking.userId b === userId) (bookings db)).

(** Two databases with the same users and the same bookings up to the
    payment columns. *)
Definition SameUpToPayment (db db' : Db) : Prop :=
  users db' = users db /\
  map withoutPayment (bookings db') = map withoutPayment (bookings db).

(** ** Users, chats and messages *)

Module Chat.
Record t : Type := mk
  { id : string;
    clientId : string;
    clientName : string;
    clientPhone : option string;
    lastMessage : option string;
    lastMessageTime : option Z;
    unreadCount : option Z;
    createdAt : Z }.

(** [.set(updates)] of [updateChatLastMessage]: [unreadCount] only when
    [updates] has the key. *)
Definition setLastMessage (message : string) (time : Z) (unread : option Z)
    (c : t) : t :=
  mk (id c) (clientId c) (clientName c) (clientPhone c) (Some message)
     (Some time)
     (match unread with Some n => Some n | None => unreadCount c end)
     (createdAt c).

(** [.set({ unreadCount: 0 })] *)
Definition setRead (c : t) : t :=
  mk (id c) (clientId c) (clientName c) (clientPhone c) (lastMessage c)
     (lastMessageTime c) (Some 0) (createdAt c).
End Chat.

Module Message.
Record t : Type := mk
  { id : string;
    chatId : string;
    senderId : string;
    senderName : string;
    senderRole : string;
    text : string;
    timestamp : Z }.
End Message.

(** [InsertMessage]: the message columns without [id] and [timestamp]. *)
Module InsertMessage.
Record t : Type := mk
  { chatId : string;
    senderId : string;
    senderName : string;
    senderRole : string;
    text : string }.
End InsertMessage.

(** The server state: the booking database with the two chat tables. *)
Record Server : Type := mkServer
  { db : Db;
    chats : list Chat.t;
    messages : list Message.t }.

(** The answers of the user and chat routes. *)
Inductive UserBody : Type :=
| UserError (error : string)
| UserInfo (id name : string) (phone : option string) (role : string)
| UserExists (id name : string) (phone : option string)
| UserUnknown
| MessageBody (message : Message.t)
| ChatBody (chat : Chat.t)
| UserNoBody.

Record UserResponse : Type := mkUserResponse
  { userStatus : Z;
    userBody : UserBody }.

(** [createUser] with the values the register route passes: the hashed
    password and the role; [adminUsername] stays [NULL]. *)
Definition createUser (uuid : string) (now : Z) (name : string)
    (phone : option string) (password : option string) (role : string)
    (d : Db) : Db :=
  mkDb (users d ++ [User.mk uuid name phone password role None now])%list
    (bookings d) (cancellations d).

(** [createChat] with the values the register route passes; the other
    columns take their defaults. *)
Definition createChat (uuid : string) (now : Z) (clientId clientName : string)
    (clientPhone : option string) (cs : list Chat.t) : list Chat.t :=
  (cs ++ [Chat.mk uuid clientId clientName clientPhone None None (Some 0) now])%list.

Definition getChatByPhone (phone : string) (cs : list Chat.t) : option Chat.t :=
  find (fun c => Js.strictEqOpt (Chat.clientPhone c) (Some phone)) cs.

(** [orderBy(desc(chats.lastMessageTime))]: latest first, [NULL] first. *)
Definition chatBefore (a b : Chat.t) : bool :=
  match Chat.lastMessageTime a, Chat.lastMessageTime b with
  | None, _ => true
  | Some _, None => false
  | Some x, Some y => y <=? x
  end.

Definition getChats (cs : list Chat.t) : list Chat.t := sortBy chatBefore cs.

Definition updateChatLastMessage (chatId message : string) (now : Z)
    (unreadCount : option Z) (cs : list Chat.t) : list Chat.t :=
  map (fun c => if Chat.id c === chatId
                then Chat.setLastMessage message now unreadCount c
                else c)
      cs.

Definition markChatAsRead (chatId : string) (cs : list Chat.t) : list Chat.t :=
  map (fun c => if Chat.id c === chatId then Chat.setRead c else c) cs.

Definition createMessage (uuid : string) (now : Z) (m : InsertMessage.t)
    : Message.t :=
  Message.mk uuid (InsertMessage.chatId m) (InsertMessage.senderId m)
    (InsertMessage.senderName m) (InsertMessage.senderRole m)
    (InsertMessage.text m) now.

Section Users.

(** The hexadecimal SHA-256 digest of a string, [createHash("sha256")
    .update(s).digest("hex")]. *)
Variable sha256Hex : string -> string.

(** Lines 193-196. *)
Definition hashPassword (password : string) : string :=
  let salt := "altbody_salt_2024" in
  sha256Hex (password ++ salt).

(** [POST /api/users/register], lines 513-550.  [userUuid], [chatUuid] and
    [now] are the values the two inserts draw. *)
Definition postRegister (userUuid chatUuid : string) (now : Z)
    (name rawPhone password : option string) (s : Server)
    : UserResponse * Server :=
  if negb (Js.truthyOpt name) || negb (Js.truthyOpt rawPhone)
     || negb (Js.truthyOpt password)
  then (mkUserResponse 400 (UserError "Name, phone, and password are required"), s)
  else
    let phone := normalizePhone rawPhone in
    match Storage.getUserByPhone phone (db s) with
    | Some _ =>
        (mkUserResponse 400 (UserError "User with this phone already exists"), s)
    | None =>
        let name := Js.orEmpty name in
        let hashed := hashPassword (Js.orEmpty password) in
        (mkUserResponse 201 (UserInfo userUuid name (Some phone) "client"),
         mkServer
           (createUser userUuid now name (Some phone) (Some hashed) "client" (db s))
           (createChat chatUuid now userUuid name (Some phone) (chats s))
           (messages s))
    end.

(** [POST /api/users/login], lines 553-580. *)
Definition postLogin (rawPhone password : option string) (s : Server)
    : UserResponse * Server :=
  if negb (Js.truthyOpt rawPhone) || negb (Js.truthyOpt password)
  then (mkUserResponse 400 (UserError "Phone and password are required"), s)
  else
    let phone := normalizePhone rawPhone in
    match Storage.getUserByPhone phone (db s) with
    | None => (mkUserResponse 401 (UserError "Invalid phone or password"), s)
    | Some user =>
        if negb (Js.strictEqOpt (User.password user)
                   (Some (hashPassword (Js.orEmpty password))))
        then (mkUserResponse 401 (UserError "Invalid phone or password"), s)
        else
          (mkUserResponse 200
             (UserInfo (User.id user) (User.name user) (User.phone user)
                (User.role user)),
           s)
    end.

End Users.

(** [GET /api/users/phone/:phone], lines 583-611. *)
Definition getUserPhone (rawPhone : string) (s : Server) : UserResponse * Server :=
  let phone := normalizePhone (Some rawPhone) in
  match Storage.getUserByPhone phone (db s) with
  | Some user =>
      (mkUserResponse 200
         (UserExists (User.id user) (User.name user) (User.phone user)), s)
  | None =>
      match getChatByPhone phone (chats s) with
      | Some chat =>
          (mkUserResponse 200
             (UserExists (Chat.clientId chat) (Chat.clientName chat)
                (Chat.clientPhone chat)), s)
      | None => (mkUserResponse 200 UserUnknown, s)
      end
  end.

(** [PUT /api/chats/:id/read], lines 644-652. *)
Definition putChatRead (id : string) (s : Server) : UserResponse * Server :=
  (mkUserResponse 204 UserNoBody,
   mkServer (db s) (markChatAsRead id (chats s)) (messages s)).

(** The third argument of [updateChatLastMessage] at line 678:
    [incrementUnread ? found?.unreadCount || 0 + 1 : undefined], where
    [||] binds looser than [+]. *)
Definition unreadArgument (senderRole chatId : string) (cs : list Chat.t)
    : option Z :=
  let incrementUnread := senderRole === "client" in
  if incrementUnread
  then
    let found := find (fun c => Chat.id c === chatId) (getChats cs) in
    let count := match found with
                 | Some c => Chat.unreadCount c
                 | None => None
                 end in
    Some (Js.orElseZ count (0 + 1))
  else None.

(** [POST /api/messages], lines 665-686.  [reqBody] is [None] when
    [insertMessageSchema.safeParse] refuses the body. *)
Definition postMessages (uuid : string) (now : Z)
    (reqBody : option InsertMessage.t) (s : Server) : UserResponse * Server :=
  match reqBody with
  | None => (mkUserResponse 400 (UserError "Invalid message data"), s)
  | Some data =>
      let message := createMessage uuid now data in
      let stored := (messages s ++ [message])%list in
      let unread :=
        unreadArgument (InsertMessage.senderRole data)
          (InsertMessage.chatId data) (chats s) in
      (mkUserResponse 201 (MessageBody message),
       mkServer (db s)
         (updateChatLastMessage (InsertMessage.chatId data)
            (InsertMessage.text data) now unread (chats s))
         stored)
  end.

(** [InsertChat]: the chat columns without [id] and [createdAt]; the outer
    [option] of [unreadCount] tells whether the key is present. *)
Module InsertChat.
Record t : Type := mk
  { clientId : string;
    clientName : string;
    clientPhone : option string;
    lastMessage : option string;
    lastMessageTime : option Z;
    unreadCount : option (option Z) }.
End InsertChat.

Definition getChatByClientId (clientId : string) (cs : list Chat.t)
    : option Chat.t :=
  find (fun c => Chat.clientId c === clientId) cs.

(** The row [insert(chats).values(..)] builds. *)
Definition newChat (uuid : string) (now : Z) (c : InsertChat.t) : Chat.t :=
  Chat.mk uuid (InsertChat.clientId c) (InsertChat.clientName c)
    (InsertChat.clientPhone c) (InsertChat.lastMessage c)
    (InsertChat.lastMessageTime c)
    (match InsertChat.unreadCount c with Some v => v | None => Some 0 end)
    now.

(** [POST /api/chats], lines 624-642.  [reqBody] is [None] when
    [insertChatSchema.safeParse] refuses the body.  [unread_count] is an
    [integer(..)] column: the insert of a number outside its range is
    refused and [createChat] throws. *)
Definition postChats (uuid : string) (now : Z) (reqBody : option InsertChat.t)
    (s : Server) : UserResponse * Server :=
  match reqBody with
  | None => (mkUserResponse 400 (UserError "Invalid chat data"), s)
  | Some data =>
      match getChatByClientId (InsertChat.clientId data) (chats s) with
      | Some existingChat => (mkUserResponse 200 (ChatBody existingChat), s)
      | None =>
          if fitsIntegerKey (InsertChat.unreadCount data)
          then
            (mkUserResponse 201 (ChatBody (newChat uuid now data)),
             mkServer (db s) (chats s ++ [newChat uuid now data])%list
               (messages s))
          else (mkUserResponse 500 (UserError "Failed to create chat"), s)
      end
  end.

(** No two users share a phone. *)
Definition UniquePhones (d : Db) : Prop :=
  forall phone u v,
    In u (users d) -> In v (users d) ->
    User.phone u = Some phone -> User.phone v = Some phone -> u = v.

Module SampleChat.

Definition annaChat : Chat.t :=
  Chat.mk "ch1" "u1" "Anna" (Some "9123456789") None None (Some 0) 0.

Definition server : Server := mkServer Sample.dbRegistered [annaChat] [].

Definition fromClient (text : string) : InsertMessage.t :=
  InsertMessage.mk "ch1" "u1" "Anna" "client" text.

End SampleChat.

(** ** What the dedup leaves of the rows of registered clients *)

(** A booking after the dedup, against the same booking before: the id is
    kept and, unless the booking was a walk-in's, so are userId and
    userName, and the phone is the old one or its normal form. *)
Definition BookingClientKept (r0 r : Booking.t) : Prop :=
  Booking.id r = Booking.id r0 /\
  (Js.startsWith (Booking.userId r0) "walk_in_" = false ->
   Booking.userId r = Booking.userId r0 /\
   Booking.userName r = Booking.userName r0 /\
   (Booking.userPhone r = Booking.userPhone r0 \/
    Booking.userPhone r = Some (normalizePhone (Booking.userPhone r0)))).

(** A cancellation after the dedup, against the same one before: unless it
    was a walk-in's, it is unchanged. *)
Definition CancellationKept (c0 c : Cancellation.t) : Prop :=
  Cancellation.id c = Cancellation.id c0 /\
  (Js.startsWith (Cancellation.userId c0) "walk_in_" = false -> c = c0).

Definition ClientsKept (db0 db : Db) : Prop :=
  Forall2 BookingClientKept (bookings db0) (bookings db) /\
  Forall2 CancellationKept (cancellations db0) (cancellations db).

Module SampleDedup.

(** A registered client and two walk-ins, all called Ivan; the registered
    client's phone is stored with its trunk prefix. *)
Definition db : Db :=
  mkDb []
    [Scenario.stored "b0" 2 "u7" "Ivan" (Some "89120000000") (Some 10) (Some 2)
       "hourly" 400;
     Scenario.stored "b1" 1 "walk_in_1" "Ivan" (Some "9990001122") (Some 20)
       (Some 2) "hourly" 400;
     Scenario.stored "b2" 1 "walk_in_2" "ivan " None (Some 24) (Some 2)
       "hourly" 400]
    [Cancellation.mk "c0" "u7" "Ivan" None 1 Scenario.day "hourly" 400 5;
     Cancellation.mk "c1" "walk_in_2" "Ivan" None 1 Scenario.day "hourly" 400 6].

End SampleDedup.

(** * Properties *)

(** ** The handler monad *)

Lemma bind_query {A B : Type} (q : Db -> A) (k : A -> Handler B) (db : Db) :
  bind (query q) k db = k (q db) db.
Proof. reflexivity. Qed.

Lemma bind_exec {B : Type} (w : Db -> Db) (k : unit -> Handler B) (db : Db) :
  bind (exec w) k db = k tt (w db).
Proof. reflexivity. Qed.

Lemma bind_ret {A B : Type} (a : A) (k : A -> Handler B) (db : Db) :
  bind (ret a) k db = k a db.
Proof. reflexivity. Qed.

(** ** The phone normalizer *)

Section Normalizer.

Lemma stripNonDigits_allDigits (s : string) :
  allDigits (Js.stripNonDigits s) = true.
Proof.
  induction s as [|c r IH]; simpl; [reflexivity|].
  destruct (Js.isDigit c) eqn:Hc; simpl; [rewrite Hc|]; exact IH.
Qed.

Lemma stripNonDigits_fixes_digits (s : string) :
  allDigits s = true -> Js.stripNonDigits s = s.
Proof.
  induction s as [|c r IH]; simpl; [reflexivity|].
  intros H. apply andb_true_iff in H as [Hc Hr].
  rewrite Hc, (IH Hr). reflexivity.
Qed.

Lemma substringFrom_one_length (s : string) :
  String.length (Js.substringFrom 1 s) = pred (String.length s).
Proof. destruct s; reflexivity. Qed.

Lemma substringFrom_one_allDigits (s : string) :
  allDigits s = true -> allDigits (Js.substringFrom 1 s) = true.
Proof.
  destruct s as [|c r]; simpl; [easy|].
  intros H. apply andb_true_iff in H. tauto.
Qed.

(** A digit string that is not an 11-digit number keeps its value. *)
Lemma normalizePhone_short (d : string) :
  allDigits d = true ->
  String.length d <> 11%nat ->
  normalizePhone (Some d) = d.
Proof.
  intros Hd Hlen. unfold normalizePhone. simpl Js.truthyOpt.
  unfold Js.truthy.
  destruct (String.eqb_spec d "") as [->|Hne]; [reflexivity|].
  simpl negb. cbv iota. simpl Js.orEmpty.
  rewrite (stripNonDigits_fixes_digits d Hd).
  apply Nat.eqb_neq in Hlen. rewrite Hlen, !andb_false_r. reflexivity.
Qed.

(** What the normalizer returns is a string of digits; when it has dropped
    nothing, the digits were not an 11-digit number with trunk prefix. *)
Lemma normalizePhone_cases (x : option string) :
  let r := normalizePhone x in
  allDigits r = true /\
  (String.length r <> 11%nat \/
   (Js.startsWith r "7" && (String.length r =? 11)%nat = false /\
    Js.startsWith r "8" && (String.length r =? 11)%nat = false)).
Proof.
  unfold normalizePhone.
  destruct (negb (Js.truthyOpt x)); [simpl; split; [reflexivity|left; discriminate]|].
  set (d := Js.stripNonDigits (Js.orEmpty x)).
  assert (Hd : allDigits d = true) by apply stripNonDigits_allDigits.
  destruct (Js.startsWith d "7" && (String.length d =? 11)%nat) eqn:H7.
  - apply andb_true_iff in H7 as [_ Hl]. apply Nat.eqb_eq in Hl.
    split; [now apply substringFrom_one_allDigits|].
    left. rewrite substringFrom_one_length, Hl. discriminate.
  - destruct (Js.startsWith d "8" && (String.length d =? 11)%nat) eqn:H8.
    + apply andb_true_iff in H8 as [_ Hl]. apply Nat.eqb_eq in Hl.
      split; [now apply substringFrom_one_allDigits|].
      left. rewrite substringFrom_one_length, Hl. discriminate.
    + split; [exact Hd|]. right. now split.
Qed.

End Normalizer.

(** C7. The phone normalizer is idempotent: normalising a normalised value
    returns it unchanged, for every present or absent input.  It sends
    "+7 (912) 345-67-89", "89123456789" and "79123456789" to
    "9123456789", and an absent or empty input to the empty string (the
    result is a string in every case). *)
Theorem normalizePhone_idempotent :
  (forall x : option string,
      normalizePhone (Some (normalizePhone x)) = normalizePhone x) /\
  normalizePhone (Some "+7 (912) 345-67-89") = "9123456789" /\
  normalizePhone (Some "89123456789") = "9123456789" /\
  normalizePhone (Some "79123456789") = "9123456789" /\
  normalizePhone None = "" /\
  normalizePhone (Some "") = "".
Proof.
  split; [|repeat split; reflexivity].
  intros x. destruct (normalizePhone_cases x) as [Hd Hc].
  set (r := normalizePhone x) in *.
  destruct Hc as [Hlen|[H7 H8]]; [now apply normalizePhone_short|].
  unfold normalizePhone at 1. simpl Js.truthyOpt. unfold Js.truthy.
  destruct (String.eqb_spec r "") as [E|Hne]; [now rewrite E|].
  simpl negb. cbv iota. simpl Js.orEmpty.
  rewrite (stripNonDigits_fixes_digits r Hd), H7, H8. reflexivity.
Qed.

(** ** The two checks of the conflict detector *)

Section Checks.

Lemma overlaps_spec (s e : Z) (b : Booking.t) :
  overlaps s e b = true <-> HalfOpenOverlap s e b.
Proof.
  unfold overlaps, HalfOpenOverlap.
  rewrite andb_true_iff, Z.ltb_lt, Z.gtb_gt. reflexivity.
Qed.

Lemma overlaps_false (s e : Z) (b : Booking.t) :
  overlaps s e b = false <-> ~ HalfOpenOverlap s e b.
Proof.
  rewrite <- overlaps_spec. destruct (overlaps s e b); intuition congruence.
Qed.

Lemma nonEmpty_true {A : Type} (l : list A) : Js.nonEmpty l = true <-> l <> [].
Proof. destruct l; simpl; intuition congruence. Qed.

Lemma existsb_false {A : Type} (f : A -> bool) (l : list A) :
  existsb f l = false <-> forall x, In x l -> f x = false.
Proof.
  split.
  - intros H x Hx. destruct (f x) eqn:E; [|reflexivity].
    rewrite <- H. symmetry. apply existsb_exists. now exists x.
  - intros H. destruct (existsb f l) eqn:E; [|reflexivity].
    apply existsb_exists in E as (x & Hx & Hf). rewrite (H x Hx) in Hf.
    discriminate.
Qed.

(** The room check of the create handler, as one decision. *)
Lemma roomCheckCreate_run (data : InsertBooking.t) (db : Db) :
  roomCheckCreate data db =
  let others := roomOthersCreate data db in
  if isDaily (InsertBooking.bookingType data)
  then if Js.nonEmpty others
       then (Reply (jsonError 409 Msg.roomOccupiedWholeDayCreate), db)
       else (Continue tt, db)
  else if existsb (fun b => isDaily (Booking.bookingType b)) others
       then (Reply (jsonError 409 Msg.roomReservedForDayCreate), db)
       else if existsb (overlaps (createStart data) (createEnd data)) others
            then (Reply (jsonError 409 Msg.timeSlotOverlap), db)
            else (Continue tt, db).
Proof.
  unfold roomCheckCreate, roomOthersCreate, isDaily, createEnd, createStart.
  rewrite bind_query. cbv zeta.
  repeat match goal with |- context [if ?c then _ else _] => destruct c end;
    reflexivity.
Qed.

Lemma roomCheckEdit_run (booking : Booking.t) (p : EditPlan) (db : Db) :
  roomCheckEdit booking p db =
  let others := roomOthersEdit booking p db in
  if isDaily (newType p)
  then if Js.nonEmpty others
       then (Reply (jsonError 409 Msg.roomOccupiedWholeDayEdit), db)
       else (Continue tt, db)
  else if existsb (fun b => isDaily (Booking.bookingType b)) others
       then (Reply (jsonError 409 Msg.roomReservedForDayEdit), db)
       else if existsb (overlaps (editStart p) (editEnd p)) others
            then (Reply (jsonError 409 Msg.timeSlotOverlap), db)
            else (Continue tt, db).
Proof.
  unfold roomCheckEdit, roomOthersEdit, isDaily, editEnd, editStart.
  rewrite bind_query. cbv zeta.
  repeat match goal with |- context [if ?c then _ else _] => destruct c end;
    reflexivity.
Qed.

Lemma existsb_filter {A : Type} (f g : A -> bool) (l : list A) :
  existsb f (filter g l) = existsb (fun x => g x && f x) l.
Proof.
  induction l as [|x r IH]; simpl; [reflexivity|].
  destruct (g x); simpl; rewrite IH; reflexivity.
Qed.

Lemma nonEmpty_filter {A : Type} (g : A -> bool) (l : list A) :
  Js.nonEmpty (filter g l) = existsb g l.
Proof.
  induction l as [|x r IH]; simpl; [reflexivity|].
  destruct (g x); [reflexivity|exact IH].
Qed.

(** [some] over the client's bookings with the callback of [clientOverlap]
    is [some] over those in another room. *)
Lemma clientOverlap_other_rooms (room s e : Z) (l : list Booking.t) :
  existsb (clientOverlapWith room s e) l =
  existsb (fun b => isDaily (Booking.bookingType b) || overlaps s e b)
          (filter (fun b => negb (Booking.roomNumber b =? room)) l).
Proof.
  rewrite existsb_filter.
  induction l as [|x r IH]; simpl; [reflexivity|].
  rewrite IH. f_equal. unfold clientOverlapWith, isDaily.
  destruct (Booking.roomNumber x =? room);
    destruct (Booking.bookingType x === "daily"); reflexivity.
Qed.

(** The client check of the create handler, as one decision over the
    client's bookings in other rooms. *)
Lemma clientCheckCreate_run (data : InsertBooking.t) (db : Db) :
  clientCheckCreate data db =
  let others := clientOthersCreate data db in
  if isDaily (InsertBooking.bookingType data)
  then if Js.nonEmpty others
       then (Reply (jsonError 409 Msg.clientBookedElsewhere), db)
       else (Continue tt, db)
  else if existsb (fun b => isDaily (Booking.bookingType b)
                            || overlaps (createStart data) (createEnd data) b)
                  others
       then (Reply (jsonError 409 Msg.clientTimeConflict), db)
       else (Continue tt, db).
Proof.
  unfold clientCheckCreate, clientOthersCreate, createEnd, createStart.
  rewrite bind_query. cbv zeta.
  set (ub := userBookingsCreate data _).
  rewrite nonEmpty_filter, clientOverlap_other_rooms.
  unfold isDaily.
  destruct ub as [|x r];
    [|change (Js.nonEmpty (x :: r)) with true; cbv iota].
  - simpl. destruct (InsertBooking.bookingType data === "daily"); reflexivity.
  - repeat match goal with |- context [if ?c then _ else _] => destruct c end;
      reflexivity.
Qed.

Lemma clientCheckEdit_run (booking : Booking.t) (p : EditPlan) (db : Db) :
  clientCheckEdit booking p db =
  let others := clientOthersEdit booking p db in
  if isDaily (newType p)
  then if Js.nonEmpty others
       then (Reply (jsonError 409 Msg.clientBookedElsewhere), db)
       else (Continue tt, db)
  else if existsb (fun b => isDaily (Booking.bookingType b)
                            || overlaps (editStart p) (editEnd p) b)
                  others
       then (Reply (jsonError 409 Msg.clientTimeConflict), db)
       else (Continue tt, db).
Proof.
  unfold clientCheckEdit, clientOthersEdit, editEnd, editStart.
  rewrite bind_query. cbv zeta.
  set (ub := userBookingsEdit booking _).
  rewrite nonEmpty_filter, clientOverlap_other_rooms.
  unfold isDaily.
  destruct ub as [|x r];
    [|change (Js.nonEmpty (x :: r)) with true; cbv iota].
  - simpl. destruct (newType p === "daily"); reflexivity.
  - repeat match goal with |- context [if ?c then _ else _] => destruct c end;
      reflexivity.
Qed.

End Checks.

(** ** The handlers as decisions *)

Section Handlers.

Lemma resolveIdentity_schedule (parsed : InsertBooking.t) (db : Db) :
  let data := resolveIdentity parsed db in
  InsertBooking.roomNumber data = InsertBooking.roomNumber parsed /\
  InsertBooking.date data = InsertBooking.date parsed /\
  InsertBooking.bookingType data = InsertBooking.bookingType parsed /\
  InsertBooking.startHour data = InsertBooking.startHour parsed /\
  InsertBooking.duration data = InsertBooking.duration parsed.
Proof.
  unfold resolveIdentity.
  repeat match goal with
         | |- context [if ?c then _ else _] => destruct c
         | |- context [match ?c with Some _ => _ | None => _ end] => destruct c
         end; simpl; repeat split; reflexivity.
Qed.

Lemma roomOthersCreate_resolved (parsed : InsertBooking.t) (db : Db) :
  roomOthersCreate (resolveIdentity parsed db) db = roomOthersCreate parsed db.
Proof.
  destruct (resolveIdentity_schedule parsed db) as (Hr & Hd & _).
  unfold roomOthersCreate. rewrite Hr, Hd. reflexivity.
Qed.

Lemma createInterval_resolved (parsed : InsertBooking.t) (db : Db) :
  createStart (resolveIdentity parsed db) = createStart parsed /\
  createEnd (resolveIdentity parsed db) = createEnd parsed.
Proof.
  destruct (resolveIdentity_schedule parsed db) as (_ & _ & _ & Hs & Hd).
  unfold createEnd, createStart. rewrite Hs, Hd. split; reflexivity.
Qed.

Lemma postBookings_run (uuid : string) (now : Z) (parsed : InsertBooking.t)
    (db : Db) :
  postBookings uuid now (Some parsed) db =
  let data := resolveIdentity parsed db in
  match roomCheckCreate data db with
  | (Reply r, db1) => (r, db1)
  | (Throw, db1) => (jsonError 500 "Failed to create booking", db1)
  | (Continue _, db1) =>
      match clientCheckCreate data db1 with
      | (Reply r, db2) => (r, db2)
      | (Throw, db2) => (jsonError 500 "Failed to create booking", db2)
      | (Continue _, db2) =>
          match Storage.createBooking uuid now data db2 with
          | Some db3 =>
              (mkResponse 201 (JsonBooking (Storage.newBooking uuid now data)),
               db3)
          | None => (jsonError 500 "Failed to create booking", db2)
          end
      end
  end.
Proof.
  unfold postBookings, tryCatch. rewrite bind_query. cbv zeta.
  unfold bind at 1.
  destruct (roomCheckCreate (resolveIdentity parsed db) db) as [[u|r|] db1];
    try reflexivity.
  unfold bind at 1.
  destruct (clientCheckCreate (resolveIdentity parsed db) db1) as [[v|r|] db2];
    try reflexivity.
  unfold bind, attempt.
  destruct (Storage.createBooking uuid now (resolveIdentity parsed db) db2);
    reflexivity.
Qed.

Lemma putBookingEdit_run (id : string) (req : EditBody.t) (db : Db)
    (booking : Booking.t) :
  Storage.getBooking id db = Some booking ->
  putBookingEdit id req db =
  let p := planEdit booking req in
  match roomCheckEdit booking p db with
  | (Reply r, db1) => (r, db1)
  | (Throw, db1) => (jsonError 500 "Failed to edit booking", db1)
  | (Continue _, db1) =>
      match clientCheckEdit booking p db1 with
      | (Reply r, db2) => (r, db2)
      | (Throw, db2) => (jsonError 500 "Failed to edit booking", db2)
      | (Continue _, db2) =>
          match Storage.updateBookingDetails id (newRoom p) (newDate p)
                  (newStart p) (newDuration p) (newType p) (newPrice p) db2 with
          | Some db3 => (mkResponse 200 JsonSuccess, db3)
          | None => (jsonError 500 "Failed to edit booking", db2)
          end
      end
  end.
Proof.
  intros Hb. unfold putBookingEdit, tryCatch. rewrite bind_query, Hb. cbv zeta.
  unfold bind at 1.
  destruct (roomCheckEdit booking (planEdit booking req) db) as [[u|r|] db1];
    try reflexivity.
  unfold bind at 1.
  destruct (clientCheckEdit booking (planEdit booking req) db1) as [[v|r|] db2];
    try reflexivity.
  unfold bind, attempt.
  destruct (Storage.updateBookingDetails _ _ _ _ _ _ _ db2); reflexivity.
Qed.

Lemma putBookingEdit_missing (id : string) (req : EditBody.t) (db : Db) :
  Storage.getBooking id db = None ->
  putBookingEdit id req db = (jsonError 404 Msg.notFound, db).
Proof.
  intros Hb. unfold putBookingEdit, tryCatch. rewrite bind_query, Hb.
  reflexivity.
Qed.

(** The checks only read. *)
Lemma roomCheckCreate_reads (data : InsertBooking.t) (db : Db) :
  snd (roomCheckCreate data db) = db /\ fst (roomCheckCreate data db) <> Throw.
Proof.
  rewrite roomCheckCreate_run. cbv zeta.
  repeat match goal with |- context [if ?c then _ else _] => destruct c end;
    simpl; split; (reflexivity || discriminate).
Qed.

Lemma clientCheckCreate_reads (data : InsertBooking.t) (db : Db) :
  snd (clientCheckCreate data db) = db /\ fst (clientCheckCreate data db) <> Throw.
Proof.
  rewrite clientCheckCreate_run. cbv zeta.
  repeat match goal with |- context [if ?c then _ else _] => destruct c end;
    simpl; split; (reflexivity || discriminate).
Qed.

Lemma roomCheckEdit_reads (booking : Booking.t) (p : EditPlan) (db : Db) :
  snd (roomCheckEdit booking p db) = db /\ fst (roomCheckEdit booking p db) <> Throw.
Proof.
  rewrite roomCheckEdit_run. cbv zeta.
  repeat match goal with |- context [if ?c then _ else _] => destruct c end;
    simpl; split; (reflexivity || discriminate).
Qed.

Lemma clientCheckEdit_reads (booking : Booking.t) (p : EditPlan) (db : Db) :
  snd (clientCheckEdit booking p db) = db /\ fst (clientCheckEdit booking p db) <> Throw.
Proof.
  rewrite clientCheckEdit_run. cbv zeta.
  repeat match goal with |- context [if ?c then _ else _] => destruct c end;
    simpl; split; (reflexivity || discriminate).
Qed.

(** A check that replies refuses with 409. *)
Lemma roomCheckCreate_replies (data : InsertBooking.t) (db : Db) (r : Response) :
  fst (roomCheckCreate data db) = Reply r -> status r = 409.
Proof.
  rewrite roomCheckCreate_run. cbv zeta.
  repeat match goal with |- context [if ?c then _ else _] => destruct c end;
    simpl; intros E; try discriminate E; injection E as <-; reflexivity.
Qed.

Lemma clientCheckCreate_replies (data : InsertBooking.t) (db : Db)
    (r : Response) :
  fst (clientCheckCreate data db) = Reply r -> status r = 409.
Proof.
  rewrite clientCheckCreate_run. cbv zeta.
  repeat match goal with |- context [if ?c then _ else _] => destruct c end;
    simpl; intros E; try discriminate E; injection E as <-; reflexivity.
Qed.

Lemma roomCheckEdit_replies (booking : Booking.t) (p : EditPlan) (db : Db)
    (r : Response) :
  fst (roomCheckEdit booking p db) = Reply r -> status r = 409.
Proof.
  rewrite roomCheckEdit_run. cbv zeta.
  repeat match goal with |- context [if ?c then _ else _] => destruct c end;
    simpl; intros E; try discriminate E; injection E as <-; reflexivity.
Qed.

Lemma clientCheckEdit_replies (booking : Booking.t) (p : EditPlan) (db : Db)
    (r : Response) :
  fst (clientCheckEdit booking p db) = Reply r -> status r = 409.
Proof.
  rewrite clientCheckEdit_run. cbv zeta.
  repeat match goal with |- context [if ?c then _ else _] => destruct c end;
    simpl; intros E; try discriminate E; injection E as <-; reflexivity.
Qed.

(** Every answer of the create handler other than 201 leaves the database
    untouched. *)
Lemma postBookings_refusal_writes_nothing (uuid : string) (now : Z)
    (reqBody : option InsertBooking.t) (db : Db) :
  status (fst (postBookings uuid now reqBody db)) <> 201 ->
  snd (postBookings uuid now reqBody db) = db.
Proof.
  destruct reqBody as [parsed|]; [|reflexivity].
  rewrite postBookings_run. cbv zeta.
  pose proof (roomCheckCreate_reads (resolveIdentity parsed db) db) as [Hr _].
  destruct (roomCheckCreate (resolveIdentity parsed db) db) as [[u|r|] db1];
    simpl in Hr; subst db1; try reflexivity.
  pose proof (clientCheckCreate_reads (resolveIdentity parsed db) db) as [Hc _].
  destruct (clientCheckCreate (resolveIdentity parsed db) db) as [[v|r|] db2];
    simpl in Hc; subst db2; try reflexivity.
  destruct (Storage.createBooking _ _ _ db); [|reflexivity].
  simpl. congruence.
Qed.

(** Every answer of the edit handler other than 200 leaves the database
    untouched. *)
Lemma putBookingEdit_refusal_writes_nothing (id : string) (req : EditBody.t)
    (db : Db) :
  status (fst (putBookingEdit id req db)) <> 200 ->
  snd (putBookingEdit id req db) = db.
Proof.
  destruct (Storage.getBooking id db) as [booking|] eqn:Hb.
  - rewrite (putBookingEdit_run id req db booking Hb). cbv zeta.
    pose proof (roomCheckEdit_reads booking (planEdit booking req) db) as [Hr _].
    destruct (roomCheckEdit booking (planEdit booking req) db) as [[u|r|] db1];
      simpl in Hr; subst db1; try reflexivity.
    pose proof (clientCheckEdit_reads booking (planEdit booking req) db) as [Hc _].
    destruct (clientCheckEdit booking (planEdit booking req) db) as [[v|r|] db2];
      simpl in Hc; subst db2; try reflexivity.
    destruct (Storage.updateBookingDetails _ _ _ _ _ _ _ db); [|reflexivity].
    simpl. congruence.
  - rewrite (putBookingEdit_missing id req db Hb). reflexivity.
Qed.

End Handlers.

(** ** Room and date: type exclusivity and overlap *)

Lemma Refused_for (run : Response * Db) (msg : string) (reason : Reason)
    (db : Db) :
  Refused run msg db -> reasonOfText msg = Some reason ->
  RefusedFor run reason db.
Proof.
  unfold Refused, RefusedFor. intros -> H. simpl. auto.
Qed.

(** C1. A proposal is compared with the bookings of its room and date
    (on edit without the edited booking itself).  A daily proposal with a
    non-empty remainder is refused with RoomOccupiedWholeDay; an hourly
    proposal is refused with RoomReservedForDay when some remaining booking
    is daily, and otherwise with TimeSlotOverlap when some remaining (hence
    hourly) booking meets the half-open test
    [proposed.start < other.end && proposed.end > other.start]; in every
    other case the room/date check passes.  A refusal leaves the database
    as it was.  The handlers take their hourly branch for every type other
    than the literal daily, so hourly reads "not daily" below. *)
Theorem room_date_check :
  (forall (uuid : string) (now : Z) (parsed : InsertBooking.t) (db : Db),
      let others := roomOthersCreate parsed db in
      let run := postBookings uuid now (Some parsed) db in
      let ty := InsertBooking.bookingType parsed in
      let s := createStart parsed in
      let e := createEnd parsed in
      (isDaily ty = true -> others <> [] ->
       RefusedFor run RoomOccupiedWholeDay db) /\
      (isDaily ty = false ->
       (exists b, In b others /\ isDaily (Booking.bookingType b) = true) ->
       RefusedFor run RoomReservedForDay db) /\
      (isDaily ty = false ->
       (forall b, In b others -> isDaily (Booking.bookingType b) = false) ->
       (exists b, In b others /\ HalfOpenOverlap s e b) ->
       RefusedFor run TimeSlotOverlap db) /\
      ((isDaily ty = true /\ others = []) \/
       (isDaily ty = false /\
        forall b, In b others ->
                  isDaily (Booking.bookingType b) = false /\
                  ~ HalfOpenOverlap s e b) ->
       roomCheckCreate (resolveIdentity parsed db) db = (Continue tt, db))) /\
  (forall (id : string) (req : EditBody.t) (db : Db) (booking : Booking.t),
      Storage.getBooking id db = Some booking ->
      let p := planEdit booking req in
      let others := roomOthersEdit booking p db in
      let run := putBookingEdit id req db in
      let s := editStart p in
      let e := editEnd p in
      (isDaily (newType p) = true -> others <> [] ->
       RefusedFor run RoomOccupiedWholeDay db) /\
      (isDaily (newType p) = false ->
       (exists b, In b others /\ isDaily (Booking.bookingType b) = true) ->
       RefusedFor run RoomReservedForDay db) /\
      (isDaily (newType p) = false ->
       (forall b, In b others -> isDaily (Booking.bookingType b) = false) ->
       (exists b, In b others /\ HalfOpenOverlap s e b) ->
       RefusedFor run TimeSlotOverlap db) /\
      ((isDaily (newType p) = true /\ others = []) \/
       (isDaily (newType p) = false /\
        forall b, In b others ->
                  isDaily (Booking.bookingType b) = false /\
                  ~ HalfOpenOverlap s e b) ->
       roomCheckEdit booking p db = (Continue tt, db))).
Proof.
  split.
  - intros uuid now parsed db others run ty s e.
    assert (Hrun : run = postBookings uuid now (Some parsed) db) by reflexivity.
    rewrite postBookings_run in Hrun. cbv zeta in Hrun.
    rewrite roomCheckCreate_run in *. cbv zeta in *.
    rewrite roomOthersCreate_resolved in *.
    destruct (createInterval_resolved parsed db) as [Hs He].
    destruct (resolveIdentity_schedule parsed db) as (_ & _ & Hty & _).
    rewrite Hs, He, Hty in *. fold others ty s e in Hrun |- *.
    clearbody run. split; [|split; [|split]].
    + intros Hd Hne. apply nonEmpty_true in Hne. rewrite Hd, Hne in Hrun.
      subst run. now apply Refused_for with Msg.roomOccupiedWholeDayCreate.
    + intros Hd (b & Hb & Hbd).
      assert (Hex : existsb (fun b => isDaily (Booking.bookingType b)) others = true)
        by (apply existsb_exists; now exists b).
      rewrite Hd, Hex in Hrun. subst run.
      now apply Refused_for with Msg.roomReservedForDayCreate.
    + intros Hd Hnd (b & Hb & Hov).
      assert (Hex : existsb (fun b => isDaily (Booking.bookingType b)) others = false)
        by (apply existsb_false; exact Hnd).
      assert (Hex2 : existsb (overlaps s e) others = true)
        by (apply existsb_exists; exists b; split; [exact Hb|now apply overlaps_spec]).
      rewrite Hd, Hex, Hex2 in Hrun. subst run.
      now apply Refused_for with Msg.timeSlotOverlap.
    + intros [[Hd Hnil]|[Hd Hall]].
      * rewrite Hd, Hnil. reflexivity.
      * assert (Hex : existsb (fun b => isDaily (Booking.bookingType b)) others = false)
          by (apply existsb_false; intros b Hb; apply (Hall b Hb)).
        assert (Hex2 : existsb (overlaps s e) others = false)
          by (apply existsb_false; intros b Hb; apply overlaps_false, (Hall b Hb)).
        rewrite Hd, Hex, Hex2. reflexivity.
  - intros id req db booking Hfound p others run s e.
    assert (Hrun : run = putBookingEdit id req db) by reflexivity.
    rewrite (putBookingEdit_run id req db booking Hfound) in Hrun.
    cbv zeta in Hrun. fold p in Hrun.
    rewrite roomCheckEdit_run in *. cbv zeta in *.
    fold others s e in Hrun |- *.
    clearbody run. split; [|split; [|split]].
    + intros Hd Hne. apply nonEmpty_true in Hne. rewrite Hd, Hne in Hrun.
      subst run. now apply Refused_for with Msg.roomOccupiedWholeDayEdit.
    + intros Hd (b & Hb & Hbd).
      assert (Hex : existsb (fun b => isDaily (Booking.bookingType b)) others = true)
        by (apply existsb_exists; now exists b).
      rewrite Hd, Hex in Hrun. subst run.
      now apply Refused_for with Msg.roomReservedForDayEdit.
    + intros Hd Hnd (b & Hb & Hov).
      assert (Hex : existsb (fun b => isDaily (Booking.bookingType b)) others = false)
        by (apply existsb_false; exact Hnd).
      assert (Hex2 : existsb (overlaps s e) others = true)
        by (apply existsb_exists; exists b; split; [exact Hb|now apply overlaps_spec]).
      rewrite Hd, Hex, Hex2 in Hrun. subst run.
      now apply Refused_for with Msg.timeSlotOverlap.
    + intros [[Hd Hnil]|[Hd Hall]].
      * rewrite Hd, Hnil. reflexivity.
      * assert (Hex : existsb (fun b => isDaily (Booking.bookingType b)) others = false)
          by (apply existsb_false; intros b Hb; apply (Hall b Hb)).
        assert (Hex2 : existsb (overlaps s e) others = false)
          by (apply existsb_false; intros b Hb; apply overlaps_false, (Hall b Hb)).
        rewrite Hd, Hex, Hex2. reflexivity.
Qed.

Lemma room_date_check_witness :
  RefusedFor
    (postBookings "b2" 1
       (Some (Scenario.request 2 "y" "Y" None (Some 22) (Some 2) "hourly" 400))
       Scenario.dbHourly)
    TimeSlotOverlap Scenario.dbHourly /\
  RefusedFor
    (postBookings "b2" 1
       (Some (Scenario.request 1 "y" "Y" None (Some 20) (Some 2) "hourly" 400))
       Scenario.dbDaily)
    RoomReservedForDay Scenario.dbDaily /\
  RefusedFor
    (postBookings "b2" 1
       (Some (Scenario.request 2 "y" "Y" None None None "daily" 3200))
       Scenario.dbHourly)
    RoomOccupiedWholeDay Scenario.dbHourly /\
  roomCheckCreate
    (resolveIdentity
       (Scenario.request 2 "y" "Y" None (Some 24) (Some 2) "hourly" 400)
       Scenario.dbHourly)
    Scenario.dbHourly = (Continue tt, Scenario.dbHourly) /\
  RefusedFor
    (putBookingEdit "b1"
       (EditBody.mk None None (Some (Some 22)) None None None)
       Scenario.dbTwoInRoom)
    TimeSlotOverlap Scenario.dbTwoInRoom.
Proof.
  destruct room_date_check as [Hcreate Hedit].
  split; [|split; [|split; [|split]]].
  - apply (Hcreate "b2" 1
             (Scenario.request 2 "y" "Y" None (Some 22) (Some 2) "hourly" 400)
             Scenario.dbHourly).
    + reflexivity.
    + intros b Hb. vm_compute in Hb. destruct Hb as [<-|[]]. reflexivity.
    + exists Scenario.tenToTwelve. split; [left; reflexivity|].
      unfold HalfOpenOverlap. vm_compute. split; reflexivity.
  - apply (Hcreate "b2" 1
             (Scenario.request 1 "y" "Y" None (Some 20) (Some 2) "hourly" 400)
             Scenario.dbDaily).
    + reflexivity.
    + exists Scenario.wholeDay. split; [left; reflexivity|reflexivity].
  - apply (Hcreate "b2" 1
             (Scenario.request 2 "y" "Y" None None None "daily" 3200)
             Scenario.dbHourly).
    + reflexivity.
    + vm_compute. discriminate.
  - apply (Hcreate "b2" 1
             (Scenario.request 2 "y" "Y" None (Some 24) (Some 2) "hourly" 400)
             Scenario.dbHourly).
    right. split; [reflexivity|].
    intros b Hb. vm_compute in Hb. destruct Hb as [<-|[]].
    split; [reflexivity|]. unfold HalfOpenOverlap. vm_compute.
    intros [H _]. discriminate H.
  - apply (Hedit "b1" (EditBody.mk None None (Some (Some 22)) None None None)
             Scenario.dbTwoInRoom Scenario.tenToTwelve eq_refl).
    + reflexivity.
    + intros b Hb. vm_compute in Hb. destruct Hb as [<-|[]]. reflexivity.
    + exists Scenario.noon. split; [left; reflexivity|].
      unfold HalfOpenOverlap. vm_compute. split; reflexivity.
Defined.

(** ** One client across rooms *)

Section CrossRoom.

Lemma existsb_or {A : Type} (f g : A -> bool) (l : list A) :
  existsb (fun x => f x || g x) l = existsb f l || existsb g l.
Proof.
  induction l as [|x r IH]; simpl; [reflexivity|].
  rewrite IH. destruct (f x), (g x), (existsb f r); reflexivity.
Qed.

(** An hourly proposal that passed the room check is refused by the client
    check exactly when the client holds, in another room, a daily booking
    or an overlapping one; the refusal is the same in both cases. *)
Lemma postBookings_client_decision (uuid : string) (now : Z)
    (parsed : InsertBooking.t) (db : Db) :
  let data := resolveIdentity parsed db in
  isDaily (InsertBooking.bookingType parsed) = false ->
  roomCheckCreate data db = (Continue tt, db) ->
  postBookings uuid now (Some parsed) db =
  if existsb (fun b => isDaily (Booking.bookingType b)) (clientOthersCreate data db)
     || existsb (overlaps (createStart parsed) (createEnd parsed))
          (clientOthersCreate data db)
  then (jsonError 409 Msg.clientTimeConflict, db)
  else if Storage.insertFits data
       then (mkResponse 201 (JsonBooking (Storage.newBooking uuid now data)),
             mkDb (users db)
               (bookings db ++ [Storage.newBooking uuid now data])%list
               (cancellations db))
       else (jsonError 500 "Failed to create booking", db).
Proof.
  intros data Hty Hroom. rewrite postBookings_run. cbv zeta. fold data.
  rewrite Hroom, clientCheckCreate_run. cbv zeta.
  destruct (resolveIdentity_schedule parsed db) as (_ & _ & Ht & _).
  destruct (createInterval_resolved parsed db) as [Hs He].
  fold data in Ht, Hs, He. rewrite Ht, Hty, Hs, He, existsb_or.
  destruct (_ || _); [reflexivity|].
  unfold Storage.createBooking. destruct (Storage.insertFits data); reflexivity.
Qed.

Lemma putBookingEdit_client_decision (id : string) (req : EditBody.t)
    (db : Db) (booking : Booking.t) :
  let p := planEdit booking req in
  Storage.getBooking id db = Some booking ->
  isDaily (newType p) = false ->
  roomCheckEdit booking p db = (Continue tt, db) ->
  putBookingEdit id req db =
  if existsb (fun b => isDaily (Booking.bookingType b)) (clientOthersEdit booking p db)
     || existsb (overlaps (editStart p) (editEnd p)) (clientOthersEdit booking p db)
  then (jsonError 409 Msg.clientTimeConflict, db)
  else if editFits p
       then (mkResponse 200 JsonSuccess,
             mkDb (users db)
               (updateById Booking.id
                  (Booking.setDetails (newRoom p) (newDate p) (newStart p)
                     (newDuration p) (newType p) (newPrice p))
                  id (bookings db))
               (cancellations db))
       else (jsonError 500 "Failed to edit booking", db).
Proof.
  intros p Hb Hty Hroom. rewrite (putBookingEdit_run id req db booking Hb).
  cbv zeta. fold p. rewrite Hroom, clientCheckEdit_run. cbv zeta.
  rewrite Hty, existsb_or.
  destruct (_ || _); [reflexivity|].
  unfold Storage.updateBookingDetails, editFits.
  destruct (Storage.detailsFit _ _ _ _); reflexivity.
Qed.

End CrossRoom.

(** C2, as the handlers have it.  For an hourly proposal that passed the
    room check, among the client's bookings of the date in another room
    (on edit without the edited booking): when some such booking is daily,
    or some such booking meets the half-open overlap test, the request is
    refused with ClientTimeConflict, the one refusal the hourly branch has;
    when none is daily and none overlaps, the request is not refused: it
    is accepted and written when its numbers fit the integer columns, and
    otherwise the write is refused by the database, the answer is 500 and
    nothing is written.  Scenario C: with room 1 booked 20+4 for the
    client, room 2 at 22+2 is refused with ClientTimeConflict and room 2 at
    24+2 is accepted. *)
Theorem client_cross_room_hourly :
  (forall (uuid : string) (now : Z) (parsed : InsertBooking.t) (db : Db),
      let data := resolveIdentity parsed db in
      let others := clientOthersCreate data db in
      let run := postBookings uuid now (Some parsed) db in
      let s := createStart parsed in
      let e := createEnd parsed in
      isDaily (InsertBooking.bookingType parsed) = false ->
      roomCheckCreate data db = (Continue tt, db) ->
      ((exists b, In b others /\ isDaily (Booking.bookingType b) = true) ->
       RefusedFor run ClientTimeConflict db) /\
      ((exists b, In b others /\ HalfOpenOverlap s e b) ->
       RefusedFor run ClientTimeConflict db) /\
      ((forall b, In b others ->
                  isDaily (Booking.bookingType b) = false /\
                  ~ HalfOpenOverlap s e b) ->
       (Storage.insertFits data = true ->
        run = (mkResponse 201 (JsonBooking (Storage.newBooking uuid now data)),
               mkDb (users db)
                 (bookings db ++ [Storage.newBooking uuid now data])%list
                 (cancellations db))) /\
       (Storage.insertFits data = false ->
        run = (jsonError 500 "Failed to create booking", db)))) /\
  (forall (id : string) (req : EditBody.t) (db : Db) (booking : Booking.t),
      let p := planEdit booking req in
      let others := clientOthersEdit booking p db in
      let run := putBookingEdit id req db in
      let s := editStart p in
      let e := editEnd p in
      Storage.getBooking id db = Some booking ->
      isDaily (newType p) = false ->
      roomCheckEdit booking p db = (Continue tt, db) ->
      ((exists b, In b others /\ isDaily (Booking.bookingType b) = true) ->
       RefusedFor run ClientTimeConflict db) /\
      ((exists b, In b others /\ HalfOpenOverlap s e b) ->
       RefusedFor run ClientTimeConflict db) /\
      ((forall b, In b others ->
                  isDaily (Booking.bookingType b) = false /\
                  ~ HalfOpenOverlap s e b) ->
       (editFits p = true ->
        run = (mkResponse 200 JsonSuccess,
               mkDb (users db)
                 (updateById Booking.id
                    (Booking.setDetails (newRoom p) (newDate p) (newStart p)
                       (newDuration p) (newType p) (newPrice p))
                    id (bookings db))
                 (cancellations db))) /\
       (editFits p = false ->
        run = (jsonError 500 "Failed to edit booking", db)))) /\
  RefusedFor
    (postBookings "b2" 1
       (Some (Scenario.request 2 "x" "X" None (Some 22) (Some 2) "hourly" 400))
       Scenario.dbRoomOne)
    ClientTimeConflict Scenario.dbRoomOne /\
  status (fst (postBookings "b2" 1
                 (Some (Scenario.request 2 "x" "X" None (Some 24) (Some 2)
                          "hourly" 400))
                 Scenario.dbRoomOne)) = 201.
Proof.
  split; [|split; [|split; [|reflexivity]]].
  - intros uuid now parsed db data others run s e Hty Hroom.
    assert (Hrun : run = postBookings uuid now (Some parsed) db) by reflexivity.
    rewrite (postBookings_client_decision uuid now parsed db Hty Hroom) in Hrun.
    fold data others s e in Hrun. clearbody run.
    split; [|split].
    + intros (b & Hb & Hd).
      assert (Hex : existsb (fun b => isDaily (Booking.bookingType b)) others = true)
        by (apply existsb_exists; now exists b).
      rewrite Hex in Hrun. simpl in Hrun. subst run.
      now apply Refused_for with Msg.clientTimeConflict.
    + intros (b & Hb & Hov).
      assert (Hex : existsb (overlaps s e) others = true)
        by (apply existsb_exists; exists b; split; [exact Hb|now apply overlaps_spec]).
      rewrite Hex, orb_true_r in Hrun. subst run.
      now apply Refused_for with Msg.clientTimeConflict.
    + intros Hall.
      assert (Hex : existsb (fun b => isDaily (Booking.bookingType b)) others = false)
        by (apply existsb_false; intros b Hb; apply (Hall b Hb)).
      assert (Hex2 : existsb (overlaps s e) others = false)
        by (apply existsb_false; intros b Hb; apply overlaps_false, (Hall b Hb)).
      rewrite Hex, Hex2 in Hrun. simpl orb in Hrun. cbv iota in Hrun.
      split; intros Hfit; rewrite Hfit in Hrun; exact Hrun.
  - intros id req db booking p others run s e Hfound Hty Hroom.
    assert (Hrun : run = putBookingEdit id req db) by reflexivity.
    rewrite (putBookingEdit_client_decision id req db booking Hfound Hty Hroom)
      in Hrun.
    fold p others s e in Hrun. clearbody run.
    split; [|split].
    + intros (b & Hb & Hd).
      assert (Hex : existsb (fun b => isDaily (Booking.bookingType b)) others = true)
        by (apply existsb_exists; now exists b).
      rewrite Hex in Hrun. simpl in Hrun. subst run.
      now apply Refused_for with Msg.clientTimeConflict.
    + intros (b & Hb & Hov).
      assert (Hex : existsb (overlaps s e) others = true)
        by (apply existsb_exists; exists b; split; [exact Hb|now apply overlaps_spec]).
      rewrite Hex, orb_true_r in Hrun. subst run.
      now apply Refused_for with Msg.clientTimeConflict.
    + intros Hall.
      assert (Hex : existsb (fun b => isDaily (Booking.bookingType b)) others = false)
        by (apply existsb_false; intros b Hb; apply (Hall b Hb)).
      assert (Hex2 : existsb (overlaps s e) others = false)
        by (apply existsb_false; intros b Hb; apply overlaps_false, (Hall b Hb)).
      rewrite Hex, Hex2 in Hrun. simpl orb in Hrun. cbv iota in Hrun.
      split; intros Hfit; rewrite Hfit in Hrun; exact Hrun.
  - vm_compute. repeat split; reflexivity.
Qed.

(** Client X holds room 1 for the whole day and asks for an hour in room 2:
    the premise of the first case of C2 holds, and the refusal is
    ClientTimeConflict, not ClientBookedElsewhere. *)
Lemma hourly_against_daily_elsewhere :
  (exists b,
      In b (clientOthersCreate
              (resolveIdentity
                 (Scenario.request 2 "x" "X" None (Some 20) (Some 2) "hourly" 400)
                 Scenario.dbDaily)
              Scenario.dbDaily)
      /\ isDaily (Booking.bookingType b) = true) /\
  postBookings "b2" 1
    (Some (Scenario.request 2 "x" "X" None (Some 20) (Some 2) "hourly" 400))
    Scenario.dbDaily
  = (jsonError 409 Msg.clientTimeConflict, Scenario.dbDaily) /\
  ~ RefusedFor
      (postBookings "b2" 1
         (Some (Scenario.request 2 "x" "X" None (Some 20) (Some 2) "hourly" 400))
         Scenario.dbDaily)
      ClientBookedElsewhere Scenario.dbDaily.
Proof.
  split; [|split].
  - exists Scenario.wholeDay. split; [left; reflexivity|reflexivity].
  - reflexivity.
  - intros (_ & H & _). vm_compute in H. discriminate H.
Qed.

Lemma client_cross_room_hourly_witness :
  RefusedFor
    (postBookings "b2" 1
       (Some (Scenario.request 2 "x" "X" None (Some 20) (Some 2) "hourly" 400))
       Scenario.dbDaily)
    ClientTimeConflict Scenario.dbDaily /\
  RefusedFor
    (postBookings "b2" 1
       (Some (Scenario.request 2 "x" "X" None (Some 22) (Some 2) "hourly" 400))
       Scenario.dbRoomOne)
    ClientTimeConflict Scenario.dbRoomOne /\
  snd (postBookings "b2" 1
         (Some (Scenario.request 2 "x" "X" None (Some 24) (Some 2) "hourly" 400))
         Scenario.dbRoomOne)
  = mkDb []
      [Scenario.roomOneMorning;
       Storage.newBooking "b2" 1
         (Scenario.request 2 "x" "X" None (Some 24) (Some 2) "hourly" 400)]
      [] /\
  postBookings "b2" 1
    (Some (Scenario.request 2 "x" "X" None (Some 24) (Some 2) "hourly"
             4000000000))
    Scenario.dbRoomOne
  = (jsonError 500 "Failed to create booking", Scenario.dbRoomOne) /\
  RefusedFor
    (putBookingEdit "b2" (EditBody.mk (Some 2) None None None None None)
       (mkDb [] [Scenario.roomOneMorning;
                 Scenario.stored "b2" 3 "x" "X" None (Some 22) (Some 2)
                   "hourly" 400] []))
    ClientTimeConflict
    (mkDb [] [Scenario.roomOneMorning;
              Scenario.stored "b2" 3 "x" "X" None (Some 22) (Some 2)
                "hourly" 400] []).
Proof.
  destruct client_cross_room_hourly as (Hcreate & Hedit & _).
  split; [|split; [|split; [|split]]].
  - apply (proj1 (Hcreate "b2" 1
             (Scenario.request 2 "x" "X" None (Some 20) (Some 2) "hourly" 400)
             Scenario.dbDaily eq_refl eq_refl)).
    exists Scenario.wholeDay. split; [left; reflexivity|reflexivity].
  - apply (proj1 (proj2 (Hcreate "b2" 1
             (Scenario.request 2 "x" "X" None (Some 22) (Some 2) "hourly" 400)
             Scenario.dbRoomOne eq_refl eq_refl))).
    exists Scenario.roomOneMorning. split; [left; reflexivity|].
    unfold HalfOpenOverlap. vm_compute. split; reflexivity.
  - destruct (Hcreate "b2" 1
                (Scenario.request 2 "x" "X" None (Some 24) (Some 2) "hourly" 400)
                Scenario.dbRoomOne eq_refl eq_refl) as (_ & _ & Hok).
    destruct Hok as [Hfit _].
    { intros b Hb. vm_compute in Hb. destruct Hb as [<-|[]].
      split; [reflexivity|]. unfold HalfOpenOverlap. vm_compute.
      intros [H _]. discriminate H. }
    rewrite (Hfit eq_refl). reflexivity.
  - destruct (Hcreate "b2" 1
                (Scenario.request 2 "x" "X" None (Some 24) (Some 2) "hourly"
                   4000000000)
                Scenario.dbRoomOne eq_refl eq_refl) as (_ & _ & Hok).
    apply Hok; [|reflexivity].
    intros b Hb. vm_compute in Hb. destruct Hb as [<-|[]].
    split; [reflexivity|]. unfold HalfOpenOverlap. vm_compute.
    intros [H _]. discriminate H.
  - apply (proj1 (proj2 (Hedit "b2"
             (EditBody.mk (Some 2) None None None None None)
             (mkDb [] [Scenario.roomOneMorning;
                       Scenario.stored "b2" 3 "x" "X" None (Some 22) (Some 2)
                         "hourly" 400] [])
             (Scenario.stored "b2" 3 "x" "X" None (Some 22) (Some 2) "hourly" 400)
             eq_refl eq_refl eq_refl))).
    exists Scenario.roomOneMorning. split; [left; reflexivity|].
    unfold HalfOpenOverlap. vm_compute. split; reflexivity.
Defined.

(** ** Who counts as the same client *)

Section SameClient.

Lemma phone_match (stored proposed : option string) :
  Js.truthyOpt proposed && Js.strictEqOpt stored proposed = true <->
  Js.truthyOpt proposed = true /\ stored = proposed.
Proof.
  rewrite andb_true_iff.
  destruct proposed as [s|]; simpl; [|intuition discriminate].
  destruct stored as [t|]; simpl.
  - destruct (String.eqb_spec t s); intuition congruence.
  - intuition discriminate.
Qed.

Lemma userBookingsCreate_In (data : InsertBooking.t) (all : list Booking.t)
    (b : Booking.t) :
  In b (userBookingsCreate data all) <->
  In b all /\
  (Booking.userId b = InsertBooking.userId data \/
   (Js.truthyOpt (InsertBooking.userPhone data) = true /\
    Booking.userPhone b = InsertBooking.userPhone data)).
Proof.
  unfold userBookingsCreate. rewrite filter_In, orb_true_iff, phone_match.
  rewrite String.eqb_eq. reflexivity.
Qed.

Lemma userBookingsEdit_In (booking : Booking.t) (all : list Booking.t)
    (b : Booking.t) :
  In b (userBookingsEdit booking all) <->
  In b all /\ Booking.id b <> Booking.id booking /\
  (Booking.userId b = Booking.userId booking \/
   (Js.truthyOpt (Booking.userPhone booking) = true /\
    Booking.userPhone b = Booking.userPhone booking)).
Proof.
  unfold userBookingsEdit.
  rewrite filter_In, andb_true_iff, orb_true_iff, phone_match, negb_true_iff.
  rewrite String.eqb_eq, String.eqb_neq. reflexivity.
Qed.

Lemma getBookingsByDate_In (date : string) (db : Db) (b : Booking.t) :
  In b (Storage.getBookingsByDate date db) <->
  In b (bookings db) /\ Booking.date b = date.
Proof.
  unfold Storage.getBookingsByDate. rewrite filter_In, String.eqb_eq.
  reflexivity.
Qed.

Lemma clientOthersCreate_In (data : InsertBooking.t) (db : Db) (b : Booking.t) :
  In b (clientOthersCreate data db) <->
  In b (bookings db) /\
  Booking.date b = InsertBooking.date data /\
  Booking.roomNumber b <> InsertBooking.roomNumber data /\
  (Booking.userId b = InsertBooking.userId data \/
   (Js.truthyOpt (InsertBooking.userPhone data) = true /\
    Booking.userPhone b = InsertBooking.userPhone data)).
Proof.
  unfold clientOthersCreate.
  rewrite filter_In, userBookingsCreate_In, getBookingsByDate_In.
  rewrite negb_true_iff, Z.eqb_neq. tauto.
Qed.

Lemma clientOthersEdit_In (booking : Booking.t) (p : EditPlan) (db : Db)
    (b : Booking.t) :
  In b (clientOthersEdit booking p db) <->
  In b (bookings db) /\
  Booking.date b = newDate p /\
  Booking.roomNumber b <> newRoom p /\
  Booking.id b <> Booking.id booking /\
  (Booking.userId b = Booking.userId booking \/
   (Js.truthyOpt (Booking.userPhone booking) = true /\
    Booking.userPhone b = Booking.userPhone booking)).
Proof.
  unfold clientOthersEdit.
  rewrite filter_In, userBookingsEdit_In, getBookingsByDate_In.
  rewrite negb_true_iff, Z.eqb_neq. tauto.
Qed.

End SameClient.

(** C10. In create and in edit the bookings a proposal is compared with
    across rooms are those of the date, in another room, whose userId is the
    proposal's or whose userPhone equals the proposal's non-empty userPhone
    (create: the phone after normalisation and identity resolution; edit:
    the phone of the stored booking, the edited booking itself left out).
    So a booking under another userId with the same stored phone causes
    the client refusals, and a proposal with an empty or absent phone is
    matched by userId only. *)
Theorem same_client_by_id_or_phone :
  (forall (parsed : InsertBooking.t) (db : Db) (b : Booking.t),
      let data := resolveIdentity parsed db in
      In b (clientOthersCreate data db) <->
      In b (bookings db) /\
      Booking.date b = InsertBooking.date parsed /\
      Booking.roomNumber b <> InsertBooking.roomNumber parsed /\
      (Booking.userId b = InsertBooking.userId data \/
       (Js.truthyOpt (InsertBooking.userPhone data) = true /\
        Booking.userPhone b = InsertBooking.userPhone data))) /\
  (forall (booking : Booking.t) (req : EditBody.t) (db : Db) (b : Booking.t),
      let p := planEdit booking req in
      In b (clientOthersEdit booking p db) <->
      In b (bookings db) /\
      Booking.date b = newDate p /\
      Booking.roomNumber b <> newRoom p /\
      Booking.id b <> Booking.id booking /\
      (Booking.userId b = Booking.userId booking \/
       (Js.truthyOpt (Booking.userPhone booking) = true /\
        Booking.userPhone b = Booking.userPhone booking))) /\
  (forall (uuid : string) (now : Z) (parsed : InsertBooking.t) (db : Db)
          (b : Booking.t),
      let data := resolveIdentity parsed db in
      let run := postBookings uuid now (Some parsed) db in
      roomCheckCreate data db = (Continue tt, db) ->
      In b (bookings db) ->
      Booking.date b = InsertBooking.date parsed ->
      Booking.roomNumber b <> InsertBooking.roomNumber parsed ->
      Js.truthyOpt (InsertBooking.userPhone data) = true ->
      Booking.userPhone b = InsertBooking.userPhone data ->
      (isDaily (InsertBooking.bookingType parsed) = true ->
       RefusedFor run ClientBookedElsewhere db) /\
      (isDaily (InsertBooking.bookingType parsed) = false ->
       isDaily (Booking.bookingType b) = true \/
       HalfOpenOverlap (createStart parsed) (createEnd parsed) b ->
       RefusedFor run ClientTimeConflict db)) /\
  (forall (id : string) (req : EditBody.t) (db : Db) (booking b : Booking.t),
      let p := planEdit booking req in
      let run := putBookingEdit id req db in
      Storage.getBooking id db = Some booking ->
      roomCheckEdit booking p db = (Continue tt, db) ->
      In b (bookings db) ->
      Booking.date b = newDate p ->
      Booking.roomNumber b <> newRoom p ->
      Booking.id b <> Booking.id booking ->
      Js.truthyOpt (Booking.userPhone booking) = true ->
      Booking.userPhone b = Booking.userPhone booking ->
      (isDaily (newType p) = true ->
       RefusedFor run ClientBookedElsewhere db) /\
      (isDaily (newType p) = false ->
       isDaily (Booking.bookingType b) = true \/
       HalfOpenOverlap (editStart p) (editEnd p) b ->
       RefusedFor run ClientTimeConflict db)) /\
  (forall (parsed : InsertBooking.t) (db : Db) (b : Booking.t),
      let data := resolveIdentity parsed db in
      Js.truthyOpt (InsertBooking.userPhone data) = false ->
      In b (clientOthersCreate data db) ->
      Booking.userId b = InsertBooking.userId data) /\
  (forall (booking : Booking.t) (req : EditBody.t) (db : Db) (b : Booking.t),
      Js.truthyOpt (Booking.userPhone booking) = false ->
      In b (clientOthersEdit booking (planEdit booking req) db) ->
      Booking.userId b = Booking.userId booking).
Proof.
  split; [|split; [|split; [|split; [|split]]]].
  - intros parsed db b data. rewrite clientOthersCreate_In.
    destruct (resolveIdentity_schedule parsed db) as (Hr & Hd & _).
    fold data in Hr, Hd. rewrite Hr, Hd. reflexivity.
  - intros booking req db b p. apply clientOthersEdit_In.
  - intros uuid now parsed db b data run Hroom Hin Hdate Hother Hph Heq.
    destruct (resolveIdentity_schedule parsed db) as (Hr & Hd & Ht & _).
    fold data in Hr, Hd, Ht.
    assert (Hmem : In b (clientOthersCreate data db)).
    { apply clientOthersCreate_In. rewrite Hr, Hd. tauto. }
    split.
    + intros Hty. unfold run. rewrite postBookings_run. cbv zeta. fold data.
      rewrite Hroom, clientCheckCreate_run. cbv zeta. rewrite Ht, Hty.
      assert (Hne : Js.nonEmpty (clientOthersCreate data db) = true).
      { apply nonEmpty_true. intros E. rewrite E in Hmem. exact Hmem. }
      rewrite Hne. now apply Refused_for with Msg.clientBookedElsewhere.
    + intros Hty Hcase. unfold run.
      rewrite (postBookings_client_decision uuid now parsed db Hty Hroom).
      fold data.
      assert (Hex : existsb (fun b => isDaily (Booking.bookingType b))
                      (clientOthersCreate data db)
                    || existsb (overlaps (createStart parsed) (createEnd parsed))
                         (clientOthersCreate data db) = true).
      { apply orb_true_iff. destruct Hcase as [Hdl|Hov]; [left|right];
          apply existsb_exists; exists b; split; auto.
        now apply overlaps_spec. }
      rewrite Hex. now apply Refused_for with Msg.clientTimeConflict.
  - intros id req db booking b p run Hfound Hroom Hin Hdate Hother Hid Hph Heq.
    assert (Hmem : In b (clientOthersEdit booking p db)).
    { apply clientOthersEdit_In. tauto. }
    split.
    + intros Hty. unfold run.
      rewrite (putBookingEdit_run id req db booking Hfound). cbv zeta. fold p.
      rewrite Hroom, clientCheckEdit_run. cbv zeta. rewrite Hty.
      assert (Hne : Js.nonEmpty (clientOthersEdit booking p db) = true).
      { apply nonEmpty_true. intros E. rewrite E in Hmem. exact Hmem. }
      rewrite Hne. now apply Refused_for with Msg.clientBookedElsewhere.
    + intros Hty Hcase. unfold run.
      rewrite (putBookingEdit_client_decision id req db booking Hfound Hty Hroom).
      fold p.
      assert (Hex : existsb (fun b => isDaily (Booking.bookingType b))
                      (clientOthersEdit booking p db)
                    || existsb (overlaps (editStart p) (editEnd p))
                         (clientOthersEdit booking p db) = true).
      { apply orb_true_iff. destruct Hcase as [Hd|Hov]; [left|right];
          apply existsb_exists; exists b; split; auto.
        now apply overlaps_spec. }
      rewrite Hex. now apply Refused_for with Msg.clientTimeConflict.
  - intros parsed db b data Hph Hmem.
    apply clientOthersCreate_In in Hmem as (_ & _ & _ & [H|[H _]]);
      [exact H|congruence].
  - intros booking req db b Hph Hmem.
    apply clientOthersEdit_In in Hmem as (_ & _ & _ & _ & [H|[H _]]);
      [exact H|congruence].
Qed.

Lemma same_client_by_id_or_phone_witness :
  InsertBooking.userId (resolveIdentity Scenario.samePhoneRequest Scenario.dbWalkIn)
  <> Booking.userId Scenario.walkInMorning /\
  In Scenario.walkInMorning
     (clientOthersCreate
        (resolveIdentity Scenario.samePhoneRequest Scenario.dbWalkIn)
        Scenario.dbWalkIn) /\
  RefusedFor (postBookings "b2" 1 (Some Scenario.samePhoneRequest) Scenario.dbWalkIn)
    ClientTimeConflict Scenario.dbWalkIn /\
  (forall b,
      In b (clientOthersCreate
              (resolveIdentity
                 (Scenario.request 2 "u7" "Ivan P." None (Some 22) (Some 2)
                    "hourly" 400)
                 Scenario.dbWalkIn)
              Scenario.dbWalkIn) ->
      Booking.userId b = "u7").
Proof.
  destruct same_client_by_id_or_phone as (Hset & _ & Hcreate & _ & Hempty & _).
  split; [discriminate|split; [|split]].
  - apply (Hset Scenario.samePhoneRequest Scenario.dbWalkIn Scenario.walkInMorning).
    split; [left; reflexivity|].
    split; [reflexivity|]. split; [discriminate|].
    right. split; reflexivity.
  - apply (proj2 (Hcreate "b2" 1 Scenario.samePhoneRequest Scenario.dbWalkIn
                    Scenario.walkInMorning eq_refl (or_introl eq_refl) eq_refl
                    ltac:(discriminate) eq_refl eq_refl)).
    + reflexivity.
    + right. unfold HalfOpenOverlap. vm_compute. split; reflexivity.
  - intros b Hb.
    apply (Hempty (Scenario.request 2 "u7" "Ivan P." None (Some 22) (Some 2)
                     "hourly" 400)
             Scenario.dbWalkIn b eq_refl Hb).
Defined.

(** ** No validation of the operating window *)

Section Window.



(** Identity resolution leaves the numbers of a request as they are. *)
Lemma insertFits_resolved (parsed : InsertBooking.t) (db : Db) :
  Storage.insertFits (resolveIdentity parsed db) = Storage.insertFits parsed.
Proof.
  unfold resolveIdentity.
  repeat match goal with
         | |- context [if ?c then _ else _] => destruct c
         | |- context [match ?c with Some _ => _ | None => _ end] => destruct c
         end; reflexivity.
Qed.


End Window.




(** ** Edit *)

Section Edit.

(** What a write of [updateBookingDetails] that the database takes leaves. *)
Lemma updateBookingDetails_some (id : string) (room : Z) (d : string)
    (start dur : option Z) (ty : string) (p : Z) (db db' : Db) :
  Storage.updateBookingDetails id room d start dur ty p db = Some db' ->
  Storage.detailsFit room start dur p = true /\
  db' = mkDb (users db)
          (updateById Booking.id (Booking.setDetails room d start dur ty p) id
             (bookings db))
          (cancellations db).
Proof.
  unfold Storage.updateBookingDetails.
  destruct (Storage.detailsFit room start dur p); [|discriminate].
  intros [= <-]. split; reflexivity.
Qed.

Lemma getBooking_updateBookingDetails (id : string) (room : Z) (d : string)
    (start dur : option Z) (ty : string) (p : Z) (db db' : Db)
    (booking : Booking.t) :
  Storage.updateBookingDetails id room d start dur ty p db = Some db' ->
  Storage.getBooking id db = Some booking ->
  Storage.getBooking id db'
  = Some (Booking.setDetails room d start dur ty p booking).
Proof.
  intros Hw. apply updateBookingDetails_some in Hw as [_ ->].
  unfold Storage.getBooking, updateById. simpl.
  induction (bookings db) as [|x r IH]; simpl; [discriminate|].
  destruct (Booking.id x === id) eqn:E; simpl.
  - rewrite E. intros [= ->]. reflexivity.
  - rewrite E. exact IH.
Qed.

(** An edit answered 200 found its booking, passed both checks and wrote
    the plan. *)
Lemma putBookingEdit_accepted (id : string) (req : EditBody.t) (db : Db) :
  status (fst (putBookingEdit id req db)) = 200 ->
  exists booking db',
    Storage.getBooking id db = Some booking /\
    let p := planEdit booking req in
    Storage.updateBookingDetails id (newRoom p) (newDate p) (newStart p)
      (newDuration p) (newType p) (newPrice p) db = Some db' /\
    putBookingEdit id req db = (mkResponse 200 JsonSuccess, db').
Proof.
  destruct (Storage.getBooking id db) as [booking|] eqn:Hb.
  - intros H. exists booking.
    rewrite (putBookingEdit_run id req db booking Hb) in H |- *. cbv zeta in *.
    pose proof (roomCheckEdit_reads booking (planEdit booking req) db) as [Hr _].
    pose proof (roomCheckEdit_replies booking (planEdit booking req) db) as Hr'.
    destruct (roomCheckEdit booking (planEdit booking req) db) as [[u|r|] db1];
      simpl in Hr; subst db1.
    + pose proof (clientCheckEdit_reads booking (planEdit booking req) db)
        as [Hc _].
      pose proof (clientCheckEdit_replies booking (planEdit booking req) db)
        as Hc'.
      destruct (clientCheckEdit booking (planEdit booking req) db)
        as [[v|r|] db2]; simpl in Hc; subst db2.
      * destruct (Storage.updateBookingDetails _ _ _ _ _ _ _ db) as [db'|];
          [|discriminate H].
        exists db'. repeat split.
      * simpl in H. rewrite (Hc' r eq_refl) in H. discriminate H.
      * discriminate H.
    + simpl in H. rewrite (Hr' r eq_refl) in H. discriminate H.
    + discriminate H.
  - rewrite (putBookingEdit_missing id req db Hb). simpl. discriminate.
Qed.

Lemma planEdit_daily (booking : Booking.t) (req : EditBody.t) :
  isDaily (newType (planEdit booking req)) = true ->
  newStart (planEdit booking req) = Some 20 /\
  newDuration (planEdit booking req) = Some 24 /\
  newPrice (planEdit booking req) = 3200.
Proof.
  unfold planEdit, isDaily.
  destruct (Js.orElseStr (EditBody.bookingType req)
              (Booking.bookingType booking) === "daily") eqn:E; simpl.
  - auto.
  - rewrite E. discriminate.
Qed.

Lemma planEdit_hourly (booking : Booking.t) (req : EditBody.t) :
  isDaily (newType (planEdit booking req)) = false ->
  newStart (planEdit booking req)
  = match EditBody.startHour req with
    | Some v => v
    | None => Booking.startHour booking
    end /\
  newDuration (planEdit booking req)
  = match EditBody.duration req with
    | Some v => v
    | None => Booking.duration booking
    end /\
  newPrice (planEdit booking req)
  = Js.orZero (newDuration (planEdit booking req)) * 200.
Proof.
  unfold planEdit, isDaily.
  destruct (Js.orElseStr (EditBody.bookingType req)
              (Booking.bookingType booking) === "daily") eqn:E; simpl.
  - rewrite E. discriminate.
  - auto.
Qed.

Lemma planEdit_room_date_type (booking : Booking.t) (req : EditBody.t) :
  newRoom (planEdit booking req)
  = Js.orElseZ (EditBody.roomNumber req) (Booking.roomNumber booking) /\
  newDate (planEdit booking req)
  = Js.orElseStr (EditBody.date req) (Booking.date booking) /\
  newType (planEdit booking req)
  = Js.orElseStr (EditBody.bookingType req) (Booking.bookingType booking).
Proof.
  unfold planEdit.
  destruct (Js.orElseStr (EditBody.bookingType req)
              (Booking.bookingType booking) === "daily"); simpl; auto.
Qed.

(** The key [price] of the body is never read. *)
Lemma putBookingEdit_ignores_price (id : string) (req : EditBody.t)
    (v : option Z) (db : Db) :
  putBookingEdit id (EditBody.withPrice v req) db = putBookingEdit id req db.
Proof. reflexivity. Qed.

End Edit.

(** C4. For every accepted edit (answer 200) the stored booking afterwards
    is as follows: if its bookingType is daily, its startHour is 20, its
    duration is 24 and its price is 3200, whatever startHour and duration
    the caller sent; if its bookingType is not daily (hourly), its price is
    its duration times 200.  The price is recomputed from type and duration
    alone: a price in the request body changes nothing. *)
Theorem edit_forces_daily_and_recomputes_price :
  forall (id : string) (req : EditBody.t) (db : Db),
    status (fst (putBookingEdit id req db)) = 200 ->
    (exists stored',
        Storage.getBooking id (snd (putBookingEdit id req db)) = Some stored' /\
        (isDaily (Booking.bookingType stored') = true ->
         Booking.startHour stored' = Some 20 /\
         Booking.duration stored' = Some 24 /\
         Booking.price stored' = 3200) /\
        (isDaily (Booking.bookingType stored') = false ->
         Booking.price stored' = Js.orZero (Booking.duration stored') * 200)) /\
    (forall v : option Z,
        putBookingEdit id (EditBody.withPrice v req) db = putBookingEdit id req db).
Proof.
  intros id req db Hok.
  destruct (putBookingEdit_accepted id req db Hok)
    as (booking & db' & Hb & Hw & Hrun).
  cbv zeta in Hw. split; [|intros v; apply putBookingEdit_ignores_price].
  rewrite Hrun. simpl snd.
  eexists. split; [exact (getBooking_updateBookingDetails _ _ _ _ _ _ _ _ _ _ Hw Hb)|].
  simpl. split.
  - apply planEdit_daily.
  - intros Hty. apply (planEdit_hourly booking req Hty).
Qed.

Lemma edit_forces_daily_and_recomputes_price_witness :
  (exists stored',
      Storage.getBooking "b1"
        (snd (putBookingEdit "b1"
                (EditBody.mk None None (Some (Some 30)) (Some (Some 3))
                   (Some "daily") (Some 1))
                Scenario.dbHourly)) = Some stored' /\
      (isDaily (Booking.bookingType stored') = true ->
       Booking.startHour stored' = Some 20 /\
       Booking.duration stored' = Some 24 /\
       Booking.price stored' = 3200) /\
      (isDaily (Booking.bookingType stored') = false ->
       Booking.price stored' = Js.orZero (Booking.duration stored') * 200)) /\
  (forall v : option Z,
      putBookingEdit "b1"
        (EditBody.withPrice v
           (EditBody.mk None None (Some (Some 30)) (Some (Some 3))
              (Some "daily") (Some 1)))
        Scenario.dbHourly
      = putBookingEdit "b1"
          (EditBody.mk None None (Some (Some 30)) (Some (Some 3))
             (Some "daily") (Some 1))
          Scenario.dbHourly).
Proof.
  apply (edit_forces_daily_and_recomputes_price "b1"
           (EditBody.mk None None (Some (Some 30)) (Some (Some 3))
              (Some "daily") (Some 1))
           Scenario.dbHourly).
  reflexivity.
Defined.

(** An hourly booking that starts at 30 is edited with a body whose only
    key is bookingType, set to daily.  The edit is accepted; startHour and
    duration are missing from the request, and what is stored is 20 and 24,
    not the stored 30 and 2: the missing fields did not default to the
    stored values, as C5 says they do. *)
Lemma daily_edit_replaces_stored_hours :
  EditBody.startHour (EditBody.mk None None None None (Some "daily") None) = None /\
  EditBody.duration (EditBody.mk None None None None (Some "daily") None) = None /\
  putBookingEdit "b1" (EditBody.mk None None None None (Some "daily") None)
    (mkDb []
       [Scenario.stored "b1" 1 "x" "X" None (Some 30) (Some 2) "hourly" 400] [])
  = (mkResponse 200 JsonSuccess,
     mkDb []
       [Scenario.stored "b1" 1 "x" "X" None (Some 20) (Some 24) "daily" 3200]
       []) /\
  Booking.startHour
    (Scenario.stored "b1" 1 "x" "X" None (Some 20) (Some 24) "daily" 3200)
  <> Booking.startHour
       (Scenario.stored "b1" 1 "x" "X" None (Some 30) (Some 2) "hourly" 400) /\
  Booking.duration
    (Scenario.stored "b1" 1 "x" "X" None (Some 20) (Some 24) "daily" 3200)
  <> Booking.duration
       (Scenario.stored "b1" 1 "x" "X" None (Some 30) (Some 2) "hourly" 400).
Proof.
  split; [reflexivity|]. split; [reflexivity|]. split; [reflexivity|].
  split; discriminate.
Qed.

(** C5, as the handler has it.  An edit of an id that no booking carries
    is answered 404 (NotFound) and changes nothing.  In an accepted edit
    the keys missing from the request take the stored values: room, date
    and type always, startHour and duration whenever the resulting type is
    not daily; a daily result has startHour 20 and duration 24, whatever is
    stored or sent.  The columns an edit does not set are kept.  Every
    answer other than 200, the 409 refusals of the admissibility check
    among them, leaves the database, and so the stored booking, exactly as
    it was. *)
Theorem edit_missing_defaults_rollback :
  (forall (id : string) (req : EditBody.t) (db : Db),
      Storage.getBooking id db = None ->
      putBookingEdit id req db = (jsonError 404 Msg.notFound, db) /\
      reasonOf (fst (putBookingEdit id req db)) = Some NotFound) /\
  (forall (id : string) (req : EditBody.t) (db : Db) (booking : Booking.t),
      Storage.getBooking id db = Some booking ->
      status (fst (putBookingEdit id req db)) = 200 ->
      exists stored',
        Storage.getBooking id (snd (putBookingEdit id req db)) = Some stored' /\
        (EditBody.roomNumber req = None ->
         Booking.roomNumber stored' = Booking.roomNumber booking) /\
        (EditBody.date req = None ->
         Booking.date stored' = Booking.date booking) /\
        (EditBody.bookingType req = None ->
         Booking.bookingType stored' = Booking.bookingType booking) /\
        (isDaily (Booking.bookingType stored') = false ->
         EditBody.startHour req = None ->
         Booking.startHour stored' = Booking.startHour booking) /\
        (isDaily (Booking.bookingType stored') = false ->
         EditBody.duration req = None ->
         Booking.duration stored' = Booking.duration booking) /\
        (isDaily (Booking.bookingType stored') = true ->
         Booking.startHour stored' = Some 20 /\
         Booking.duration stored' = Some 24) /\
        Booking.setDetails (Booking.roomNumber booking) (Booking.date booking)
          (Booking.startHour booking) (Booking.duration booking)
          (Booking.bookingType booking) (Booking.price booking) stored'
        = booking) /\
  (forall (id : string) (req : EditBody.t) (db : Db),
      status (fst (putBookingEdit id req db)) <> 200 ->
      snd (putBookingEdit id req db) = db /\
      Storage.getBooking id (snd (putBookingEdit id req db))
      = Storage.getBooking id db).
Proof.
  split; [|split].
  - intros id req db Hb. rewrite (putBookingEdit_missing id req db Hb).
    split; reflexivity.
  - intros id req db booking Hb Hok.
    destruct (putBookingEdit_accepted id req db Hok)
      as (booking' & db' & Hb' & Hw & Hrun).
    rewrite Hb in Hb'. injection Hb' as <-. cbv zeta in Hw.
    rewrite Hrun. simpl snd.
    eexists.
    split; [exact (getBooking_updateBookingDetails _ _ _ _ _ _ _ _ _ _ Hw Hb)|].
    destruct (planEdit_room_date_type booking req) as (Hr & Hd & Ht).
    simpl. split; [|split; [|split; [|split; [|split; [|split]]]]].
    + intros E. rewrite Hr, E. reflexivity.
    + intros E. rewrite Hd, E. reflexivity.
    + intros E. rewrite Ht, E. reflexivity.
    + intros Hty E. destruct (planEdit_hourly booking req Hty) as (Hs & _).
      rewrite Hs, E. reflexivity.
    + intros Hty E. destruct (planEdit_hourly booking req Hty) as (_ & Hdu & _).
      rewrite Hdu, E. reflexivity.
    + intros Hty. destruct (planEdit_daily booking req Hty) as (Hs & Hdu & _).
      split; assumption.
    + destruct booking. reflexivity.
  - intros id req db Hno.
    rewrite (putBookingEdit_refusal_writes_nothing id req db Hno).
    split; reflexivity.
Qed.

Lemma edit_missing_defaults_rollback_witness :
  putBookingEdit "zz" Scenario.noKeys Scenario.dbHourly
  = (jsonError 404 Msg.notFound, Scenario.dbHourly) /\
  (exists stored',
      Storage.getBooking "b1"
        (snd (putBookingEdit "b1"
                (EditBody.mk None None None (Some (Some 6)) None None)
                Scenario.dbHourly)) = Some stored' /\
      Booking.roomNumber stored' = 2 /\
      Booking.startHour stored' = Some 20 /\
      Booking.duration stored' = Some 6) /\
  snd (putBookingEdit "b1"
         (EditBody.mk None None (Some (Some 22)) None None None)
         Scenario.dbTwoInRoom) = Scenario.dbTwoInRoom.
Proof.
  destruct edit_missing_defaults_rollback as (Hnone & Hsome & Hrefused).
  split; [|split].
  - apply (Hnone "zz" Scenario.noKeys Scenario.dbHourly). reflexivity.
  - destruct (Hsome "b1" (EditBody.mk None None None (Some (Some 6)) None None)
                Scenario.dbHourly Scenario.tenToTwelve eq_refl eq_refl)
      as (stored' & Hget & Hroom & _ & _ & Hstart & _).
    exists stored'. split; [exact Hget|].
    split; [exact (Hroom eq_refl)|].
    vm_compute in Hget. injection Hget as <-.
    split; reflexivity.
  - apply (Hrefused "b1" (EditBody.mk None None (Some (Some 22)) None None None)
             Scenario.dbTwoInRoom).
    vm_compute. discriminate.
Defined.

(** ** Cancel *)

Section Cancel.

Lemma deleteBooking_absent (id : string) (db : Db) :
  Storage.getBooking id db = None -> Storage.deleteBooking id db = db.
Proof.
  unfold Storage.getBooking, Storage.deleteBooking, withBookings.
  destruct db as [us bs cs]. simpl. intros H. f_equal.
  induction bs as [|x r IH]; simpl in *; [reflexivity|].
  destruct (Booking.id x === id); simpl; [discriminate|].
  rewrite (IH H). reflexivity.
Qed.

Lemma getBooking_deleteBooking (id : string) (db : Db) :
  Storage.getBooking id (Storage.deleteBooking id db) = None.
Proof.
  unfold Storage.getBooking, Storage.deleteBooking. simpl.
  induction (bookings db) as [|x r IH]; simpl; [reflexivity|].
  destruct (Booking.id x === id) eqn:E; simpl; [exact IH|].
  rewrite E. exact IH.
Qed.

Lemma deleteBookingRoute_present (uuid : string) (now : Z) (id : string)
    (db : Db) (b : Booking.t) :
  Storage.getBooking id db = Some b ->
  deleteBookingRoute true uuid now id db
  = (mkResponse 204 NoBody,
     Storage.deleteBooking id
       (Storage.createCancellation uuid now
          (InsertCancellation.mk (Booking.userId b) (Booking.userName b)
             (Booking.userPhone b) (Booking.roomNumber b) (Booking.date b)
             (Booking.bookingType b) (Booking.price b))
          db)).
Proof.
  intros H. unfold deleteBookingRoute, tryCatch. rewrite bind_query, H.
  reflexivity.
Qed.

Lemma deleteBookingRoute_absent (snapshotOk : bool) (uuid : string) (now : Z)
    (id : string) (db : Db) :
  Storage.getBooking id db = None ->
  deleteBookingRoute snapshotOk uuid now id db = (mkResponse 204 NoBody, db).
Proof.
  intros H. unfold deleteBookingRoute, tryCatch. rewrite bind_query, H.
  rewrite bind_ret, bind_exec, (deleteBooking_absent id db H). reflexivity.
Qed.

End Cancel.

(** C6. Cancelling an id that a booking carries appends exactly one
    cancellation row, whose userId, userName, userPhone, roomNumber, date,
    bookingType and price are those of the booking, then removes the
    booking and answers 204; the snapshot is written first, so when its
    write fails the answer is 500 and the booking, like everything else,
    remains.  Cancelling an id that no booking carries answers 204, creates
    no cancellation and changes nothing; in particular a second cancel of
    the same id is such a no-op. *)
Theorem cancel_snapshots_then_deletes :
  (forall (uuid : string) (now : Z) (id : string) (db : Db) (b : Booking.t),
      Storage.getBooking id db = Some b ->
      deleteBookingRoute true uuid now id db
      = (mkResponse 204 NoBody,
         mkDb (users db)
           (filter (fun x => negb (Booking.id x === id)) (bookings db))
           (cancellations db
            ++ [Cancellation.mk uuid (Booking.userId b) (Booking.userName b)
                  (Booking.userPhone b) (Booking.roomNumber b) (Booking.date b)
                  (Booking.bookingType b) (Booking.price b) now])%list) /\
      Storage.getBooking id (snd (deleteBookingRoute true uuid now id db)) = None) /\
  (forall (uuid : string) (now : Z) (id : string) (db : Db) (b : Booking.t),
      Storage.getBooking id db = Some b ->
      deleteBookingRoute false uuid now id db
      = (jsonError 500 "Failed to delete booking", db)) /\
  (forall (snapshotOk : bool) (uuid : string) (now : Z) (id : string) (db : Db),
      Storage.getBooking id db = None ->
      deleteBookingRoute snapshotOk uuid now id db = (mkResponse 204 NoBody, db)) /\
  (forall (snapshotOk : bool) (uuid uuid' : string) (now now' : Z) (id : string)
          (db : Db),
      let once := snd (deleteBookingRoute true uuid now id db) in
      deleteBookingRoute snapshotOk uuid' now' id once
      = (mkResponse 204 NoBody, once)).
Proof.
  split; [|split; [|split]].
  - intros uuid now id db b H.
    rewrite (deleteBookingRoute_present uuid now id db b H). split.
    + reflexivity.
    + simpl snd. apply getBooking_deleteBooking.
  - intros uuid now id db b H.
    unfold deleteBookingRoute, tryCatch. rewrite bind_query, H. reflexivity.
  - intros. now apply deleteBookingRoute_absent.
  - intros snapshotOk uuid uuid' now now' id db once.
    apply deleteBookingRoute_absent. unfold once.
    destruct (Storage.getBooking id db) as [b|] eqn:H.
    + rewrite (deleteBookingRoute_present uuid now id db b H). simpl snd.
      apply getBooking_deleteBooking.
    + rewrite (deleteBookingRoute_absent true uuid now id db H). exact H.
Qed.

Lemma cancel_snapshots_then_deletes_witness :
  deleteBookingRoute true "c1" 9 "b1" Scenario.dbHourly
  = (mkResponse 204 NoBody,
     mkDb [] []
       [Cancellation.mk "c1" "x" "X" None 2 Scenario.day "hourly" 800 9]) /\
  deleteBookingRoute false "c1" 9 "b1" Scenario.dbHourly
  = (jsonError 500 "Failed to delete booking", Scenario.dbHourly) /\
  deleteBookingRoute true "c1" 9 "zz" Scenario.dbHourly
  = (mkResponse 204 NoBody, Scenario.dbHourly).
Proof.
  destruct cancel_snapshots_then_deletes as (Hok & Hfail & Habsent & _).
  split; [|split].
  - destruct (Hok "c1" 9 "b1" Scenario.dbHourly Scenario.tenToTwelve eq_refl)
      as [Hrun _].
    rewrite Hrun. reflexivity.
  - apply (Hfail "c1" 9 "b1" Scenario.dbHourly Scenario.tenToTwelve eq_refl).
  - apply (Habsent true "c1" 9 "zz" Scenario.dbHourly eq_refl).
Defined.

(** ** Merge *)

Section Tables.

Context {Row : Type} (rowId : Row -> string) (change : Row -> Row).
Hypothesis change_keeps_id : forall r, rowId (change r) = rowId r.
Hypothesis change_twice : forall r, change (change r) = change r.


(** In a table with a primary key, a row is found by its id. *)
Lemma same_id_same_row (table : list Row) (a b : Row) :
  NoDup (map rowId table) -> In a table -> In b table ->
  rowId a = rowId b -> a = b.
Proof.
  induction table as [|x r IH]; simpl; [tauto|].
  intros Hnd Ha Hb E. inversion Hnd as [|? ? Hx Hr]; subst.
  destruct Ha as [->|Ha], Hb as [->|Hb]; auto.
  - exfalso. apply Hx. rewrite E. now apply in_map.
  - exfalso. apply Hx. rewrite <- E. now apply in_map.
Qed.


End Tables.

Section Order.

Context {A : Type} (before : A -> A -> bool).

Lemma insertBy_perm (x : A) (l : list A) :
  Permutation (insertBy before x l) (x :: l).
Proof.
  induction l as [|y r IH]; simpl; [reflexivity|].
  destruct (before x y); [reflexivity|].
  rewrite IH. apply perm_swap.
Qed.

(** [ORDER BY] returns the rows it is given. *)
Lemma sortBy_perm (l : list A) : Permutation (sortBy before l) l.
Proof.
  induction l as [|x r IH]; simpl; [reflexivity|].
  rewrite insertBy_perm. now constructor.
Qed.

Lemma sortBy_In (l : list A) (x : A) : In x (sortBy before l) <-> In x l.
Proof.
  split; apply Permutation_in; [|symmetry]; apply sortBy_perm.
Qed.


End Order.

Section Loops.


End Loops.

Section Merge.

Variables (target : string) (name : option string) (phone : string).








End Merge.






(** ** Dedup *)

(** C8 on the handler.  Two databases on which the second of two runs in
    sequence still updates.  On the first the cancellation without a phone
    is rewritten, and counted, by every run (lines 817-820): the second run
    answers updatedCount 1 although it leaves the state as the first run
    left it.  On the second the loop of lines 784-792 writes the stale
    userId of its snapshot back over the canonical one that the loop of
    lines 776-780 has just stored, so the first run leaves the duplicate in
    place, the second run answers updatedCount 1 and the state after it
    differs from the state after the first. *)
Theorem cleanup_second_run_still_updates :
  fst (postCleanupDuplicates (snd (postCleanupDuplicates Scenario.dbPhoneless)))
  = mkResponse 200 (JsonUpdated 1) /\
  snd (postCleanupDuplicates (snd (postCleanupDuplicates Scenario.dbPhoneless)))
  = snd (postCleanupDuplicates Scenario.dbPhoneless) /\
  fst (postCleanupDuplicates Scenario.dbTwoWalkIns)
  = mkResponse 200 (JsonUpdated 2) /\
  map Booking.userId (bookings (snd (postCleanupDuplicates Scenario.dbTwoWalkIns)))
  = ["walk_in_1"; "walk_in_2"] /\
  fst (postCleanupDuplicates (snd (postCleanupDuplicates Scenario.dbTwoWalkIns)))
  = mkResponse 200 (JsonUpdated 1) /\
  map Booking.userId
    (bookings
       (snd (postCleanupDuplicates
               (snd (postCleanupDuplicates Scenario.dbTwoWalkIns)))))
  = ["walk_in_1"; "walk_in_1"].
Proof.
  repeat split; vm_compute; reflexivity.
Qed.

(** * Further properties *)

(** ** When a proposal is accepted *)

Section Acceptance.

Lemma roomCheckCreate_pass (data : InsertBooking.t) (db : Db) :
  fst (roomCheckCreate data db) = Continue tt <->
  if isDaily (InsertBooking.bookingType data)
  then roomOthersCreate data db = []
  else forall b, In b (roomOthersCreate data db) ->
                 isDaily (Booking.bookingType b) = false /\
                 ~ HalfOpenOverlap (createStart data) (createEnd data) b.
Proof.
  rewrite roomCheckCreate_run. cbv zeta.
  destruct (isDaily (InsertBooking.bookingType data)).
  - destruct (roomOthersCreate data db); simpl; intuition congruence.
  - destruct (existsb _ _) eqn:Hd.
    + simpl. split; [discriminate|]. intros H.
      apply existsb_exists in Hd as (b & Hb & Hbd).
      destruct (H b Hb) as [Hn _]. congruence.
    + destruct (existsb (overlaps _ _) _) eqn:Ho; simpl.
      * split; [discriminate|]. intros H.
        apply existsb_exists in Ho as (b & Hb & Hbo).
        destruct (H b Hb) as [_ Hn]. now apply overlaps_spec in Hbo.
      * split; [|reflexivity]. intros _ b Hb. split.
        -- exact (proj1 (existsb_false _ _) Hd b Hb).
        -- apply overlaps_false. exact (proj1 (existsb_false _ _) Ho b Hb).
Qed.

Lemma clientCheckCreate_pass (data : InsertBooking.t) (db : Db) :
  fst (clientCheckCreate data db) = Continue tt <->
  if isDaily (InsertBooking.bookingType data)
  then clientOthersCreate data db = []
  else forall b, In b (clientOthersCreate data db) ->
                 isDaily (Booking.bookingType b) = false /\
                 ~ HalfOpenOverlap (createStart data) (createEnd data) b.
Proof.
  rewrite clientCheckCreate_run. cbv zeta.
  destruct (isDaily (InsertBooking.bookingType data)).
  - destruct (clientOthersCreate data db); simpl; intuition congruence.
  - destruct (existsb _ _) eqn:Hd; simpl.
    + split; [discriminate|]. intros H.
      apply existsb_exists in Hd as (b & Hb & Hbd).
      destruct (H b Hb) as [Hn Ho]. apply orb_true_iff in Hbd as [Hbd|Hbd].
      * congruence.
      * now apply overlaps_spec in Hbd.
    + split; [|reflexivity]. intros _ b Hb.
      pose proof (proj1 (existsb_false _ _) Hd b Hb) as Hf.
      apply orb_false_iff in Hf as [Hf1 Hf2]. split; [exact Hf1|].
      now apply overlaps_false.
Qed.

Lemma roomCheckEdit_pass (booking : Booking.t) (p : EditPlan) (db : Db) :
  fst (roomCheckEdit booking p db) = Continue tt <->
  if isDaily (newType p)
  then roomOthersEdit booking p db = []
  else forall b, In b (roomOthersEdit booking p db) ->
                 isDaily (Booking.bookingType b) = false /\
                 ~ HalfOpenOverlap (editStart p) (editEnd p) b.
Proof.
  rewrite roomCheckEdit_run. cbv zeta.
  destruct (isDaily (newType p)).
  - destruct (roomOthersEdit booking p db); simpl; intuition congruence.
  - destruct (existsb _ _) eqn:Hd.
    + simpl. split; [discriminate|]. intros H.
      apply existsb_exists in Hd as (b & Hb & Hbd).
      destruct (H b Hb) as [Hn _]. congruence.
    + destruct (existsb (overlaps _ _) _) eqn:Ho; simpl.
      * split; [discriminate|]. intros H.
        apply existsb_exists in Ho as (b & Hb & Hbo).
        destruct (H b Hb) as [_ Hn]. now apply overlaps_spec in Hbo.
      * split; [|reflexivity]. intros _ b Hb. split.
        -- exact (proj1 (existsb_false _ _) Hd b Hb).
        -- apply overlaps_false. exact (proj1 (existsb_false _ _) Ho b Hb).
Qed.

Lemma clientCheckEdit_pass (booking : Booking.t) (p : EditPlan) (db : Db) :
  fst (clientCheckEdit booking p db) = Continue tt <->
  if isDaily (newType p)
  then clientOthersEdit booking p db = []
  else forall b, In b (clientOthersEdit booking p db) ->
                 isDaily (Booking.bookingType b) = false /\
                 ~ HalfOpenOverlap (editStart p) (editEnd p) b.
Proof.
  rewrite clientCheckEdit_run. cbv zeta.
  destruct (isDaily (newType p)).
  - destruct (clientOthersEdit booking p db); simpl; intuition congruence.
  - destruct (existsb _ _) eqn:Hd; simpl.
    + split; [discriminate|]. intros H.
      apply existsb_exists in Hd as (b & Hb & Hbd).
      destruct (H b Hb) as [Hn Ho]. apply orb_true_iff in Hbd as [Hbd|Hbd].
      * congruence.
      * now apply overlaps_spec in Hbd.
    + split; [|reflexivity]. intros _ b Hb.
      pose proof (proj1 (existsb_false _ _) Hd b Hb) as Hf.
      apply orb_false_iff in Hf as [Hf1 Hf2]. split; [exact Hf1|].
      now apply overlaps_false.
Qed.

(** The create handler answers 201 exactly when both checks pass and the
    insert is taken, and then it has appended the new row. *)
Lemma postBookings_201 (uuid : string) (now : Z) (parsed : InsertBooking.t)
    (db : Db) :
  let data := resolveIdentity parsed db in
  status (fst (postBookings uuid now (Some parsed) db)) = 201 <->
  fst (roomCheckCreate data db) = Continue tt /\
  fst (clientCheckCreate data db) = Continue tt /\
  Storage.insertFits data = true.
Proof.
  cbv zeta. rewrite postBookings_run. cbv zeta.
  set (data := resolveIdentity parsed db).
  pose proof (roomCheckCreate_reads data db) as [Hr _].
  pose proof (roomCheckCreate_replies data db) as Hr'.
  destruct (roomCheckCreate data db) as [[[]|r|] db1]; simpl in Hr; subst db1.
  - pose proof (clientCheckCreate_reads data db) as [Hc _].
    pose proof (clientCheckCreate_replies data db) as Hc'.
    destruct (clientCheckCreate data db) as [[[]|r|] db2]; simpl in Hc; subst db2.
    + unfold Storage.createBooking. destruct (Storage.insertFits data); simpl.
      * split; auto.
      * split; [discriminate|intros (_ & _ & H); discriminate H].
    + simpl. rewrite (Hc' r eq_refl).
      split; [discriminate|intros (_ & H & _); discriminate H].
    + simpl. split; [discriminate|intros (_ & H & _); discriminate H].
  - simpl. rewrite (Hr' r eq_refl).
    split; [discriminate|intros (H & _); discriminate H].
  - simpl. split; [discriminate|intros (H & _); discriminate H].
Qed.

Lemma postBookings_201_writes (uuid : string) (now : Z)
    (parsed : InsertBooking.t) (db : Db) :
  let data := resolveIdentity parsed db in
  status (fst (postBookings uuid now (Some parsed) db)) = 201 ->
  snd (postBookings uuid now (Some parsed) db)
  = withBookings (fun t => (t ++ [Storage.newBooking uuid now data])%list) db.
Proof.
  cbv zeta. intros Hok.
  pose proof (proj1 (postBookings_201 uuid now parsed db) Hok) as (H1 & H2 & H3).
  cbv zeta in H1, H2, H3. rewrite postBookings_run. cbv zeta.
  pose proof (roomCheckCreate_reads (resolveIdentity parsed db) db) as [Hr _].
  destruct (roomCheckCreate (resolveIdentity parsed db) db) as [o1 db1].
  simpl in H1, Hr. subst o1 db1.
  pose proof (clientCheckCreate_reads (resolveIdentity parsed db) db) as [Hc _].
  destruct (clientCheckCreate (resolveIdentity parsed db) db) as [o2 db2].
  simpl in H2, Hc. subst o2 db2.
  unfold Storage.createBooking. rewrite H3. reflexivity.
Qed.

Lemma putBookingEdit_200 (id : string) (req : EditBody.t) (db : Db)
    (booking : Booking.t) :
  Storage.getBooking id db = Some booking ->
  let p := planEdit booking req in
  status (fst (putBookingEdit id req db)) = 200 <->
  fst (roomCheckEdit booking p db) = Continue tt /\
  fst (clientCheckEdit booking p db) = Continue tt /\
  editFits p = true.
Proof.
  intros Hb. cbv zeta. rewrite (putBookingEdit_run id req db booking Hb).
  cbv zeta. set (p := planEdit booking req).
  pose proof (roomCheckEdit_reads booking p db) as [Hr _].
  pose proof (roomCheckEdit_replies booking p db) as Hr'.
  destruct (roomCheckEdit booking p db) as [[[]|r|] db1]; simpl in Hr; subst db1.
  - pose proof (clientCheckEdit_reads booking p db) as [Hc _].
    pose proof (clientCheckEdit_replies booking p db) as Hc'.
    destruct (clientCheckEdit booking p db) as [[[]|r|] db2]; simpl in Hc; subst db2.
    + unfold Storage.updateBookingDetails, editFits.
      destruct (Storage.detailsFit _ _ _ _); simpl.
      * split; auto.
      * split; [discriminate|intros (_ & _ & H); discriminate H].
    + simpl. rewrite (Hc' r eq_refl).
      split; [discriminate|intros (_ & H & _); discriminate H].
    + simpl. split; [discriminate|intros (_ & H & _); discriminate H].
  - simpl. rewrite (Hr' r eq_refl).
    split; [discriminate|intros (H & _); discriminate H].
  - simpl. split; [discriminate|intros (H & _); discriminate H].
Qed.

End Acceptance.

(** X1. A create request with a parsed body is answered 201 exactly when
    its numbers fit the integer columns of the table and the bookings it
    is compared with (those of its room and date, and those of its client
    in other rooms that date) are none, for a daily proposal, or are all
    not daily and free of overlap with the proposed interval, for an
    hourly one.  The same holds of the 200 of an edit of an existing id,
    with the edited booking left out of the comparison and the numbers
    those of the plan. *)
Theorem acceptance_decided_by_conflicts :
  (forall (uuid : string) (now : Z) (parsed : InsertBooking.t) (db : Db),
      let data := resolveIdentity parsed db in
      let compared :=
        (roomOthersCreate parsed db ++ clientOthersCreate data db)%list in
      status (fst (postBookings uuid now (Some parsed) db)) = 201 <->
      Storage.insertFits parsed = true /\
      if isDaily (InsertBooking.bookingType parsed)
      then compared = []
      else forall b, In b compared ->
                     isDaily (Booking.bookingType b) = false /\
                     ~ HalfOpenOverlap (createStart parsed) (createEnd parsed) b) /\
  (forall (id : string) (req : EditBody.t) (db : Db) (booking : Booking.t),
      Storage.getBooking id db = Some booking ->
      let p := planEdit booking req in
      let compared :=
        (roomOthersEdit booking p db ++ clientOthersEdit booking p db)%list in
      status (fst (putBookingEdit id req db)) = 200 <->
      editFits p = true /\
      if isDaily (newType p)
      then compared = []
      else forall b, In b compared ->
                     isDaily (Booking.bookingType b) = false /\
                     ~ HalfOpenOverlap (editStart p) (editEnd p) b).
Proof.
  split.
  - intros uuid now parsed db data compared. subst compared.
    rewrite postBookings_201. fold data.
    rewrite roomCheckCreate_pass, clientCheckCreate_pass.
    destruct (resolveIdentity_schedule parsed db) as (_ & _ & Ht & _).
    destruct (createInterval_resolved parsed db) as [Hs He].
    fold data in Ht, Hs, He. rewrite Ht, Hs, He.
    rewrite <- (roomOthersCreate_resolved parsed db). fold data.
    pose proof (insertFits_resolved parsed db) as Hf0. fold data in Hf0.
    rewrite <- Hf0.
    destruct (isDaily (InsertBooking.bookingType parsed)).
    + split.
      * intros (-> & -> & Hf). split; [exact Hf|reflexivity].
      * intros [Hf H]. apply app_eq_nil in H as [H1 H2]. auto.
    + split.
      * intros (H1 & H2 & Hf). split; [exact Hf|].
        intros b Hb. apply in_app_or in Hb as [Hb|Hb]; auto.
      * intros [Hf H]. split; [|split; [|exact Hf]];
          intros x Hx; apply H, in_or_app; auto.
  - intros id req db booking Hb p compared. subst compared.
    rewrite (putBookingEdit_200 id req db booking Hb). fold p.
    rewrite roomCheckEdit_pass, clientCheckEdit_pass.
    destruct (isDaily (newType p)).
    + split.
      * intros (-> & -> & Hf). split; [exact Hf|reflexivity].
      * intros [Hf H]. apply app_eq_nil in H as [H1 H2]. auto.
    + split.
      * intros (H1 & H2 & Hf). split; [exact Hf|].
        intros b Hb'. apply in_app_or in Hb' as [Hb'|Hb']; auto.
      * intros [Hf H]. split; [|split; [|exact Hf]];
          intros x Hx; apply H, in_or_app; auto.
Qed.

Lemma acceptance_decided_by_conflicts_witness :
  status (fst (postBookings "b2" 1
                 (Some (Scenario.request 3 "y" "Y" None None None "daily" 3200))
                 Scenario.dbHourly)) = 201 /\
  ~ (forall b,
        In b (roomOthersEdit Scenario.tenToTwelve
                (planEdit Scenario.tenToTwelve
                   (EditBody.mk None None (Some (Some 22)) None None None))
                Scenario.dbTwoInRoom
              ++ clientOthersEdit Scenario.tenToTwelve
                   (planEdit Scenario.tenToTwelve
                      (EditBody.mk None None (Some (Some 22)) None None None))
                   Scenario.dbTwoInRoom)%list ->
        isDaily (Booking.bookingType b) = false /\
        ~ HalfOpenOverlap 22 26 b).
Proof.
  destruct acceptance_decided_by_conflicts as [Hcreate Hedit].
  split.
  - apply (Hcreate "b2" 1
             (Scenario.request 3 "y" "Y" None None None "daily" 3200)
             Scenario.dbHourly).
    split; reflexivity.
  - intros H.
    pose proof (proj2 (Hedit "b1"
                         (EditBody.mk None None (Some (Some 22)) None None None)
                         Scenario.dbTwoInRoom Scenario.tenToTwelve eq_refl)
                  (conj eq_refl H)) as Hok.
    vm_compute in Hok. discriminate Hok.
Defined.

(** ** The booking table stays free of conflicts *)

Section Pairs.

Context {Row : Type} (R : Row -> Row -> Prop).
Hypothesis R_sym : forall x y, R x y -> R y x.

Lemma FOP_snoc (l : list Row) (x : Row) :
  ForallOrdPairs R l -> Forall (fun a => R a x) l ->
  ForallOrdPairs R (l ++ [x]).
Proof.
  induction 1 as [|a l Ha Hl IH]; intros Hx; simpl.
  - repeat constructor.
  - inversion Hx as [|? ? Hax Hlx]; subst. constructor.
    + apply Forall_app. split; [exact Ha|]. now repeat constructor.
    + now apply IH.
Qed.

Lemma FOP_filter (f : Row -> bool) (l : list Row) :
  ForallOrdPairs R l -> ForallOrdPairs R (filter f l).
Proof.
  induction 1 as [|a l Ha Hl IH]; simpl; [constructor|].
  destruct (f a); [|exact IH]. constructor; [|exact IH].
  rewrite Forall_forall in *. intros y Hy. apply filter_In in Hy as [Hy _].
  now apply Ha.
Qed.


End Pairs.

Section Consistency.





Lemma getBookingsByRoom_In (room : Z) (date : string) (db : Db) (b : Booking.t) :
  In b (Storage.getBookingsByRoom room date db) <->
  In b (bookings db) /\ Booking.roomNumber b = room /\ Booking.date b = date.
Proof.
  unfold Storage.getBookingsByRoom.
  rewrite filter_In, andb_true_iff, Z.eqb_eq, String.eqb_eq. reflexivity.
Qed.

End Consistency.

Section Keeping.

(** The row a create appends is compatible with every row it was checked
    against. *)
Lemma created_row_compatible (uuid : string) (now : Z) (data : InsertBooking.t)
    (db : Db) (a : Booking.t) :
  fst (roomCheckCreate data db) = Continue tt ->
  fst (clientCheckCreate data db) = Continue tt ->
  In a (bookings db) ->
  Compatible a (Storage.newBooking uuid now data).
Proof.
  intros Hroom Hclient Ha Hdate Hkind. simpl in Hdate.
  apply roomCheckCreate_pass in Hroom. apply clientCheckCreate_pass in Hclient.
  assert (Hmem : In a (roomOthersCreate data db)
                 \/ In a (clientOthersCreate data db)).
  { destruct (Z.eq_dec (Booking.roomNumber a) (InsertBooking.roomNumber data))
      as [Er|Er].
    - left. apply getBookingsByRoom_In. auto.
    - right. apply clientOthersCreate_In. repeat split; auto.
      destruct Hkind as [Hk|Hk]; [simpl in Hk; contradiction|].
      destruct Hk as [Hk|[Ht Hp]]; [left; exact Hk|right]. simpl in Hp.
      rewrite <- Hp. auto. }
  destruct (isDaily (InsertBooking.bookingType data)) eqn:Hty.
  - rewrite Hroom, Hclient in Hmem. destruct Hmem as [[]|[]].
  - assert (Hok : isDaily (Booking.bookingType a) = false /\
                  ~ HalfOpenOverlap (createStart data) (createEnd data) a)
      by (destruct Hmem; auto).
    destruct Hok as [Hnd Hno]. repeat split; auto.
    intros Hov. apply Hno.
    unfold HalfOpenOverlap, bookingEnd, bookingStart, createEnd, createStart in *.
    simpl in Hov. lia.
Qed.


End Keeping.

(** X2. The create handler keeps the booking table free of conflicts:
    whatever the request, if no two stored bookings conflicted before (same
    date and same room or same client, with a daily booking or overlapping
    intervals), none do afterwards.  With an id that is new to the table it
    keeps the ids unique as well. *)
Theorem create_keeps_consistency :
  forall (uuid : string) (now : Z) (reqBody : option InsertBooking.t) (db : Db),
    (Consistent db -> Consistent (snd (postBookings uuid now reqBody db))) /\
    (~ In uuid (map Booking.id (bookings db)) -> UniqueIds db ->
     UniqueIds (snd (postBookings uuid now reqBody db))).
Proof.
  intros uuid now reqBody db.
  destruct (Z.eq_dec (status (fst (postBookings uuid now reqBody db))) 201)
    as [Hok|Hno].
  - destruct reqBody as [parsed|]; [|discriminate Hok].
    rewrite (postBookings_201_writes uuid now parsed db Hok).
    apply postBookings_201 in Hok as [Hroom Hclient].
    unfold Consistent, UniqueIds. simpl. split.
    + intros Hc. apply FOP_snoc; [exact Hc|].
      apply Forall_forall. intros a Ha.
      now apply (created_row_compatible uuid now _ db).
    + intros Hfresh Hu. rewrite map_app. simpl.
      apply Permutation_NoDup with (l := uuid :: map Booking.id (bookings db)).
      * apply Permutation_cons_append.
      * now constructor.
  - rewrite (postBookings_refusal_writes_nothing uuid now reqBody db Hno).
    auto.
Qed.

Lemma create_keeps_consistency_witness :
  Consistent Scenario.dbHourly /\
  Consistent
    (snd (postBookings "b2" 1
            (Some (Scenario.request 2 "y" "Y" None (Some 24) (Some 2) "hourly" 400))
            Scenario.dbHourly)) /\
  UniqueIds
    (snd (postBookings "b2" 1
            (Some (Scenario.request 2 "y" "Y" None (Some 24) (Some 2) "hourly" 400))
            Scenario.dbHourly)).
Proof.
  assert (Hc : Consistent Scenario.dbHourly) by (repeat constructor).
  split; [exact Hc|].
  destruct (create_keeps_consistency "b2" 1
              (Some (Scenario.request 2 "y" "Y" None (Some 24) (Some 2)
                       "hourly" 400))
              Scenario.dbHourly) as [H1 H2].
  split; [exact (H1 Hc)|]. apply H2.
  - simpl. intros [H|[]]. discriminate H.
  - repeat constructor. simpl. tauto.
Defined.



Section CancelRuns.

Lemma deleteBookingRoute_204 (snapshotOk : bool) (uuid : string) (now : Z)
    (id : string) (db : Db) :
  status (fst (deleteBookingRoute snapshotOk uuid now id db)) = 204 ->
  bookings (snd (deleteBookingRoute snapshotOk uuid now id db))
  = filter (fun x => negb (Booking.id x === id)) (bookings db).
Proof.
  destruct (Storage.getBooking id db) as [b|] eqn:Hb.
  - destruct snapshotOk.
    + rewrite (deleteBookingRoute_present uuid now id db b Hb). reflexivity.
    + unfold deleteBookingRoute, tryCatch. rewrite bind_query, Hb. simpl.
      discriminate.
  - rewrite (deleteBookingRoute_absent snapshotOk uuid now id db Hb).
    intros _. simpl snd.
    pose proof (deleteBooking_absent id db Hb) as E.
    apply (f_equal bookings) in E. simpl in E. symmetry. exact E.
Qed.

Lemma deleteBookingRoute_failed (snapshotOk : bool) (uuid : string) (now : Z)
    (id : string) (db : Db) :
  status (fst (deleteBookingRoute snapshotOk uuid now id db)) <> 204 ->
  snd (deleteBookingRoute snapshotOk uuid now id db) = db.
Proof.
  destruct (Storage.getBooking id db) as [b|] eqn:Hb.
  - destruct snapshotOk.
    + rewrite (deleteBookingRoute_present uuid now id db b Hb). simpl.
      congruence.
    + unfold deleteBookingRoute, tryCatch. rewrite bind_query, Hb. reflexivity.
  - rewrite (deleteBookingRoute_absent snapshotOk uuid now id db Hb).
    reflexivity.
Qed.

Lemma NoDup_map_filter {A B : Type} (f : A -> B) (g : A -> bool) (l : list A) :
  NoDup (map f l) -> NoDup (map f (filter g l)).
Proof.
  induction l as [|x r IH]; simpl; [constructor|].
  intros Hu. inversion Hu as [|? ? Hx Hr]; subst.
  destruct (g x); simpl; [|now apply IH].
  constructor; [|now apply IH].
  intros Hin. apply Hx. apply in_map_iff in Hin as (y & Hy & Hyin).
  apply filter_In in Hyin as [Hyin _]. rewrite <- Hy. now apply in_map.
Qed.

End CancelRuns.

(** X4. Cancelling keeps the booking table free of conflicts and its ids
    unique; when it answers 204 no query by room and date returns a
    booking with the cancelled id any more, and the other bookings of that
    room and date are all still returned. *)
Theorem cancel_keeps_consistency :
  forall (snapshotOk : bool) (uuid : string) (now : Z) (id : string) (db : Db),
    let after := snd (deleteBookingRoute snapshotOk uuid now id db) in
    (Consistent db -> Consistent after) /\
    (UniqueIds db -> UniqueIds after) /\
    (status (fst (deleteBookingRoute snapshotOk uuid now id db)) = 204 ->
     forall (room : Z) (date : string) (b : Booking.t),
       In b (Storage.getBookingsByRoom room date after) <->
       Booking.id b <> id /\ In b (Storage.getBookingsByRoom room date db)).
Proof.
  intros snapshotOk uuid now id db after. subst after.
  destruct (Z.eq_dec
              (status (fst (deleteBookingRoute snapshotOk uuid now id db))) 204)
    as [Hok|Hno].
  - pose proof (deleteBookingRoute_204 snapshotOk uuid now id db Hok) as E.
    unfold Consistent, UniqueIds. rewrite E. split; [|split].
    + now apply FOP_filter.
    + now apply NoDup_map_filter.
    + intros _ room date b. rewrite !getBookingsByRoom_In, E, filter_In.
      rewrite negb_true_iff, String.eqb_neq. tauto.
  - rewrite (deleteBookingRoute_failed snapshotOk uuid now id db Hno).
    split; [auto|split; [auto|contradiction]].
Qed.

Lemma cancel_keeps_consistency_witness :
  Consistent (snd (deleteBookingRoute true "c1" 9 "b1" Scenario.dbTwoInRoom)) /\
  Storage.getBookingsByRoom 2 Scenario.day
    (snd (deleteBookingRoute true "c1" 9 "b1" Scenario.dbTwoInRoom))
  = [Scenario.noon].
Proof.
  split; [|reflexivity].
  apply (cancel_keeps_consistency true "c1" 9 "b1" Scenario.dbTwoInRoom).
  unfold Consistent. simpl.
  constructor; [constructor; [|constructor]|repeat constructor].
  intros _ _. split; [reflexivity|split; [reflexivity|]].
  unfold HalfOpenOverlap. vm_compute. intros [_ H]. discriminate H.
Defined.

(** ** Identity at create *)

Section Identity.

Lemma CleanPhone_normalized (x : option string) :
  CleanPhone (Some (normalizePhone x)).
Proof.
  intros s [= <-]. apply normalizePhone_idempotent.
Qed.

Lemma CleanPhone_falsy (p : option string) :
  Js.truthyOpt p = false -> CleanPhone p.
Proof.
  destruct p as [s|]; [|discriminate]. simpl. unfold Js.truthy.
  destruct (String.eqb_spec s "") as [->|]; [|discriminate].
  intros _ t [= <-]. reflexivity.
Qed.

Lemma getUserByPhone_Some (phone : string) (db : Db) (u : User.t) :
  Storage.getUserByPhone phone db = Some u ->
  In u (users db) /\ User.phone u = Some phone.
Proof.
  unfold Storage.getUserByPhone. intros H. apply find_some in H as [Hin He].
  split; [exact Hin|]. destruct (User.phone u) as [s|]; [|discriminate].
  simpl in He. apply String.eqb_eq in He. now subst.
Qed.

End Identity.

(** X5. What identity a create request is checked and stored under (lines
    250-261).  When the request carries a phone whose normal form is not
    empty and a registered user has that normal form as phone, the
    proposal takes that user's id and name, whatever userId and userName
    the caller sent, and the normal form as phone.  Otherwise the userId
    and userName are the caller's, and the phone is the normal form of the
    caller's phone, or the caller's value when that is absent or empty.  In
    every case the phone that is stored is one the normalizer returns
    unchanged. *)
Theorem create_resolves_identity :
  forall (parsed : InsertBooking.t) (db : Db),
    let data := resolveIdentity parsed db in
    let raw := InsertBooking.userPhone parsed in
    let phone := normalizePhone raw in
    (forall u,
        Js.truthyOpt raw = true -> phone <> "" ->
        Storage.getUserByPhone phone db = Some u ->
        InsertBooking.userId data = User.id u /\
        InsertBooking.userName data = User.name u /\
        InsertBooking.userPhone data = Some phone) /\
    (Js.truthyOpt raw = true ->
     phone = "" \/ Storage.getUserByPhone phone db = None ->
     InsertBooking.userId data = InsertBooking.userId parsed /\
     InsertBooking.userName data = InsertBooking.userName parsed /\
     InsertBooking.userPhone data = Some phone) /\
    (Js.truthyOpt raw = false -> data = parsed) /\
    CleanPhone (InsertBooking.userPhone data).
Proof.
  intros parsed db data raw phone. subst data. unfold resolveIdentity.
  fold raw. destruct (Js.truthyOpt raw) eqn:Hraw.
  - cbn [InsertBooking.userPhone InsertBooking.setUserPhone Js.truthyOpt Js.orEmpty].
    fold phone. unfold Js.truthy.
    destruct (String.eqb_spec phone "") as [He|Hne]; cbn [negb].
    + split; [intros u _ Hn; contradiction|].
      split; [intros _ _; repeat split|].
      split; [discriminate|]. simpl. apply CleanPhone_normalized.
    + destruct (Storage.getUserByPhone phone db) as [u|] eqn:Hu.
      * apply getUserByPhone_Some in Hu as [_ Hp].
        assert (Hnorm : normalizePhone (User.phone u) = phone).
        { rewrite Hp. apply normalizePhone_idempotent. }
        split; [intros u' _ _ [= <-]; simpl; rewrite Hnorm; auto|].
        split; [intros _ [H|H]; [contradiction|discriminate]|].
        split; [discriminate|]. simpl. apply CleanPhone_normalized.
      * split; [intros u _ _ H; discriminate H|].
        split; [intros _ _; repeat split|].
        split; [discriminate|]. simpl. apply CleanPhone_normalized.
  - unfold raw in Hraw. cbv iota. rewrite Hraw.
    split; [intros u H; discriminate H|].
    split; [intros H; discriminate H|].
    split; [reflexivity|]. now apply CleanPhone_falsy.
Qed.

Lemma create_resolves_identity_witness :
  InsertBooking.userId
    (resolveIdentity Sample.walkInWithKnownPhone Sample.dbRegistered) = "u1" /\
  InsertBooking.userName
    (resolveIdentity Sample.walkInWithKnownPhone Sample.dbRegistered) = "Anna" /\
  InsertBooking.userPhone
    (resolveIdentity Sample.walkInWithKnownPhone Sample.dbRegistered)
  = Some "9123456789" /\
  InsertBooking.userId
    (resolveIdentity Sample.walkInWithKnownPhone Scenario.dbHourly)
  = "walk_in_5" /\
  resolveIdentity (Scenario.request 1 "walk_in_5" "A." None None None "daily" 3200)
    Sample.dbRegistered
  = Scenario.request 1 "walk_in_5" "A." None None None "daily" 3200.
Proof.
  destruct (create_resolves_identity Sample.walkInWithKnownPhone
              Sample.dbRegistered) as (Hknown & _).
  destruct (Hknown Sample.registered eq_refl ltac:(discriminate) eq_refl)
    as (H1 & H2 & H3).
  split; [exact H1|]. split; [exact H2|]. split; [exact H3|].
  split.
  - apply (create_resolves_identity Sample.walkInWithKnownPhone
             Scenario.dbHourly).
    + reflexivity.
    + right. reflexivity.
  - apply (create_resolves_identity
             (Scenario.request 1 "walk_in_5" "A." None None None "daily" 3200)
             Sample.dbRegistered).
    reflexivity.
Defined.

(** ** Loops *)

Section LoopFacts.

Context {A B : Type} (step : B -> A -> Handler B).

(** What every step keeps, the loop keeps, however it ends. *)
Lemma forOf_invariant (P : Db -> Prop) :
  (forall acc x db, P db -> P (snd (step acc x db))) ->
  forall xs acc db, P db -> P (snd (forOf xs acc step db)).
Proof.
  intros Hstep. induction xs as [|x r IH]; intros acc db HP; simpl.
  - exact HP.
  - unfold bind. pose proof (Hstep acc x db HP) as H.
    destruct (step acc x db) as [[acc'|rp|] db']; simpl in H |- *; auto.
Qed.

(** A loop whose steps never reply does not reply. *)
Lemma forOf_never_replies :
  (forall acc x db r, fst (step acc x db) <> Reply r) ->
  forall xs acc db r, fst (forOf xs acc step db) <> Reply r.
Proof.
  intros Hstep. induction xs as [|x r IH]; intros acc db rp; simpl.
  - discriminate.
  - unfold bind. pose proof (Hstep acc x db) as H.
    destruct (step acc x db) as [[acc'|rp'|] db']; simpl in H |- *.
    + apply IH.
    + exfalso. now apply (H rp').
    + discriminate.
Qed.

End LoopFacts.

Section Frames.

Lemma bookingFrame_setClient (u n : string) (p : option string) (b : Booking.t) :
  bookingFrame (Booking.setClient u n p b) = bookingFrame b.
Proof. reflexivity. Qed.

Lemma cancellationFrame_setClient (u n : string) (p : option string)
    (c : Cancellation.t) :
  cancellationFrame (Cancellation.setClient u n p c) = cancellationFrame c.
Proof. reflexivity. Qed.

Lemma SameFrame_refl (db : Db) : SameFrame db db.
Proof. repeat split. Qed.

Lemma SameFrame_updateBookingClient (db0 db : Db) (i u : string)
    (n : option string) (p : string) :
  SameFrame db0 db -> SameFrame db0 (Storage.updateBookingClient i u n p db).
Proof.
  intros (Hu & Hb & Hc). repeat split; simpl; auto.
  rewrite <- Hb, map_map. apply map_ext. intros b.
  destruct (Booking.id b === i); reflexivity.
Qed.

Lemma SameFrame_updateCancellationClient (db0 db : Db) (i u : string)
    (n : option string) (p : string) :
  SameFrame db0 db -> SameFrame db0 (Storage.updateCancellationClient i u n p db).
Proof.
  intros (Hu & Hb & Hc). repeat split; simpl; auto.
  rewrite <- Hc, map_map. apply map_ext. intros c.
  destruct (Cancellation.id c === i); reflexivity.
Qed.

End Frames.

(** ** What the reconciliation handlers keep *)

Section KeepsFacts.

Context (P : Db -> Prop).

Lemma Keeps_ret {A : Type} (a : A) : Keeps P (ret a).
Proof. intros db H. exact H. Qed.

Lemma Keeps_reply {A : Type} (r : Response) : Keeps P (@reply A r).
Proof. intros db H. exact H. Qed.

Lemma Keeps_throw {A : Type} : Keeps P (@throw A).
Proof. intros db H. exact H. Qed.

Lemma Keeps_query {A : Type} (q : Db -> A) : Keeps P (query q).
Proof. intros db H. exact H. Qed.

Lemma Keeps_orThrow {A : Type} (o : option A) : Keeps P (orThrow o).
Proof. destruct o; intros db H; exact H. Qed.

Lemma Keeps_exec (w : Db -> Db) :
  (forall db, P db -> P (w db)) -> Keeps P (exec w).
Proof. intros Hw db H. now apply Hw. Qed.

Lemma Keeps_bind {A B : Type} (m : Handler A) (k : A -> Handler B) :
  Keeps P m -> (forall a, Keeps P (k a)) -> Keeps P (bind m k).
Proof.
  intros Hm Hk db H. unfold bind. pose proof (Hm db H) as H'.
  destruct (m db) as [[a|r|] db']; simpl in H' |- *; auto.
  now apply Hk.
Qed.

Lemma Keeps_forOf {A B : Type} (xs : list A) (acc : B)
    (step : B -> A -> Handler B) :
  (forall acc x, Keeps P (step acc x)) -> Keeps P (forOf xs acc step).
Proof.
  intros Hstep db H. apply forOf_invariant; [|exact H].
  intros a x d. apply Hstep.
Qed.

Lemma tryCatch_snd (h : Handler Response) (msg : string) (db : Db) :
  snd (tryCatch h msg db) = snd (h db).
Proof. unfold tryCatch. destruct (h db) as [[r|r|] db']; reflexivity. Qed.

(** Every write of the two reconciliation handlers stores a phone the
    normalizer has returned.  A property that such writes keep is kept by
    the handlers. *)
Hypothesis keeps_booking_write :
  forall db i u n x, P db -> P (Storage.updateBookingClient i u n (normalizePhone x) db).
Hypothesis keeps_cancellation_write :
  forall db i u n x,
    P db -> P (Storage.updateCancellationClient i u n (normalizePhone x) db).

Lemma postMergeClients_keeps (req : MergeBody.t) (db : Db) :
  P db -> P (snd (postMergeClients req db)).
Proof.
  unfold postMergeClients. rewrite tryCatch_snd.
  destruct (_ || _); [intros H; exact H|]. revert db. cbv zeta.
  apply Keeps_bind; [apply Keeps_query|intros allBookings].
  apply Keeps_bind; [apply Keeps_query|intros allCancellations].
  apply Keeps_bind.
  - apply Keeps_forOf. intros acc b. destruct (_ === _); [|apply Keeps_ret].
    apply Keeps_bind; [|intros; apply Keeps_ret].
    apply Keeps_exec. intros d. apply keeps_booking_write.
  - intros n. apply Keeps_bind; [|intros; apply Keeps_reply].
    apply Keeps_forOf. intros acc c. destruct (_ === _); [|apply Keeps_ret].
    apply Keeps_bind; [|intros; apply Keeps_ret].
    apply Keeps_exec. intros d. apply keeps_cancellation_write.
Qed.

Lemma dedupGroup_keeps (n : Z) (group : list Booking.t) :
  Keeps P (dedupGroup n group).
Proof.
  unfold dedupGroup. destruct (_ <=? _)%nat; [apply Keeps_ret|].
  destruct (canonicalOf group) as [canonical|]; [|apply Keeps_throw].
  cbv zeta. apply Keeps_forOf. intros acc b.
  destruct (_ && _); [apply Keeps_ret|].
  apply Keeps_bind; [|intros; apply Keeps_ret].
  apply Keeps_exec. intros d. apply keeps_booking_write.
Qed.

Lemma normalizeStoredPhone_keeps (n : Z) (b : Booking.t) :
  Keeps P (normalizeStoredPhone n b).
Proof.
  unfold normalizeStoredPhone.
  destruct (Booking.userPhone b) as [p|]; [|apply Keeps_ret].
  destruct (Js.truthy p); [|apply Keeps_ret].
  cbv zeta. destruct (negb _); [|apply Keeps_ret].
  apply Keeps_bind; [|intros; apply Keeps_ret].
  apply Keeps_exec. intros d. apply keeps_booking_write.
Qed.

Lemma dedupCancelGroup_keeps (groups : Groups Booking.t) (n : Z)
    (entry : string * list Cancellation.t) :
  Keeps P (dedupCancelGroup groups n entry).
Proof.
  unfold dedupCancelGroup. destruct entry as [name cancels].
  destruct (lookupGroup name groups) as [group|]; [|apply Keeps_ret].
  destruct (canonicalOf group) as [canonical|]; [|apply Keeps_throw].
  cbv zeta. apply Keeps_forOf. intros acc c.
  destruct (Js.truthyOpt _).
  - destruct (_ || _); [|apply Keeps_ret].
    apply Keeps_bind; [|intros; apply Keeps_ret].
    apply Keeps_exec. intros d. apply keeps_cancellation_write.
  - apply Keeps_bind; [|intros; apply Keeps_ret].
    apply Keeps_exec. intros d. apply keeps_cancellation_write.
Qed.

Lemma postCleanupDuplicates_keeps (db : Db) :
  P db -> P (snd (postCleanupDuplicates db)).
Proof.
  unfold postCleanupDuplicates. rewrite tryCatch_snd. revert db.
  apply Keeps_bind; [apply Keeps_query|intros allBookings].
  apply Keeps_bind; [apply Keeps_orThrow|intros groups].
  apply Keeps_bind.
  { apply Keeps_forOf. intros acc entry. apply dedupGroup_keeps. }
  intros n. apply Keeps_bind.
  { apply Keeps_forOf. intros acc b. apply normalizeStoredPhone_keeps. }
  intros n'. apply Keeps_bind; [apply Keeps_query|intros allCancellations].
  apply Keeps_bind; [apply Keeps_orThrow|intros cancelGroups].
  apply Keeps_bind; [|intros; apply Keeps_reply].
  apply Keeps_forOf. intros acc entry. apply dedupCancelGroup_keeps.
Qed.

End KeepsFacts.

Lemma SameFrame_outside (db db' : Db) :
  SameFrame db db' -> SameOutsideClient db db'.
Proof.
  intros (Hu & Hb & Hc). split; [exact Hu|].
  rewrite Hb, Hc. split; apply Permutation_refl.
Qed.

(** X6. Merge and dedup never add or remove a row, never touch the users,
    and never change a column of a booking or of a cancellation other than
    userId, userName and userPhone, whatever their answer, a failure in the
    middle of a batch included: outside those three columns the tables hold
    the same rows before and after (the order in which a table holds its
    rows is not part of the statement). *)
Theorem reconciliation_writes_client_columns_only :
  (forall (req : MergeBody.t) (db : Db),
      SameOutsideClient db (snd (postMergeClients req db))) /\
  (forall db : Db, SameOutsideClient db (snd (postCleanupDuplicates db))).
Proof.
  split.
  - intros req db. apply SameFrame_outside, postMergeClients_keeps.
    + intros d i u n x. apply SameFrame_updateBookingClient.
    + intros d i u n x. apply SameFrame_updateCancellationClient.
    + apply SameFrame_refl.
  - intros db. apply SameFrame_outside, postCleanupDuplicates_keeps.
    + intros d i u n x. apply SameFrame_updateBookingClient.
    + intros d i u n x. apply SameFrame_updateCancellationClient.
    + apply SameFrame_refl.
Qed.

(** ** Stored phones stay clean *)

Section Phones.

Lemma resolveIdentity_clean (parsed : InsertBooking.t) (db : Db) :
  CleanPhone (InsertBooking.userPhone (resolveIdentity parsed db)).
Proof.
  unfold resolveIdentity.
  destruct (Js.truthyOpt (InsertBooking.userPhone parsed)) eqn:Hraw.
  - cbn [InsertBooking.userPhone InsertBooking.setUserPhone].
    destruct (Js.truthyOpt (Some _)); [|apply CleanPhone_normalized].
    destruct (Storage.getUserByPhone _ db); simpl; apply CleanPhone_normalized.
  - rewrite Hraw. now apply CleanPhone_falsy.
Qed.

Lemma PhonesClean_updateBookingClient (db : Db) (i u : string)
    (n x : option string) :
  PhonesClean db ->
  PhonesClean (Storage.updateBookingClient i u n (normalizePhone x) db).
Proof.
  intros H b Hb. simpl in Hb. apply in_map_iff in Hb as (r & <- & Hr).
  destruct (Booking.id r === i); [apply CleanPhone_normalized|now apply H].
Qed.

Lemma PhonesClean_updateCancellationClient (db : Db) (i u : string)
    (n x : option string) :
  PhonesClean db ->
  PhonesClean (Storage.updateCancellationClient i u n (normalizePhone x) db).
Proof. intros H. exact H. Qed.

End Phones.

(** X7. Create, edit, cancel and merge keep the stored booking phones
    clean: if every stored userPhone is NULL or a value the normalizer
    returns unchanged, the same holds after the request, whatever the
    request and its answer. *)
Theorem handlers_keep_phones_clean :
  forall db : Db,
    PhonesClean db ->
    (forall uuid now reqBody,
        PhonesClean (snd (postBookings uuid now reqBody db))) /\
    (forall id req, PhonesClean (snd (putBookingEdit id req db))) /\
    (forall snapshotOk uuid now id,
        PhonesClean (snd (deleteBookingRoute snapshotOk uuid now id db))) /\
    (forall req, PhonesClean (snd (postMergeClients req db))).
Proof.
  intros db Hclean. split; [|split; [|split]].
  - intros uuid now reqBody.
    destruct (Z.eq_dec (status (fst (postBookings uuid now reqBody db))) 201)
      as [Hok|Hno].
    + destruct reqBody as [parsed|]; [|discriminate Hok].
      rewrite (postBookings_201_writes uuid now parsed db Hok).
      intros b Hb. simpl in Hb. apply in_app_or in Hb as [Hb|[<-|[]]].
      * now apply Hclean.
      * simpl. apply resolveIdentity_clean.
    + now rewrite (postBookings_refusal_writes_nothing uuid now reqBody db Hno).
  - intros id req.
    destruct (Z.eq_dec (status (fst (putBookingEdit id req db))) 200)
      as [Hok|Hno].
    + destruct (putBookingEdit_accepted id req db Hok)
        as (booking & db' & _ & Hw & Hrun).
      cbv zeta in Hw. apply updateBookingDetails_some in Hw as [_ ->].
      rewrite Hrun. intros b Hb. simpl in Hb.
      apply in_map_iff in Hb as (r & <- & Hr).
      destruct (Booking.id r === id); simpl; now apply Hclean.
    + now rewrite (putBookingEdit_refusal_writes_nothing id req db Hno).
  - intros snapshotOk uuid now id.
    destruct (Z.eq_dec
                (status (fst (deleteBookingRoute snapshotOk uuid now id db))) 204)
      as [Hok|Hno].
    + intros b Hb.
      rewrite (deleteBookingRoute_204 snapshotOk uuid now id db Hok) in Hb.
      apply filter_In in Hb as [Hb _]. now apply Hclean.
    + now rewrite (deleteBookingRoute_failed snapshotOk uuid now id db Hno).
  - intros req. apply postMergeClients_keeps; auto.
    intros d i u n x. apply PhonesClean_updateBookingClient.
Qed.

Lemma handlers_keep_phones_clean_witness :
  PhonesClean
    (snd (postBookings "b2" 1 (Some Scenario.samePhoneRequest) Scenario.dbHourly)) /\
  PhonesClean (snd (postMergeClients Scenario.mergeWalkIn Scenario.dbMerge)).
Proof.
  split.
  - apply (handlers_keep_phones_clean Scenario.dbHourly).
    intros b [<-|[]] s H. discriminate H.
  - apply (handlers_keep_phones_clean Scenario.dbMerge).
    intros b [<-|[<-|[]]] s [= <-]; reflexivity.
Defined.

(** ** Dedup cleans the phones *)

Section DedupPhones.

Lemma dedupGroup_never_replies (n : Z) (group : list Booking.t) (db : Db)
    (r : Response) :
  fst (dedupGroup n group db) <> Reply r.
Proof.
  unfold dedupGroup. destruct (_ <=? _)%nat; [discriminate|].
  destruct (canonicalOf group) as [canonical|]; [|discriminate].
  cbv zeta. apply forOf_never_replies. intros acc b d rp.
  destruct (_ && _); discriminate.
Qed.

Lemma normalizeStoredPhone_run (n : Z) (b : Booking.t) (db : Db) :
  (exists p,
      Booking.userPhone b = Some p /\ normalizePhone (Some p) <> p /\
      normalizeStoredPhone n b db
      = (Continue (n + 1),
         Storage.updateBookingClient (Booking.id b) (Booking.userId b)
           (Some (Booking.userName b)) (normalizePhone (Some p)) db)) \/
  (CleanPhone (Booking.userPhone b) /\
   normalizeStoredPhone n b db = (Continue n, db)).
Proof.
  unfold normalizeStoredPhone.
  destruct (Booking.userPhone b) as [p|] eqn:Hp.
  - destruct (Js.truthy p) eqn:Ht.
    + cbv zeta. destruct (String.eqb_spec (normalizePhone (Some p)) p) as [E|E].
      * right. split; [|reflexivity]. intros s [= <-]. exact E.
      * left. exists p. repeat split; auto.
    + right. split; [|reflexivity]. apply CleanPhone_falsy. exact Ht.
  - right. split; [|reflexivity]. intros s H. discriminate H.
Qed.

(** The loop of lines 784-792: a row is clean afterwards when, before, it
    was clean or carried the phone that a row of the snapshot with the same
    id still had to be visited with. *)
Lemma normalize_loop_cleans (rest : list Booking.t) :
  forall (n : Z) (db : Db),
    (forall r, In r (bookings db) ->
               CleanPhone (Booking.userPhone r) \/
               exists b, In b rest /\ Booking.id b = Booking.id r /\
                         Booking.userPhone b = Booking.userPhone r) ->
    exists n', forOf rest n normalizeStoredPhone db
               = (Continue n', snd (forOf rest n normalizeStoredPhone db)) /\
               PhonesClean (snd (forOf rest n normalizeStoredPhone db)).
Proof.
  induction rest as [|b0 rest IH]; intros n db Hinv.
  - exists n. split; [reflexivity|]. intros r Hr.
    destruct (Hinv r Hr) as [H|(b & [] & _)]. exact H.
  - cbn [forOf]. unfold bind.
    destruct (normalizeStoredPhone_run n b0 db)
      as [(p & Hp & Hdirty & ->)|[Hc ->]].
    + apply IH. intros r' Hr'. simpl in Hr'.
      apply in_map_iff in Hr' as (r & <- & Hr).
      destruct (String.eqb_spec (Booking.id r) (Booking.id b0)) as [E|E].
      * left. apply CleanPhone_normalized.
      * destruct (Hinv r Hr) as [H|(b & [<-|Hb] & Hid & Hph)]; auto.
        -- congruence.
        -- right. exists b. auto.
    + apply IH. intros r Hr.
      destruct (Hinv r Hr) as [H|(b & [<-|Hb] & Hid & Hph)]; auto.
      * left. now rewrite <- Hph.
      * right. exists b. auto.
Qed.

Lemma dedup_tail_keeps_bookings (groups : Groups Booking.t) (n : Z) (db : Db) :
  PhonesClean db ->
  PhonesClean
    (snd ((allCancellations <- query Storage.getCancellations ;;
           cancelGroups <- orThrow (groupWalkIns Cancellation.userId
                                      Cancellation.userName allCancellations []) ;;
           n <- forOf cancelGroups n (dedupCancelGroup groups) ;;
           (reply (mkResponse 200 (JsonUpdated n)) : Handler Response)) db)).
Proof.
  revert db.
  apply Keeps_bind; [apply Keeps_query|intros allCancellations].
  apply Keeps_bind; [apply Keeps_orThrow|intros cancelGroups].
  apply Keeps_bind; [|intros; apply Keeps_reply].
  apply Keeps_forOf. intros acc entry. apply dedupCancelGroup_keeps.
  intros d i u m x. apply PhonesClean_updateCancellationClient.
Qed.

End DedupPhones.

Lemma postCleanupDuplicates_run (db : Db) :
  let allBookings := Storage.getBookings db in
  postCleanupDuplicates db =
  match groupWalkIns Booking.userId Booking.userName allBookings [] with
  | None => (jsonError 500 "Failed to clean up duplicates", db)
  | Some groups =>
      match forOf groups 0
              (fun updatedCount entry => dedupGroup updatedCount (snd entry)) db
      with
      | (Continue n1, db1) =>
          match forOf allBookings n1 normalizeStoredPhone db1 with
          | (Continue n2, db2) =>
              tryCatch
                (allCancellations <- query Storage.getCancellations ;;
                 cancelGroups <- orThrow (groupWalkIns Cancellation.userId
                                            Cancellation.userName
                                            allCancellations []) ;;
                 n <- forOf cancelGroups n2 (dedupCancelGroup groups) ;;
                 reply (mkResponse 200 (JsonUpdated n)))
                "Failed to clean up duplicates" db2
          | (Reply r, db2) => (r, db2)
          | (Throw, db2) => (jsonError 500 "Failed to clean up duplicates", db2)
          end
      | (Reply r, db1) => (r, db1)
      | (Throw, db1) => (jsonError 500 "Failed to clean up duplicates", db1)
      end
  end.
Proof.
  cbv zeta. unfold postCleanupDuplicates, tryCatch. rewrite bind_query.
  unfold bind at 1.
  destruct (groupWalkIns Booking.userId Booking.userName
              (Storage.getBookings db) []) as [groups|]; [|reflexivity].
  cbn [orThrow ret]. unfold bind at 1.
  destruct (forOf groups 0 _ db) as [[n1|r|] db1]; try reflexivity.
  unfold bind at 1.
  destruct (forOf (Storage.getBookings db) n1 normalizeStoredPhone db1)
    as [[n2|r|] db2]; reflexivity.
Qed.

(** X8. When dedup answers 200, every stored booking phone is clean
    afterwards (NULL, or a value the normalizer returns unchanged),
    whatever the phones were before. *)
Theorem cleanup_cleans_booking_phones :
  forall db : Db,
    status (fst (postCleanupDuplicates db)) = 200 ->
    PhonesClean (snd (postCleanupDuplicates db)).
Proof.
  intros db. rewrite postCleanupDuplicates_run. cbv zeta.
  destruct (groupWalkIns Booking.userId Booking.userName
              (Storage.getBookings db) []) as [groups|]; [|discriminate].
  pose (Inv := fun d : Db =>
                 forall r, In r (bookings d) ->
                   CleanPhone (Booking.userPhone r) \/
                   exists b, In b (Storage.getBookings db) /\
                             Booking.id b = Booking.id r /\
                             Booking.userPhone b = Booking.userPhone r).
  assert (Hinv1 : Inv (snd (forOf groups 0
                              (fun updatedCount entry =>
                                 dedupGroup updatedCount (snd entry)) db))).
  { apply (forOf_invariant
             (fun updatedCount entry => dedupGroup updatedCount (snd entry)) Inv).
    - intros acc entry. apply (dedupGroup_keeps Inv). clear.
      intros d i u n x H r' Hr'. simpl in Hr'.
      apply in_map_iff in Hr' as (r & <- & Hr).
      destruct (Booking.id r === i); [left; apply CleanPhone_normalized|].
      now apply H.
    - intros r Hr. right. exists r. split; [|split; reflexivity].
      now apply sortBy_In. }
  unfold Inv in Hinv1. clear Inv.
  pose proof (dedupGroup_never_replies) as Hnr.
  pose proof (forOf_never_replies
                (fun updatedCount entry => dedupGroup updatedCount (snd entry))
                (fun acc x d r => Hnr acc (snd x) d r) groups 0 db) as Hnr1.
  destruct (forOf groups 0 _ db) as [[n1|r|] db1]; simpl in Hinv1.
  - destruct (normalize_loop_cleans (Storage.getBookings db) n1 db1 Hinv1)
      as (n2 & Hrun & Hclean).
    rewrite Hrun. intros _. rewrite tryCatch_snd.
    now apply dedup_tail_keeps_bookings.
  - exfalso. now apply (Hnr1 r).
  - discriminate.
Qed.

Lemma cleanup_cleans_booking_phones_witness :
  ~ PhonesClean Scenario.dbTwoWalkIns /\
  PhonesClean (snd (postCleanupDuplicates Scenario.dbTwoWalkIns)).
Proof.
  split.
  - intros H.
    assert (E : normalizePhone (Some "8 (912) 345-67-89") = "8 (912) 345-67-89").
    { apply (H (Scenario.stored "b2" 1 "walk_in_2" "Ivan"
                  (Some "8 (912) 345-67-89") (Some 24) (Some 2) "hourly" 400)).
      - right. left. reflexivity.
      - reflexivity. }
    discriminate E.
  - apply (cleanup_cleans_booking_phones Scenario.dbTwoWalkIns). reflexivity.
Defined.

(** ** Payment marks *)

Section Payment.

Lemma markBookingPaid_some (id : string) (paid : bool) (m : option string)
    (a : option (option Z)) (d : option (option bool)) (e : option (option Z))
    (db db' : Db) :
  markBookingPaid id paid m a d e db = Some db' ->
  db' = mkDb (users db)
          (updateById Booking.id
             (setPayment paid
                (if paid then (if Js.truthyOpt m then m else None) else None)
                (if negb paid then Some None else a) d e)
             id (bookings db))
          (cancellations db).
Proof.
  unfold markBookingPaid. destruct (_ && _); [|discriminate].
  intros [= <-]. reflexivity.
Qed.

Lemma putBookingPaid_run (id : string) (req : PaidBody.t) (db : Db) :
  putBookingPaid id req db
  = if paidFits req
    then (mkResponse 204 NoBody,
          mkDb (users db)
            (updateById Booking.id
               (setPayment
                  (match PaidBody.paid req with Some true => true | _ => false end)
                  (match PaidBody.paid req with
                   | Some true =>
                       if Js.truthyOpt (PaidBody.paymentMethod req)
                       then PaidBody.paymentMethod req else None
                   | _ => None
                   end)
                  (match PaidBody.paid req with
                   | Some true => PaidBody.paidAmount req
                   | _ => Some None
                   end)
                  (PaidBody.isDebtor req) (PaidBody.extraTime req))
               id (bookings db))
            (cancellations db))
    else (jsonError 500 "Failed to update payment status", db).
Proof.
  unfold putBookingPaid, tryCatch, bind, attempt, markBookingPaid, paidFits.
  destruct (PaidBody.paid req) as [[|]|]; cbn [negb andb];
    destruct (fitsIntegerKey _ && fitsIntegerKey _) eqn:E;
    try (destruct (fitsIntegerKey (PaidBody.extraTime req)));
    try reflexivity; try discriminate E.
Qed.

Lemma withoutPayment_setPayment (paid : bool) (m : option string)
    (a : option (option Z)) (d : option (option bool)) (e : option (option Z))
    (b : Booking.t) :
  withoutPayment (setPayment paid m a d e b) = withoutPayment b.
Proof. reflexivity. Qed.

Lemma getBooking_updateById (change : Booking.t -> Booking.t) (id : string)
    (l : list Booking.t) (b : Booking.t) :
  (forall x, Booking.id (change x) = Booking.id x) ->
  find (fun x => Booking.id x === id) l = Some b ->
  find (fun x => Booking.id x === id) (updateById Booking.id change id l)
  = Some (change b).
Proof.
  intros Hid. unfold updateById.
  induction l as [|x r IH]; simpl; [discriminate|].
  destruct (Booking.id x === id) eqn:E; simpl.
  - rewrite Hid, E. intros [= ->]. reflexivity.
  - rewrite E. exact IH.
Qed.

End Payment.

(** X9. The payment handler answers 204 exactly when the numbers it sends
    to the table fit the integer columns (paidAmount counts only with paid
    = true: otherwise NULL is sent); when they do not, the update is
    refused, the answer is 500 and nothing is written.  When it answers
    204: a body whose paid is not the boolean true stores paid = false,
    paymentMethod = NULL and paidAmount = NULL on the booking with the id,
    whatever method and amount the body carries; with paid = true it
    stores the method (NULL for an absent or empty one) and leaves
    paidAmount, isDebtor and extraTime as they were unless the body has
    their key.  In every case no row is added or removed, rows with another
    id are unchanged, and no column outside the five payment columns
    changes. *)
Theorem payment_mark_behaviour :
  forall (id : string) (req : PaidBody.t) (db : Db),
    let run := putBookingPaid id req db in
    let after := snd run in
    (status (fst run) = 204 <-> paidFits req = true) /\
    (paidFits req = false ->
     run = (jsonError 500 "Failed to update payment status", db)) /\
    users after = users db /\
    cancellations after = cancellations db /\
    map withoutPayment (bookings after) = map withoutPayment (bookings db) /\
    (forall b, In b (bookings db) -> Booking.id b <> id -> In b (bookings after)) /\
    (paidFits req = true ->
     forall b,
        Storage.getBooking id db = Some b ->
        exists b',
          Storage.getBooking id after = Some b' /\
          (PaidBody.paid req <> Some true ->
           Booking.paid b' = Some false /\
           Booking.paymentMethod b' = None /\
           Booking.paidAmount b' = None) /\
          (PaidBody.paid req = Some true ->
           Booking.paid b' = Some true /\
           Booking.paymentMethod b'
           = (if Js.truthyOpt (PaidBody.paymentMethod req)
              then PaidBody.paymentMethod req else None) /\
           Booking.paidAmount b'
           = match PaidBody.paidAmount req with
             | Some v => v
             | None => Booking.paidAmount b
             end) /\
          Booking.isDebtor b'
          = match PaidBody.isDebtor req with
            | Some v => v
            | None => Booking.isDebtor b
            end /\
          Booking.extraTime b'
          = match PaidBody.extraTime req with
            | Some v => v
            | None => Booking.extraTime b
            end).
Proof.
  intros id req db run after. subst after run. rewrite putBookingPaid_run.
  destruct (paidFits req) eqn:Hfit.
  - simpl fst. simpl snd. split; [split; reflexivity|].
    split; [discriminate|]. split; [reflexivity|]. split; [reflexivity|].
    split; [|split].
    + unfold updateById. simpl. rewrite map_map. apply map_ext. intros b.
      destruct (Booking.id b === id); reflexivity.
    + intros b Hb Hid. unfold updateById. simpl. apply in_map_iff.
      exists b. split; [|exact Hb].
      destruct (String.eqb_spec (Booking.id b) id); [contradiction|reflexivity].
    + intros _ b Hb. eexists. split.
      * unfold Storage.getBooking. cbn [bookings].
        apply getBooking_updateById; [reflexivity|exact Hb].
      * destruct (PaidBody.paid req) as [[|]|]; simpl;
          repeat split; try reflexivity; try congruence; try discriminate;
          intros H; exfalso; now apply H.
  - simpl fst. simpl snd. split; [split; discriminate|].
    split; [reflexivity|]. repeat split; auto. discriminate.
Qed.

Lemma payment_mark_behaviour_witness :
  Storage.getBooking "b1"
    (snd (putBookingPaid "b1"
            (PaidBody.mk None (Some "cash") (Some (Some 800)) None (Some (Some 1)))
            Scenario.dbHourly))
  = Some (Booking.mk "b1" 2 "x" "X" None Scenario.day (Some 20) (Some 4)
            "hourly" 800 (Some false) None None (Some false) (Some 1) 0) /\
  putBookingPaid "b1"
    (PaidBody.mk (Some true) (Some "cash") (Some (Some 3000000000)) None None)
    Scenario.dbHourly
  = (jsonError 500 "Failed to update payment status", Scenario.dbHourly) /\
  status (fst (putBookingPaid "b1"
                 (PaidBody.mk (Some false) None (Some (Some 3000000000)) None
                    None)
                 Scenario.dbHourly)) = 204.
Proof.
  split; [|split].
  - destruct (payment_mark_behaviour "b1"
                (PaidBody.mk None (Some "cash") (Some (Some 800)) None
                   (Some (Some 1)))
                Scenario.dbHourly) as (_ & _ & _ & _ & _ & _ & Hrow).
    destruct (Hrow eq_refl Scenario.tenToTwelve eq_refl) as (b' & Hget & _).
    rewrite Hget. vm_compute in Hget. injection Hget as <-. reflexivity.
  - apply (payment_mark_behaviour "b1"
             (PaidBody.mk (Some true) (Some "cash") (Some (Some 3000000000))
                None None)
             Scenario.dbHourly).
    reflexivity.
  - apply (payment_mark_behaviour "b1"
             (PaidBody.mk (Some false) None (Some (Some 3000000000)) None None)
             Scenario.dbHourly).
    reflexivity.
Defined.

(** ** Admission does not read the payment columns *)

Section PaymentBlind.

(** [some] with a callback that reads no payment column gives the same
    answer on tables that agree up to the payment columns. *)
Lemma existsb_blind (f : Booking.t -> bool) (l l' : list Booking.t) :
  (forall b, f (withoutPayment b) = f b) ->
  map withoutPayment l' = map withoutPayment l ->
  existsb f l' = existsb f l.
Proof.
  intros Hf. revert l'. induction l as [|x r IH]; intros [|x' r'] E;
    try discriminate E; [reflexivity|].
  simpl in E.
  assert (Ex : withoutPayment x' = withoutPayment x) by congruence.
  assert (Er : map withoutPayment r' = map withoutPayment r) by congruence.
  simpl. rewrite (IH r' Er), <- (Hf x), <- (Hf x'), Ex. reflexivity.
Qed.

Lemma find_blind (f : Booking.t -> bool) (l l' : list Booking.t) :
  (forall b, f (withoutPayment b) = f b) ->
  map withoutPayment l' = map withoutPayment l ->
  option_map withoutPayment (find f l') = option_map withoutPayment (find f l).
Proof.
  intros Hf. revert l'. induction l as [|x r IH]; intros [|x' r'] E;
    try discriminate E; [reflexivity|].
  simpl in E.
  assert (Ex : withoutPayment x' = withoutPayment x) by congruence.
  assert (Er : map withoutPayment r' = map withoutPayment r) by congruence.
  simpl. rewrite <- (Hf x), <- (Hf x'), Ex.
  destruct (f (withoutPayment x)); simpl; [now rewrite Ex|now apply IH].
Qed.

Variables (db db' : Db).
Hypothesis same : SameUpToPayment db db'.

Lemma resolveIdentity_blind (parsed : InsertBooking.t) :
  resolveIdentity parsed db' = resolveIdentity parsed db.
Proof.
  destruct same as [Hu _]. unfold resolveIdentity, Storage.getUserByPhone.
  rewrite Hu. reflexivity.
Qed.

Lemma roomCheckCreate_blind (data : InsertBooking.t) :
  fst (roomCheckCreate data db') = fst (roomCheckCreate data db).
Proof.
  destruct same as [_ Hb]. rewrite !roomCheckCreate_run. cbv zeta.
  unfold roomOthersCreate, Storage.getBookingsByRoom.
  rewrite !nonEmpty_filter, !existsb_filter.
  repeat match goal with
         | |- context [existsb ?f (bookings db')] =>
             rewrite (existsb_blind f (bookings db) (bookings db')
                        (fun b => eq_refl) Hb)
         end.
  repeat match goal with |- context [if ?c then _ else _] => destruct c end;
    reflexivity.
Qed.

Lemma clientCheckCreate_blind (data : InsertBooking.t) :
  fst (clientCheckCreate data db') = fst (clientCheckCreate data db).
Proof.
  destruct same as [_ Hb]. rewrite !clientCheckCreate_run. cbv zeta.
  unfold clientOthersCreate, userBookingsCreate, Storage.getBookingsByDate.
  rewrite !nonEmpty_filter, !existsb_filter.
  repeat match goal with
         | |- context [existsb ?f (bookings db')] =>
             rewrite (existsb_blind f (bookings db) (bookings db')
                        (fun b => eq_refl) Hb)
         end.
  repeat match goal with |- context [if ?c then _ else _] => destruct c end;
    reflexivity.
Qed.

Lemma roomCheckEdit_blind (booking booking' : Booking.t) (p : EditPlan) :
  withoutPayment booking' = withoutPayment booking ->
  fst (roomCheckEdit booking' p db') = fst (roomCheckEdit booking p db).
Proof.
  intros Hsame. destruct same as [_ Hb]. rewrite !roomCheckEdit_run. cbv zeta.
  assert (Hid : Booking.id booking' = Booking.id booking)
    by exact (f_equal Booking.id Hsame).
  unfold roomOthersEdit, Storage.getBookingsByRoom. rewrite Hid.
  rewrite !nonEmpty_filter, !existsb_filter.
  repeat match goal with
         | |- context [existsb ?f (bookings db')] =>
             rewrite (existsb_blind f (bookings db) (bookings db')
                        (fun b => eq_refl) Hb)
         end.
  repeat match goal with |- context [if ?c then _ else _] => destruct c end;
    reflexivity.
Qed.

Lemma clientCheckEdit_blind (booking booking' : Booking.t) (p : EditPlan) :
  withoutPayment booking' = withoutPayment booking ->
  fst (clientCheckEdit booking' p db') = fst (clientCheckEdit booking p db).
Proof.
  intros Hsame. destruct same as [_ Hb]. rewrite !clientCheckEdit_run. cbv zeta.
  assert (Hid : Booking.id booking' = Booking.id booking)
    by exact (f_equal Booking.id Hsame).
  assert (Hu : Booking.userId booking' = Booking.userId booking)
    by exact (f_equal Booking.userId Hsame).
  assert (Hp : Booking.userPhone booking' = Booking.userPhone booking)
    by exact (f_equal Booking.userPhone Hsame).
  unfold clientOthersEdit, userBookingsEdit, Storage.getBookingsByDate.
  rewrite Hid, Hu, Hp.
  rewrite !nonEmpty_filter, !existsb_filter.
  repeat match goal with
         | |- context [existsb ?f (bookings db')] =>
             rewrite (existsb_blind f (bookings db) (bookings db')
                        (fun b => eq_refl) Hb)
         end.
  repeat match goal with |- context [if ?c then _ else _] => destruct c end;
    reflexivity.
Qed.

Lemma planEdit_blind (booking booking' : Booking.t) (req : EditBody.t) :
  withoutPayment booking' = withoutPayment booking ->
  planEdit booking' req = planEdit booking req.
Proof.
  intros Hsame. unfold planEdit.
  rewrite (f_equal Booking.roomNumber Hsame : Booking.roomNumber booking' = _).
  rewrite (f_equal Booking.date Hsame : Booking.date booking' = _).
  rewrite (f_equal Booking.bookingType Hsame : Booking.bookingType booking' = _).
  rewrite (f_equal Booking.startHour Hsame : Booking.startHour booking' = _).
  rewrite (f_equal Booking.duration Hsame : Booking.duration booking' = _).
  reflexivity.
Qed.

Lemma getBooking_blind (id : string) :
  option_map withoutPayment (Storage.getBooking id db')
  = option_map withoutPayment (Storage.getBooking id db).
Proof.
  destruct same as [_ Hb]. unfold Storage.getBooking.
  apply find_blind; [intros b; reflexivity|exact Hb].
Qed.

End PaymentBlind.

Section Answers.

Lemma postBookings_answer (uuid : string) (now : Z) (parsed : InsertBooking.t)
    (db : Db) :
  let data := resolveIdentity parsed db in
  fst (postBookings uuid now (Some parsed) db)
  = match fst (roomCheckCreate data db) with
    | Reply r => r
    | Throw => jsonError 500 "Failed to create booking"
    | Continue _ =>
        match fst (clientCheckCreate data db) with
        | Reply r => r
        | Throw => jsonError 500 "Failed to create booking"
        | Continue _ =>
            if Storage.insertFits data
            then mkResponse 201 (JsonBooking (Storage.newBooking uuid now data))
            else jsonError 500 "Failed to create booking"
        end
    end.
Proof.
  cbv zeta. rewrite postBookings_run. cbv zeta.
  pose proof (roomCheckCreate_reads (resolveIdentity parsed db) db) as [Hr _].
  destruct (roomCheckCreate (resolveIdentity parsed db) db) as [[u|r|] db1];
    simpl in Hr |- *; subst; try reflexivity.
  destruct (clientCheckCreate (resolveIdentity parsed db) db) as [[v|r|] db2];
    try reflexivity.
  unfold Storage.createBooking.
  destruct (Storage.insertFits _); reflexivity.
Qed.

Lemma putBookingEdit_answer (id : string) (req : EditBody.t) (db : Db) :
  fst (putBookingEdit id req db)
  = match Storage.getBooking id db with
    | None => jsonError 404 Msg.notFound
    | Some booking =>
        let p := planEdit booking req in
        match fst (roomCheckEdit booking p db) with
        | Reply r => r
        | Throw => jsonError 500 "Failed to edit booking"
        | Continue _ =>
            match fst (clientCheckEdit booking p db) with
            | Reply r => r
            | Throw => jsonError 500 "Failed to edit booking"
            | Continue _ =>
                if editFits p
                then mkResponse 200 JsonSuccess
                else jsonError 500 "Failed to edit booking"
            end
        end
    end.
Proof.
  destruct (Storage.getBooking id db) as [booking|] eqn:Hb.
  - rewrite (putBookingEdit_run id req db booking Hb). cbv zeta.
    pose proof (roomCheckEdit_reads booking (planEdit booking req) db) as [Hr _].
    destruct (roomCheckEdit booking (planEdit booking req) db) as [[u|r|] db1];
      simpl in Hr |- *; subst; try reflexivity.
    destruct (clientCheckEdit booking (planEdit booking req) db) as [[v|r|] db2];
      try reflexivity.
    unfold Storage.updateBookingDetails, editFits.
    destruct (Storage.detailsFit _ _ _ _); reflexivity.
  - rewrite (putBookingEdit_missing id req db Hb). reflexivity.
Qed.

End Answers.

(** X10. The answer to a create or edit request does not depend on the
    payment columns: on two databases with the same users and the same
    bookings up to paid, paymentMethod, paidAmount, isDebtor and extraTime
    every request gets the same answer.  A payment mark leads to such a
    database, so marking payments never changes how a later create or edit
    is answered. *)
Theorem admission_ignores_payment :
  (forall (db db' : Db),
      SameUpToPayment db db' ->
      (forall uuid now reqBody,
          fst (postBookings uuid now reqBody db')
          = fst (postBookings uuid now reqBody db)) /\
      (forall id req,
          fst (putBookingEdit id req db') = fst (putBookingEdit id req db))) /\
  (forall (id : string) (req : PaidBody.t) (db : Db),
      SameUpToPayment db (snd (putBookingPaid id req db))).
Proof.
  split.
  - intros db db' Hsame. split.
    + intros uuid now [parsed|]; [|reflexivity].
      rewrite !postBookings_answer. cbv zeta.
      rewrite (resolveIdentity_blind db db' Hsame).
      rewrite (roomCheckCreate_blind db db' Hsame).
      rewrite (clientCheckCreate_blind db db' Hsame). reflexivity.
    + intros id req. rewrite !putBookingEdit_answer.
      pose proof (getBooking_blind db db' Hsame id) as Hg.
      destruct (Storage.getBooking id db') as [b'|],
               (Storage.getBooking id db) as [b|]; try discriminate Hg;
        [|reflexivity].
      simpl in Hg. assert (Hb : withoutPayment b' = withoutPayment b) by congruence.
      cbv zeta. rewrite (planEdit_blind b b' req Hb).
      rewrite (roomCheckEdit_blind db db' Hsame b b' _ Hb).
      rewrite (clientCheckEdit_blind db db' Hsame b b' _ Hb). reflexivity.
  - intros id req db. rewrite putBookingPaid_run.
    destruct (paidFits req); [|split; reflexivity].
    split; [reflexivity|].
    unfold updateById. simpl. rewrite map_map. apply map_ext. intros b.
    destruct (Booking.id b === id); reflexivity.
Qed.

Lemma admission_ignores_payment_witness :
  fst (postBookings "b2" 1
         (Some (Scenario.request 2 "y" "Y" None (Some 22) (Some 2) "hourly" 400))
         (snd (putBookingPaid "b1"
                 (PaidBody.mk (Some true) (Some "cash") (Some (Some 800)) None None)
                 Scenario.dbHourly)))
  = fst (postBookings "b2" 1
           (Some (Scenario.request 2 "y" "Y" None (Some 22) (Some 2) "hourly" 400))
           Scenario.dbHourly).
Proof.
  destruct admission_ignores_payment as [Hblind Hmark].
  apply (Hblind Scenario.dbHourly _
           (Hmark "b1"
              (PaidBody.mk (Some true) (Some "cash") (Some (Some 800)) None None)
              Scenario.dbHourly)).
Defined.

(** ** Create, look up, cancel *)

Section RoundTrip.

Lemma fresh_id_not_found (uuid : string) (l : list Booking.t) :
  ~ In uuid (map Booking.id l) ->
  find (fun b => Booking.id b === uuid) l = None /\
  filter (fun b => negb (Booking.id b === uuid)) l = l.
Proof.
  induction l as [|x r IH]; simpl; [auto|].
  intros H. destruct (String.eqb_spec (Booking.id x) uuid) as [E|E].
  - exfalso. apply H. auto.
  - simpl. destruct IH as [IH1 IH2]; [tauto|]. rewrite IH2. auto.
Qed.

Lemma getBooking_createBooking (uuid : string) (now : Z)
    (data : InsertBooking.t) (db : Db) :
  ~ In uuid (map Booking.id (bookings db)) ->
  Storage.getBooking uuid
    (withBookings (fun t => (t ++ [Storage.newBooking uuid now data])%list) db)
  = Some (Storage.newBooking uuid now data).
Proof.
  intros H. unfold Storage.getBooking. simpl.
  destruct (fresh_id_not_found uuid (bookings db) H) as [Hf _].
  induction (bookings db) as [|x r IH]; simpl in *.
  - rewrite String.eqb_refl. reflexivity.
  - destruct (Booking.id x === uuid); [discriminate Hf|]. apply IH; tauto.
Qed.

End RoundTrip.

(** X11. A booking created under an id that is new to the table can be
    read back under that id and is listed for its room and date; and
    cancelling it right away answers 204, restores the booking table to
    what it was before the create and appends one cancellation that
    carries the client, room, date, type and price the booking was stored
    with. *)
Theorem create_then_cancel :
  forall (uuid : string) (now : Z) (parsed : InsertBooking.t) (db : Db)
         (cancelId : string) (cancelledAt : Z),
    ~ In uuid (map Booking.id (bookings db)) ->
    status (fst (postBookings uuid now (Some parsed) db)) = 201 ->
    let created := snd (postBookings uuid now (Some parsed) db) in
    let b := Storage.newBooking uuid now (resolveIdentity parsed db) in
    Storage.getBooking uuid created = Some b /\
    In b (Storage.getBookingsByRoom (InsertBooking.roomNumber parsed)
            (InsertBooking.date parsed) created) /\
    deleteBookingRoute true cancelId cancelledAt uuid created
    = (mkResponse 204 NoBody,
       mkDb (users db) (bookings db)
         (cancellations db
          ++ [Cancellation.mk cancelId (Booking.userId b) (Booking.userName b)
                (Booking.userPhone b) (Booking.roomNumber b) (Booking.date b)
                (Booking.bookingType b) (Booking.price b) cancelledAt])%list).
Proof.
  intros uuid now parsed db cancelId cancelledAt Hfresh Hok created b.
  subst created. rewrite (postBookings_201_writes uuid now parsed db Hok).
  fold b.
  assert (Hget : Storage.getBooking uuid
                   (withBookings (fun t => (t ++ [b])%list) db)
                 = Some b) by now apply getBooking_createBooking.
  split; [exact Hget|]. split.
  - apply getBookingsByRoom_In. simpl.
    destruct (resolveIdentity_schedule parsed db) as (Hr & Hd & _).
    repeat split; auto. apply in_or_app. right. left. reflexivity.
  - rewrite (deleteBookingRoute_present cancelId cancelledAt uuid _ b Hget).
    unfold Storage.deleteBooking, Storage.createCancellation,
      withBookings, withCancellations.
    cbn [users bookings cancellations]. rewrite filter_app.
    cbn [filter Booking.id Storage.newBooking b]. unfold b at 1.
    cbn [Booking.id Storage.newBooking]. rewrite String.eqb_refl.
    cbn [negb]. rewrite app_nil_r.
    destruct (fresh_id_not_found uuid (bookings db) Hfresh) as [_ ->].
    reflexivity.
Qed.

Lemma create_then_cancel_witness :
  deleteBookingRoute true "c1" 9 "b2"
    (snd (postBookings "b2" 1
            (Some (Scenario.request 2 "y" "Y" None (Some 24) (Some 2) "hourly" 400))
            Scenario.dbHourly))
  = (mkResponse 204 NoBody,
     mkDb [] [Scenario.tenToTwelve]
       [Cancellation.mk "c1" "y" "Y" None 2 Scenario.day "hourly" 400 9]).
Proof.
  destruct (create_then_cancel "b2" 1
              (Scenario.request 2 "y" "Y" None (Some 24) (Some 2) "hourly" 400)
              Scenario.dbHourly "c1" 9) as (_ & _ & Hrun).
  - simpl. intros [H|[]]. discriminate H.
  - reflexivity.
  - rewrite Hrun. reflexivity.
Defined.

(** ** Merging twice *)

Section MergeAgain.

Lemma truthy_nonempty (s : string) : s <> "" -> Js.truthy s = true.
Proof.
  intros H. unfold Js.truthy.
  destruct (String.eqb_spec s ""); [contradiction|reflexivity].
Qed.




End MergeAgain.



(** ** Dedup without walk-ins *)

Section NoWalkIns.

Lemma groupWalkIns_none {A : Type} (userId userName : A -> string)
    (rows : list A) (groups : Groups A) :
  (forall x, In x rows -> Js.startsWith (userId x) "walk_in_" = false) ->
  groupWalkIns userId userName rows groups = Some groups.
Proof.
  induction rows as [|x r IH]; simpl; intros H; [reflexivity|].
  rewrite (H x (or_introl eq_refl)). simpl. apply IH. auto.
Qed.

Lemma normalize_loop_clean (rows : list Booking.t) (n : Z) (db : Db) :
  (forall b, In b rows -> CleanPhone (Booking.userPhone b)) ->
  forOf rows n normalizeStoredPhone db = (Continue n, db).
Proof.
  induction rows as [|x r IH]; intros H; [reflexivity|].
  cbn [forOf]. unfold bind.
  destruct (normalizeStoredPhone_run n x db)
    as [(p & Hp & Hdirty & _)|[_ ->]].
  - exfalso. apply Hdirty. now apply (H x (or_introl eq_refl)).
  - apply IH. intros b Hb. apply H. now right.
Qed.

End NoWalkIns.

(** X14. On a database in which no booking and no cancellation has a
    walk-in userId and every stored booking phone is clean, dedup answers
    200 with updatedCount 0 and changes nothing. *)
Theorem cleanup_without_walk_ins :
  forall db : Db,
    (forall b, In b (bookings db) ->
               Js.startsWith (Booking.userId b) "walk_in_" = false) ->
    (forall c, In c (cancellations db) ->
               Js.startsWith (Cancellation.userId c) "walk_in_" = false) ->
    PhonesClean db ->
    postCleanupDuplicates db = (mkResponse 200 (JsonUpdated 0), db).
Proof.
  intros db Hb Hc Hclean. rewrite postCleanupDuplicates_run. cbv zeta.
  rewrite groupWalkIns_none
    by (intros x Hx; apply Hb; now apply sortBy_In in Hx).
  cbn [forOf ret].
  rewrite normalize_loop_clean
    by (intros b Hin; apply Hclean; now apply sortBy_In in Hin).
  unfold tryCatch. rewrite bind_query. unfold bind at 1.
  rewrite groupWalkIns_none
    by (intros x Hx; apply Hc; now apply sortBy_In in Hx).
  reflexivity.
Qed.

Lemma cleanup_without_walk_ins_witness :
  postCleanupDuplicates Scenario.dbTwoInRoom
  = (mkResponse 200 (JsonUpdated 0), Scenario.dbTwoInRoom).
Proof.
  apply cleanup_without_walk_ins.
  - intros b [<-|[<-|[]]]; reflexivity.
  - intros c [].
  - intros b [<-|[<-|[]]] s H; discriminate H.
Defined.

(** ** Registration and login *)

Section Accounts.

Variable sha256Hex : string -> string.

Lemma find_app_none {A : Type} (f : A -> bool) (l : list A) (x : A) :
  find f l = None -> find f (l ++ [x]) = if f x then Some x else None.
Proof.
  induction l as [|y r IH]; simpl; [reflexivity|].
  destruct (f y); [discriminate|exact IH].
Qed.

(** What a registration answered 201 found and wrote. *)
Lemma postRegister_201 (userUuid chatUuid : string) (now : Z)
    (name rawPhone password : option string) (s : Server) :
  userStatus (fst (postRegister sha256Hex userUuid chatUuid now name rawPhone
                     password s)) = 201 ->
  Js.truthyOpt name = true /\ Js.truthyOpt rawPhone = true /\
  Js.truthyOpt password = true /\
  Storage.getUserByPhone (normalizePhone rawPhone) (db s) = None /\
  postRegister sha256Hex userUuid chatUuid now name rawPhone password s
  = (mkUserResponse 201
       (UserInfo userUuid (Js.orEmpty name) (Some (normalizePhone rawPhone))
          "client"),
     mkServer
       (createUser userUuid now (Js.orEmpty name)
          (Some (normalizePhone rawPhone))
          (Some (hashPassword sha256Hex (Js.orEmpty password))) "client" (db s))
       (createChat chatUuid now userUuid (Js.orEmpty name)
          (Some (normalizePhone rawPhone)) (chats s))
       (messages s)).
Proof.
  unfold postRegister.
  destruct (Js.truthyOpt name), (Js.truthyOpt rawPhone),
    (Js.truthyOpt password); simpl; try discriminate.
  destruct (Storage.getUserByPhone (normalizePhone rawPhone) (db s));
    simpl; [discriminate|]. intros _. repeat split.
Qed.

Lemma getUserByPhone_created (uuid : string) (now : Z) (name phone : string)
    (password : option string) (role : string) (d : Db) :
  Storage.getUserByPhone phone d = None ->
  Storage.getUserByPhone phone
    (createUser uuid now name (Some phone) password role d)
  = Some (User.mk uuid name (Some phone) password role None now).
Proof.
  unfold Storage.getUserByPhone, createUser. simpl. intros H.
  rewrite (find_app_none _ _ _ H). simpl. rewrite String.eqb_refl. reflexivity.
Qed.

End Accounts.

(** X15. After a registration answered 201, a login with any phone of the
    same normal form and the registered password is answered 200 with the
    new user's id, name, normalised phone and role client; a login with a
    password whose salted digest differs is answered 401; the phone lookup
    finds the new user; and a further registration under a phone of the
    same normal form is answered 400.  None of these four requests writes.
    The registration itself appended one user and one chat of that
    user. *)
Theorem register_then_login :
  forall (sha256Hex : string -> string) (userUuid chatUuid : string) (now : Z)
         (name rawPhone password : option string) (s : Server),
    userStatus (fst (postRegister sha256Hex userUuid chatUuid now name rawPhone
                       password s)) = 201 ->
    let s' := snd (postRegister sha256Hex userUuid chatUuid now name rawPhone
                     password s) in
    let phone := normalizePhone rawPhone in
    let user := User.mk userUuid (Js.orEmpty name) (Some phone)
                  (Some (hashPassword sha256Hex (Js.orEmpty password)))
                  "client" None now in
    users (db s') = (users (db s) ++ [user])%list /\
    chats s' = (chats s
                ++ [Chat.mk chatUuid userUuid (Js.orEmpty name) (Some phone)
                      None None (Some 0) now])%list /\
    (forall raw',
        raw' <> "" -> normalizePhone (Some raw') = phone ->
        postLogin sha256Hex (Some raw') password s'
        = (mkUserResponse 200
             (UserInfo userUuid (Js.orEmpty name) (Some phone) "client"), s') /\
        (forall password',
            password' <> "" ->
            hashPassword sha256Hex password'
            <> hashPassword sha256Hex (Js.orEmpty password) ->
            postLogin sha256Hex (Some raw') (Some password') s'
            = (mkUserResponse 401 (UserError "Invalid phone or password"), s')) /\
        getUserPhone raw' s'
        = (mkUserResponse 200
             (UserExists userUuid (Js.orEmpty name) (Some phone)), s') /\
        (forall userUuid' chatUuid' now' name' password',
            userStatus (fst (postRegister sha256Hex userUuid' chatUuid' now'
                               name' (Some raw') password' s')) = 400 /\
            snd (postRegister sha256Hex userUuid' chatUuid' now' name'
                   (Some raw') password' s') = s')).
Proof.
  intros sha256Hex userUuid chatUuid now name rawPhone password s Hok s' phone user.
  destruct (postRegister_201 sha256Hex userUuid chatUuid now name rawPhone
              password s Hok) as (Hn & Hr & Hp & Hnone & Hrun).
  subst s'. rewrite Hrun. simpl snd. fold phone in Hnone |- *.
  set (s' := mkServer _ _ _).
  assert (Hfound : Storage.getUserByPhone phone (db s') = Some user)
    by (apply getUserByPhone_created; exact Hnone).
  split; [reflexivity|]. split; [reflexivity|].
  intros raw' Hne Hnorm.
  assert (Ht : Js.truthyOpt (Some raw') = true) by (now apply truthy_nonempty).
  split; [|split; [|split]].
  - unfold postLogin. rewrite Ht, Hp. cbn [negb orb]. cbv zeta.
    rewrite Hnorm, Hfound. simpl. rewrite String.eqb_refl. reflexivity.
  - intros password' Hpne Hdiff. unfold postLogin.
    rewrite Ht, (truthy_nonempty password' Hpne : Js.truthyOpt (Some _) = true).
    cbn [negb orb]. cbv zeta. rewrite Hnorm, Hfound. simpl.
    destruct (String.eqb_spec
                (hashPassword sha256Hex (Js.orEmpty password))
                (hashPassword sha256Hex password')) as [E|E]; [|reflexivity].
    exfalso. apply Hdiff. now symmetry.
  - unfold getUserPhone. cbv zeta. rewrite Hnorm, Hfound. reflexivity.
  - intros userUuid' chatUuid' now' name' password'. unfold postRegister.
    destruct (negb (Js.truthyOpt name') || negb (Js.truthyOpt (Some raw'))
              || negb (Js.truthyOpt password')); [split; reflexivity|].
    cbv zeta. rewrite Hnorm, Hfound. split; reflexivity.
Qed.

Lemma register_then_login_witness :
  postLogin (fun x => x) (Some "8 (912) 345-67-89") (Some "secret")
    (snd (postRegister (fun x => x) "u1" "ch1" 0 (Some "Anna")
            (Some "+7 912 345 67 89") (Some "secret")
            (mkServer (mkDb [] [] []) [] [])))
  = (mkUserResponse 200 (UserInfo "u1" "Anna" (Some "9123456789") "client"),
     snd (postRegister (fun x => x) "u1" "ch1" 0 (Some "Anna")
            (Some "+7 912 345 67 89") (Some "secret")
            (mkServer (mkDb [] [] []) [] []))).
Proof.
  destruct (register_then_login (fun x => x) "u1" "ch1" 0 (Some "Anna")
              (Some "+7 912 345 67 89") (Some "secret")
              (mkServer (mkDb [] [] []) [] []) eq_refl)
    as (_ & _ & Hlogin).
  destruct (Hlogin "8 (912) 345-67-89") as (H & _).
  - discriminate.
  - reflexivity.
  - exact H.
Defined.

(** ** Phones identify users *)

Section UniquePhone.

Lemma getUserByPhone_unique (phone : string) (d : Db) (u : User.t) :
  UniquePhones d -> In u (users d) -> User.phone u = Some phone ->
  Storage.getUserByPhone phone d = Some u.
Proof.
  intros Hu Hin Hp.
  destruct (Storage.getUserByPhone phone d) as [v|] eqn:Hv.
  - apply getUserByPhone_Some in Hv as [Hvin Hvp].
    f_equal. now apply (Hu phone).
  - exfalso. unfold Storage.getUserByPhone in Hv.
    pose proof (find_none _ _ Hv u Hin) as Hf. simpl in Hf.
    rewrite Hp in Hf. simpl in Hf. rewrite String.eqb_refl in Hf.
    discriminate Hf.
Qed.

Lemma getUserByPhone_None (phone : string) (d : Db) (u : User.t) :
  Storage.getUserByPhone phone d = None -> In u (users d) ->
  User.phone u <> Some phone.
Proof.
  intros Hv Hin Hp. unfold Storage.getUserByPhone in Hv.
  pose proof (find_none _ _ Hv u Hin) as Hf. simpl in Hf.
  rewrite Hp in Hf. simpl in Hf. rewrite String.eqb_refl in Hf.
  discriminate Hf.
Qed.

End UniquePhone.

(** X16. Registration keeps the phones of the users unique, whatever the
    request and its answer; and while they are unique, the user a phone
    resolves to (at login, at lookup and at create) is the one user that
    has that phone, wherever it stands in the table. *)
Theorem register_keeps_phones_unique :
  forall (sha256Hex : string -> string) (userUuid chatUuid : string) (now : Z)
         (name rawPhone password : option string) (s : Server),
    UniquePhones (db s) ->
    UniquePhones (db (snd (postRegister sha256Hex userUuid chatUuid now name
                             rawPhone password s))) /\
    (forall phone u,
        In u (users (db s)) -> User.phone u = Some phone ->
        Storage.getUserByPhone phone (db s) = Some u).
Proof.
  intros sha256Hex userUuid chatUuid now name rawPhone password s Hu.
  split; [|intros phone u; now apply getUserByPhone_unique].
  destruct (Z.eq_dec
              (userStatus (fst (postRegister sha256Hex userUuid chatUuid now
                                  name rawPhone password s))) 201) as [Hok|Hno].
  - destruct (postRegister_201 sha256Hex userUuid chatUuid now name rawPhone
                password s Hok) as (_ & _ & _ & Hnone & ->).
    simpl. intros phone u v Hin1 Hin2 Hp1 Hp2.
    apply in_app_or in Hin1 as [Hin1|[<-|[]]];
      apply in_app_or in Hin2 as [Hin2|[<-|[]]].
    + now apply (Hu phone).
    + exfalso. simpl in Hp2. injection Hp2 as <-.
      now apply (getUserByPhone_None _ _ u Hnone Hin1).
    + exfalso. simpl in Hp1. injection Hp1 as <-.
      now apply (getUserByPhone_None _ _ v Hnone Hin2).
    + reflexivity.
  - assert (E : snd (postRegister sha256Hex userUuid chatUuid now name rawPhone
                       password s) = s).
    { revert Hno. unfold postRegister.
      destruct (_ || _); [reflexivity|]. cbv zeta.
      destruct (Storage.getUserByPhone _ _); [reflexivity|].
      simpl. congruence. }
    rewrite E. exact Hu.
Qed.

Lemma register_keeps_phones_unique_witness :
  UniquePhones
    (db (snd (postRegister (fun x => x) "u2" "ch2" 0 (Some "Boris")
                (Some "8 (912) 345-67-89") (Some "pw")
                (mkServer Sample.dbRegistered [] [])))) /\
  Storage.getUserByPhone "9123456789" Sample.dbRegistered
  = Some Sample.registered.
Proof.
  assert (Hu : UniquePhones Sample.dbRegistered).
  { intros phone u v [<-|[]] [<-|[]] _ _. reflexivity. }
  destruct (register_keeps_phones_unique (fun x => x) "u2" "ch2" 0
              (Some "Boris") (Some "8 (912) 345-67-89") (Some "pw")
              (mkServer Sample.dbRegistered [] []) Hu) as [H1 H2].
  split; [exact H1|].
  apply (H2 "9123456789" Sample.registered); [left|]; reflexivity.
Defined.

(** ** A registered phone attributes bookings *)

Section Attribution.

Lemma resolveIdentity_known (parsed : InsertBooking.t) (d : Db) (u : User.t) :
  Js.truthyOpt (InsertBooking.userPhone parsed) = true ->
  normalizePhone (InsertBooking.userPhone parsed) <> "" ->
  Storage.getUserByPhone (normalizePhone (InsertBooking.userPhone parsed)) d
  = Some u ->
  resolveIdentity parsed d
  = InsertBooking.setIdentity (User.id u) (User.name u)
      (Some (normalizePhone (InsertBooking.userPhone parsed)))
      (InsertBooking.setUserPhone
         (Some (normalizePhone (InsertBooking.userPhone parsed))) parsed).
Proof.
  intros Ht Hne Hu. unfold resolveIdentity. rewrite Ht.
  cbn [InsertBooking.userPhone InsertBooking.setUserPhone Js.truthyOpt Js.orEmpty].
  rewrite (truthy_nonempty _ Hne), Hu.
  apply getUserByPhone_Some in Hu as [_ Hp]. rewrite Hp.
  f_equal. f_equal. apply normalizePhone_idempotent.
Qed.

End Attribution.

(** X17. After a registration answered 201 under a phone whose normal form
    is not empty, every create request that carries a phone of the same
    normal form is checked and stored under the registered user's id and
    name, whatever userId and userName it sends; when it is accepted, the
    new booking is among the bookings listed for the registered user. *)
Theorem registered_phone_attributes_bookings :
  forall (sha256Hex : string -> string) (userUuid chatUuid : string) (now : Z)
         (name rawPhone password : option string) (s : Server)
         (parsed : InsertBooking.t) (uuid : string) (createdAt : Z),
    userStatus (fst (postRegister sha256Hex userUuid chatUuid now name rawPhone
                       password s)) = 201 ->
    normalizePhone rawPhone <> "" ->
    Js.truthyOpt (InsertBooking.userPhone parsed) = true ->
    normalizePhone (InsertBooking.userPhone parsed) = normalizePhone rawPhone ->
    let d := db (snd (postRegister sha256Hex userUuid chatUuid now name rawPhone
                        password s)) in
    let data := resolveIdentity parsed d in
    InsertBooking.userId data = userUuid /\
    InsertBooking.userName data = Js.orEmpty name /\
    InsertBooking.userPhone data = Some (normalizePhone rawPhone) /\
    (status (fst (postBookings uuid createdAt (Some parsed) d)) = 201 ->
     In (Storage.newBooking uuid createdAt data)
        (getBookingsByUserId userUuid
           (snd (postBookings uuid createdAt (Some parsed) d)))).
Proof.
  intros sha256Hex userUuid chatUuid now name rawPhone password s parsed uuid
    createdAt Hok Hne Ht Hnorm d data.
  destruct (postRegister_201 sha256Hex userUuid chatUuid now name rawPhone
              password s Hok) as (_ & _ & _ & Hnone & Hrun).
  assert (Hfound : Storage.getUserByPhone
                     (normalizePhone (InsertBooking.userPhone parsed)) d
                   = Some (User.mk userUuid (Js.orEmpty name)
                             (Some (normalizePhone rawPhone))
                             (Some (hashPassword sha256Hex (Js.orEmpty password)))
                             "client" None now)).
  { subst d. rewrite Hrun, Hnorm. simpl snd. simpl db.
    now apply getUserByPhone_created. }
  assert (Hdata : data = InsertBooking.setIdentity userUuid (Js.orEmpty name)
                           (Some (normalizePhone rawPhone))
                           (InsertBooking.setUserPhone
                              (Some (normalizePhone rawPhone)) parsed)).
  { subst data.
    rewrite (resolveIdentity_known parsed d _ Ht
               ltac:(rewrite Hnorm; exact Hne) Hfound).
    rewrite Hnorm. reflexivity. }
  split; [now rewrite Hdata|]. split; [now rewrite Hdata|].
  split; [now rewrite Hdata|].
  intros Hacc. rewrite (postBookings_201_writes uuid createdAt parsed d Hacc).
  fold data. unfold getBookingsByUserId. apply sortBy_In. apply filter_In.
  split.
  - simpl. apply in_or_app. right. left. reflexivity.
  - simpl. rewrite Hdata. simpl. apply String.eqb_refl.
Qed.

Lemma registered_phone_attributes_bookings_witness :
  InsertBooking.userId
    (resolveIdentity Sample.walkInWithKnownPhone
       (db (snd (postRegister (fun x => x) "u1" "ch1" 0 (Some "Anna")
                   (Some "+7 912 345 67 89") (Some "secret")
                   (mkServer (mkDb [] [] []) [] [])))))
  = "u1" /\
  normalizePhone (Some "+7 912 345 67 89") = "9123456789".
Proof.
  split; [|reflexivity].
  assert (H1 : userStatus
                 (fst (postRegister (fun x => x) "u1" "ch1" 0 (Some "Anna")
                         (Some "+7 912 345 67 89") (Some "secret")
                         (mkServer (mkDb [] [] []) [] []))) = 201)
    by (vm_compute; reflexivity).
  assert (H2 : normalizePhone (Some "+7 912 345 67 89") <> "")
    by (vm_compute; discriminate).
  assert (H3 : Js.truthyOpt (InsertBooking.userPhone Sample.walkInWithKnownPhone)
               = true) by (vm_compute; reflexivity).
  assert (H4 : normalizePhone (InsertBooking.userPhone Sample.walkInWithKnownPhone)
               = normalizePhone (Some "+7 912 345 67 89"))
    by (vm_compute; reflexivity).
  exact (proj1 (registered_phone_attributes_bookings (fun x => x) "u1" "ch1" 0
                  (Some "Anna") (Some "+7 912 345 67 89") (Some "secret")
                  (mkServer (mkDb [] [] []) [] []) Sample.walkInWithKnownPhone
                  "b1" 1 H1 H2 H3 H4)).
Defined.

(** ** Chats *)

Section ChatFacts.

Lemma find_by_id_unique (cs : list Chat.t) (c : Chat.t) :
  NoDup (map Chat.id cs) -> In c cs ->
  find (fun x => Chat.id x === Chat.id c) cs = Some c.
Proof.
  intros Hnd Hin.
  destruct (find (fun x => Chat.id x === Chat.id c) cs) as [c'|] eqn:Hf.
  - apply find_some in Hf as [Hin' He]. apply String.eqb_eq in He.
    f_equal. now apply (same_id_same_row Chat.id cs).
  - pose proof (find_none _ _ Hf c Hin) as H. simpl in H.
    rewrite String.eqb_refl in H. discriminate H.
Qed.

Lemma getChats_ids (cs : list Chat.t) :
  NoDup (map Chat.id cs) -> NoDup (map Chat.id (getChats cs)).
Proof.
  intros H. apply Permutation_NoDup with (l := map Chat.id cs); [|exact H].
  apply Permutation_map. symmetry. apply sortBy_perm.
Qed.

Lemma unreadArgument_client (chatId : string) (cs : list Chat.t) (c : Chat.t) :
  NoDup (map Chat.id cs) -> In c cs -> Chat.id c = chatId ->
  unreadArgument "client" chatId cs = Some (Js.orElseZ (Chat.unreadCount c) 1).
Proof.
  intros Hnd Hin <-. unfold unreadArgument. simpl "===". cbv zeta.
  rewrite (find_by_id_unique (getChats cs) c).
  - reflexivity.
  - now apply getChats_ids.
  - now apply sortBy_In.
Qed.

Lemma find_updated (f : Chat.t -> Chat.t) (chatId : string) (cs : list Chat.t)
    (c : Chat.t) :
  (forall x, Chat.id (f x) = Chat.id x) ->
  find (fun x => Chat.id x === chatId) cs = Some c ->
  find (fun x => Chat.id x === chatId)
    (map (fun x => if Chat.id x === chatId then f x else x) cs)
  = Some (f c).
Proof.
  intros Hid. induction cs as [|x r IH]; simpl; [discriminate|].
  destruct (Chat.id x === chatId) eqn:E; simpl.
  - rewrite Hid, E. intros [= ->]. reflexivity.
  - rewrite E. exact IH.
Qed.

End ChatFacts.

(** X18. The unread counter of a chat with unique ids after a message: a
    message whose senderRole is client sets it to 1 when it was 0 or NULL
    and leaves any other value as it is; a message of another role leaves
    it unchanged.  In both cases the chat's lastMessage is the text, its
    lastMessageTime the time of the request, the other chats are unchanged
    and the message is appended to the messages; marking the chat as read
    sets the counter to 0. *)
Theorem message_updates_chat :
  forall (uuid : string) (now : Z) (data : InsertMessage.t) (s : Server)
         (c : Chat.t),
    NoDup (map Chat.id (chats s)) ->
    In c (chats s) ->
    Chat.id c = InsertMessage.chatId data ->
    let s' := snd (postMessages uuid now (Some data) s) in
    let find_chat := fun st : Server =>
      find (fun x => Chat.id x === Chat.id c) (chats st) in
    (exists c',
        find_chat s' = Some c' /\
        Chat.lastMessage c' = Some (InsertMessage.text data) /\
        Chat.lastMessageTime c' = Some now /\
        Chat.unreadCount c'
        = (if InsertMessage.senderRole data === "client"
           then Some (match Chat.unreadCount c with
                      | Some n => if n =? 0 then 1 else n
                      | None => 1
                      end)
           else Chat.unreadCount c)) /\
    (forall x, In x (chats s) -> Chat.id x <> Chat.id c -> In x (chats s')) /\
    messages s' = (messages s ++ [createMessage uuid now data])%list /\
    (exists r,
        find_chat (snd (putChatRead (Chat.id c) s')) = Some r /\
        Chat.unreadCount r = Some 0).
Proof.
  intros uuid now data s c Hnd Hin Hid s' find_chat. subst s' find_chat.
  unfold postMessages. simpl snd. cbn [chats messages].
  pose proof (find_by_id_unique (chats s) c Hnd Hin) as Hfind.
  unfold updateChatLastMessage. rewrite <- Hid.
  pose proof (find_updated
                (Chat.setLastMessage (InsertMessage.text data) now
                   (unreadArgument (InsertMessage.senderRole data)
                      (Chat.id c) (chats s)))
                (Chat.id c) (chats s) c (fun x => eq_refl) Hfind) as Hnew.
  split; [|split; [|split]].
  - eexists. split; [exact Hnew|]. simpl.
    split; [reflexivity|]. split; [reflexivity|].
    destruct (String.eqb_spec (InsertMessage.senderRole data) "client") as [E|E].
    + rewrite E, (unreadArgument_client (Chat.id c) (chats s) c Hnd Hin eq_refl).
      reflexivity.
    + unfold unreadArgument.
      destruct (String.eqb_spec (InsertMessage.senderRole data) "client");
        [contradiction|reflexivity].
  - intros x Hx Hne. apply in_map_iff. exists x. split; [|exact Hx].
    destruct (String.eqb_spec (Chat.id x) (Chat.id c)); [contradiction|reflexivity].
  - reflexivity.
  - eexists. unfold putChatRead, markChatAsRead. simpl snd. cbn [chats].
    split.
    + apply (find_updated Chat.setRead (Chat.id c) _ _ (fun x => eq_refl) Hnew).
    + reflexivity.
Qed.

Lemma message_updates_chat_witness :
  (exists c',
      find (fun x => Chat.id x === "ch1")
        (chats (snd (postMessages "m2" 2 (Some (SampleChat.fromClient "again"))
                       (snd (postMessages "m1" 1
                               (Some (SampleChat.fromClient "hello"))
                               SampleChat.server)))))
      = Some c' /\
      Chat.lastMessage c' = Some "again" /\
      Chat.unreadCount c' = Some 1).
Proof.
  destruct (message_updates_chat "m2" 2 (SampleChat.fromClient "again")
              (snd (postMessages "m1" 1 (Some (SampleChat.fromClient "hello"))
                      SampleChat.server))
              (Chat.mk "ch1" "u1" "Anna" (Some "9123456789") (Some "hello")
                 (Some 1) (Some 1) 0))
    as ((c' & Hfind & Hlast & _ & Hunread) & _).
  - simpl. repeat constructor. simpl. tauto.
  - left. reflexivity.
  - reflexivity.
  - exists c'. split; [exact Hfind|]. split; [exact Hlast|exact Hunread].
Defined.

(** X19. One chat per client.  [POST /api/chats] with a parsed body for a
    client that has no chat and with an unreadCount outside the range of
    the integer column is answered 500 and writes nothing.  After every
    other such request there is a chat of the body's client, and from then
    on every request for that client is answered 200 with that chat and
    writes nothing; the first request itself is answered 200 with the
    existing chat, or 201 with a new one that it appends. *)
Theorem one_chat_per_client :
  forall (uuid : string) (now : Z) (data : InsertChat.t) (s : Server),
    let run := postChats uuid now (Some data) s in
    let s' := snd run in
    (getChatByClientId (InsertChat.clientId data) (chats s) = None ->
     fitsIntegerKey (InsertChat.unreadCount data) = false ->
     run = (mkUserResponse 500 (UserError "Failed to create chat"), s)) /\
    (getChatByClientId (InsertChat.clientId data) (chats s) <> None \/
     fitsIntegerKey (InsertChat.unreadCount data) = true ->
     exists chat,
       getChatByClientId (InsertChat.clientId data) (chats s') = Some chat /\
       Chat.clientId chat = InsertChat.clientId data /\
       (fst run = mkUserResponse 200 (ChatBody chat) /\ s' = s
        \/ fst run = mkUserResponse 201 (ChatBody chat)
           /\ chat = newChat uuid now data
           /\ chats s' = (chats s ++ [chat])%list) /\
       (forall uuid' now' data',
           InsertChat.clientId data' = InsertChat.clientId data ->
           postChats uuid' now' (Some data') s'
           = (mkUserResponse 200 (ChatBody chat), s'))).
Proof.
  intros uuid now data s run s'. subst s' run. unfold postChats.
  destruct (getChatByClientId (InsertChat.clientId data) (chats s))
    as [existing|] eqn:Hfind.
  - split; [discriminate|]. intros _.
    exists existing. simpl snd. split; [exact Hfind|]. split.
    + unfold getChatByClientId in Hfind. apply find_some in Hfind as [_ He].
      now apply String.eqb_eq.
    + split; [left; split; reflexivity|].
      intros uuid' now' data' E. rewrite E, Hfind. reflexivity.
  - split; [intros _ ->; reflexivity|].
    intros [H|Hfit]; [now contradiction H|]. rewrite Hfit.
    exists (newChat uuid now data). simpl snd. cbn [chats].
    assert (Hnew : getChatByClientId (InsertChat.clientId data)
                     (chats s ++ [newChat uuid now data])%list
                   = Some (newChat uuid now data)).
    { unfold getChatByClientId in *. rewrite (find_app_none _ _ _ Hfind).
      simpl. rewrite String.eqb_refl. reflexivity. }
    split; [exact Hnew|]. split; [reflexivity|].
    split; [right; repeat split|].
    intros uuid' now' data' E. rewrite E. cbn [chats]. rewrite Hnew.
    reflexivity.
Qed.

Lemma one_chat_per_client_witness :
  postChats "ch2" 7
    (Some (InsertChat.mk "u2" "Boris" None None None (Some (Some 3000000000))))
    SampleChat.server
  = (mkUserResponse 500 (UserError "Failed to create chat"), SampleChat.server) /\
  (exists chat,
      getChatByClientId "u2"
        (chats (snd (postChats "ch2" 7
                       (Some (InsertChat.mk "u2" "Boris" None None None None))
                       SampleChat.server))) = Some chat /\
      Chat.unreadCount chat = Some 0).
Proof.
  split.
  - apply (one_chat_per_client "ch2" 7
             (InsertChat.mk "u2" "Boris" None None None (Some (Some 3000000000)))
             SampleChat.server); reflexivity.
  - destruct (proj2 (one_chat_per_client "ch2" 7
                       (InsertChat.mk "u2" "Boris" None None None None)
                       SampleChat.server) (or_intror eq_refl))
      as (chat & Hget & _ & [[H _]|(_ & -> & _)] & _).
    + discriminate H.
    + exists (newChat "ch2" 7 (InsertChat.mk "u2" "Boris" None None None None)).
      split; [exact Hget|reflexivity].
Defined.

(** ** More on the normalizer *)

Section NormalForms.

Lemma stripNonDigits_twice (s : string) :
  Js.stripNonDigits (Js.stripNonDigits s) = Js.stripNonDigits s.
Proof. apply stripNonDigits_fixes_digits, stripNonDigits_allDigits. Qed.

Lemma stripNonDigits_length (s : string) :
  (String.length (Js.stripNonDigits s) <= String.length s)%nat.
Proof.
  induction s as [|c r IH]; simpl; [lia|].
  destruct (Js.isDigit c); simpl; lia.
Qed.

End NormalForms.

(** X20. The value of the normalizer: it consists of decimal digits only,
    it is never an 11-digit number that starts with 7 or 8, it is no
    longer than the input, and it depends on the digits of the input
    alone, so that two phones with the same digits, however they are
    punctuated, have the same normal form. *)
Theorem normalizePhone_normal_form :
  forall s : string,
    let r := normalizePhone (Some s) in
    allDigits r = true /\
    ~ (String.length r = 11%nat /\
       (Js.startsWith r "7" = true \/ Js.startsWith r "8" = true)) /\
    (String.length r <= String.length s)%nat /\
    normalizePhone (Some (Js.stripNonDigits s)) = r /\
    (forall t, Js.stripNonDigits t = Js.stripNonDigits s ->
               normalizePhone (Some t) = r).
Proof.
  intros s r.
  destruct (normalizePhone_cases (Some s)) as [Hd Hc]. fold r in Hd, Hc.
  assert (Hdigits : forall t, Js.stripNonDigits t = Js.stripNonDigits s ->
                              normalizePhone (Some t) = r).
  { intros t E. subst r. unfold normalizePhone. simpl Js.truthyOpt.
    simpl Js.orEmpty. rewrite E. unfold Js.truthy.
    destruct (String.eqb_spec t "") as [->|Ht],
             (String.eqb_spec s "") as [->|Hs]; simpl negb; cbv iota;
      try reflexivity.
    simpl in E. rewrite <- E. reflexivity. }
  split; [exact Hd|]. split; [|split; [|split]].
  - intros [Hlen Hstart]. destruct Hc as [Hc|[H7 H8]]; [contradiction|].
    apply Nat.eqb_eq in Hlen. rewrite Hlen, andb_true_r in H7, H8.
    destruct Hstart; congruence.
  - subst r. unfold normalizePhone. simpl Js.truthyOpt. simpl Js.orEmpty.
    pose proof (stripNonDigits_length s) as Hl.
    destruct (negb (Js.truthy s)); [simpl; lia|].
    repeat match goal with |- context [if ?c then _ else _] => destruct c end;
      try rewrite substringFrom_one_length; lia.
  - apply Hdigits. apply stripNonDigits_twice.
  - exact Hdigits.
Qed.


(** ** The dedup re-attributes walk-ins only *)

Section DedupScope.

Lemma Forall2_map_right {A : Type} (R : A -> A -> Prop) (f : A -> A)
    (l0 l : list A) :
  Forall2 R l0 l ->
  (forall r0 r, In r0 l0 -> R r0 r -> R r0 (f r)) ->
  Forall2 R l0 (map f l).
Proof.
  induction 1 as [|r0 r l0 l HR HF IH]; intros Hf; simpl; constructor.
  - apply Hf; [now left|exact HR].
  - apply IH. intros a b Ha. apply Hf. now right.
Qed.

Lemma Forall2_right_In {A : Type} (R : A -> A -> Prop) (l0 l : list A) (r : A) :
  Forall2 R l0 l -> In r l -> exists r0, In r0 l0 /\ R r0 r.
Proof.
  induction 1 as [|a b l0 l HR HF IH]; intros Hin; [destruct Hin|].
  destruct Hin as [<-|Hin].
  - exists a. split; [now left|exact HR].
  - destruct (IH Hin) as (r0 & H0 & HR0). exists r0. split; [now right|exact HR0].
Qed.

Lemma Forall2_same {A : Type} (R : A -> A -> Prop) (l : list A) :
  (forall a, R a a) -> Forall2 R l l.
Proof. intros HR. induction l; constructor; auto. Qed.

Lemma NoDup_map_same {A B : Type} (f : A -> B) (l : list A) (x y : A) :
  NoDup (map f l) -> In x l -> In y l -> f x = f y -> x = y.
Proof.
  induction l as [|a r IH]; simpl; intros Hnd Hx Hy E; [destruct Hx|].
  inversion Hnd as [|? ? Hnotin Hnd']; subst.
  destruct Hx as [<-|Hx], Hy as [<-|Hy]; auto.
  - exfalso. apply Hnotin. rewrite E. now apply in_map.
  - exfalso. apply Hnotin. rewrite <- E. now apply in_map.
Qed.

Lemma Keeps_apply {A : Type} (P : Db -> Prop) (m : Handler A) (db : Db) :
  Keeps P m -> P db -> P (snd (m db)).
Proof. intros H. apply H. Qed.

Lemma Keeps_forOf_In {A B : Type} (P : Db -> Prop) (xs : list A)
    (step : B -> A -> Handler B) :
  forall acc : B,
    (forall acc x, In x xs -> Keeps P (step acc x)) ->
    Keeps P (forOf xs acc step).
Proof.
  induction xs as [|x r IH]; intros acc Hstep db HP; cbn [forOf].
  - exact HP.
  - unfold bind. pose proof (Hstep acc x (or_introl eq_refl) db HP) as H.
    destruct (step acc x db) as [[acc'|rp|] db']; simpl in H |- *; auto.
    apply IH; [|exact H]. intros a y Hy. apply Hstep. now right.
Qed.

Lemma Keeps_bind_query {A B : Type} (P : Db -> Prop) (q : Db -> A)
    (k : A -> Handler B) :
  (forall db, P db -> P (snd (k (q db) db))) -> Keeps P (bind (query q) k).
Proof. intros H db HP. rewrite bind_query. now apply H. Qed.

Lemma pushGroup_members {A : Type} (Q : A -> Prop) (key : string) (x : A) :
  forall g : Groups A,
    (forall k xs y, In (k, xs) g -> In y xs -> Q y) ->
    Q x ->
    forall k xs y, In (k, xs) (pushGroup key x g) -> In y xs -> Q y.
Proof.
  induction g as [|[k0 xs0] r IH]; intros Hg Hx k xs y Hin Hy; simpl in Hin.
  - destruct Hin as [E|[]]. injection E as <- <-.
    destruct Hy as [<-|[]]. exact Hx.
  - destruct (k0 === key).
    + destruct Hin as [E|Hin].
      * injection E as <- <-. apply in_app_or in Hy as [Hy|[<-|[]]]; [|exact Hx].
        apply (Hg k0 xs0); [now left|exact Hy].
      * apply (Hg k xs); [now right|exact Hy].
    + destruct Hin as [E|Hin].
      * injection E as <- <-. apply (Hg k0 xs0); [now left|exact Hy].
      * apply (IH (fun k' xs' y' H => Hg k' xs' y' (or_intror H)) Hx k xs y Hin Hy).
Qed.

(** The members of the groups are walk-in rows of the table. *)
Lemma groupWalkIns_members {A : Type} (userId userName : A -> string)
    (Q : A -> Prop) (rows : list A) :
  (forall x, In x rows -> Js.startsWith (userId x) "walk_in_" = true -> Q x) ->
  forall groups0 groups : Groups A,
    groupWalkIns userId userName rows groups0 = Some groups ->
    (forall k xs y, In (k, xs) groups0 -> In y xs -> Q y) ->
    forall k xs y, In (k, xs) groups -> In y xs -> Q y.
Proof.
  induction rows as [|b r IH]; intros Hrows groups0 groups Hrun H0.
  - simpl in Hrun. injection Hrun as <-. exact H0.
  - simpl in Hrun.
    assert (Hr : forall x, In x r ->
                           Js.startsWith (userId x) "walk_in_" = true -> Q x).
    { intros x Hx. apply Hrows. now right. }
    destruct (Js.startsWith (userId b) "walk_in_") eqn:Hw; simpl in Hrun;
      [|exact (IH Hr _ _ Hrun H0)].
    destruct (negb (Js.truthy (Js.toLowerCase (Js.trim (userName b)))));
      [exact (IH Hr _ _ Hrun H0)|].
    destruct (inheritedKey _); [discriminate|].
    apply (IH Hr _ _ Hrun). apply pushGroup_members; [exact H0|].
    apply Hrows; [now left|exact Hw].
Qed.

Variable db0 : Db.
Hypothesis bookingIds : NoDup (map Booking.id (bookings db0)).
Hypothesis cancellationIds : NoDup (map Cancellation.id (cancellations db0)).

Lemma ClientsKept_same : ClientsKept db0 db0.
Proof.
  split; apply Forall2_same.
  - intros b. split; [reflexivity|]. intros _. auto.
  - intros c. split; [reflexivity|]. intros _. reflexivity.
Qed.

(** A write to the row of a walk-in, or a write that repeats the row's own
    userId and userName and stores the normal form of its phone. *)
Lemma ClientsKept_booking_write (i u n p : string) (db : Db) :
  (forall r0, In r0 (bookings db0) -> Booking.id r0 = i ->
              Js.startsWith (Booking.userId r0) "walk_in_" = false ->
              u = Booking.userId r0 /\ n = Booking.userName r0 /\
              p = normalizePhone (Booking.userPhone r0)) ->
  ClientsKept db0 db ->
  ClientsKept db0 (Storage.updateBookingClient i u (Some n) p db).
Proof.
  intros Hw [Hb Hc]. split; [|exact Hc].
  unfold Storage.updateBookingClient, withBookings. cbn [bookings].
  apply Forall2_map_right; [exact Hb|].
  intros r0 r Hr0 [Hid Hkept].
  destruct (String.eqb_spec (Booking.id r) i) as [E|E]; [|now split].
  split; [exact Hid|]. intros Hreg.
  destruct (Hw r0 Hr0 (eq_trans (eq_sym Hid) E) Hreg) as (-> & -> & ->).
  cbn. auto.
Qed.

Lemma ClientsKept_cancellation_write (i u : string) (n : option string)
    (p : string) (db : Db) :
  (forall c0, In c0 (cancellations db0) -> Cancellation.id c0 = i ->
              Js.startsWith (Cancellation.userId c0) "walk_in_" = true) ->
  ClientsKept db0 db ->
  ClientsKept db0 (Storage.updateCancellationClient i u n p db).
Proof.
  intros Hw [Hb Hc]. split; [exact Hb|].
  unfold Storage.updateCancellationClient, withCancellations.
  cbn [cancellations].
  apply Forall2_map_right; [exact Hc|].
  intros c0 c Hc0 [Hid Hkept].
  destruct (String.eqb_spec (Cancellation.id c) i) as [E|E]; [|now split].
  split; [exact Hid|]. intros Hreg.
  rewrite (Hw c0 Hc0 (eq_trans (eq_sym Hid) E)) in Hreg. discriminate Hreg.
Qed.

(** A walk-in row of the first table is the only row with its id. *)
Lemma walk_in_booking_write (b : Booking.t) (u n p : string) :
  In b (bookings db0) ->
  Js.startsWith (Booking.userId b) "walk_in_" = true ->
  forall r0, In r0 (bookings db0) -> Booking.id r0 = Booking.id b ->
             Js.startsWith (Booking.userId r0) "walk_in_" = false ->
             u = Booking.userId r0 /\ n = Booking.userName r0 /\
             p = normalizePhone (Booking.userPhone r0).
Proof.
  intros Hb Hw r0 Hr0 E Hreg.
  rewrite (NoDup_map_same Booking.id _ r0 b bookingIds Hr0 Hb E) in Hreg.
  congruence.
Qed.

Lemma dedupGroup_scope (n : Z) (group : list Booking.t) :
  (forall b, In b group ->
             In b (bookings db0) /\
             Js.startsWith (Booking.userId b) "walk_in_" = true) ->
  Keeps (ClientsKept db0) (dedupGroup n group).
Proof.
  intros Hgroup. unfold dedupGroup.
  destruct (_ <=? _)%nat; [apply Keeps_ret|].
  destruct (canonicalOf group) as [canonical|]; [|apply Keeps_throw].
  cbv zeta. apply Keeps_forOf_In. intros acc b Hb.
  destruct (_ && _); [apply Keeps_ret|].
  apply Keeps_bind; [|intros; apply Keeps_ret].
  apply Keeps_exec. intros d. apply ClientsKept_booking_write.
  destruct (Hgroup b Hb) as [Hin Hw]. now apply walk_in_booking_write.
Qed.

Lemma normalizeStoredPhone_scope (n : Z) (b : Booking.t) :
  In b (bookings db0) ->
  Keeps (ClientsKept db0) (normalizeStoredPhone n b).
Proof.
  intros Hb. unfold normalizeStoredPhone.
  destruct (Booking.userPhone b) as [p|] eqn:Hp; [|apply Keeps_ret].
  destruct (Js.truthy p); [|apply Keeps_ret].
  cbv zeta. destruct (negb _); [|apply Keeps_ret].
  apply Keeps_bind; [|intros; apply Keeps_ret].
  apply Keeps_exec. intros d. apply ClientsKept_booking_write.
  intros r0 Hr0 E _.
  rewrite (NoDup_map_same Booking.id _ r0 b bookingIds Hr0 Hb E), Hp. auto.
Qed.

Lemma dedupCancelGroup_scope (groups : Groups Booking.t) (n : Z)
    (entry : string * list Cancellation.t) :
  (forall c, In c (snd entry) ->
             forall c0, In c0 (cancellations db0) ->
                        Cancellation.id c0 = Cancellation.id c ->
                        Js.startsWith (Cancellation.userId c0) "walk_in_" = true) ->
  Keeps (ClientsKept db0) (dedupCancelGroup groups n entry).
Proof.
  intros Hentry. unfold dedupCancelGroup. destruct entry as [name cancels].
  destruct (lookupGroup name groups) as [group|]; [|apply Keeps_ret].
  destruct (canonicalOf group) as [canonical|]; [|apply Keeps_throw].
  cbv zeta. apply Keeps_forOf_In. intros acc c Hc.
  destruct (Js.truthyOpt _).
  - destruct (_ || _); [|apply Keeps_ret].
    apply Keeps_bind; [|intros; apply Keeps_ret].
    apply Keeps_exec. intros d. apply ClientsKept_cancellation_write.
    exact (Hentry c Hc).
  - apply Keeps_bind; [|intros; apply Keeps_ret].
    apply Keeps_exec. intros d. apply ClientsKept_cancellation_write.
    exact (Hentry c Hc).
Qed.

(** A walk-in cancellation found in a later state has the id of a walk-in
    cancellation of the first table only. *)
Lemma walk_in_cancellation_write (db : Db) (c : Cancellation.t) :
  ClientsKept db0 db ->
  In c (cancellations db) ->
  Js.startsWith (Cancellation.userId c) "walk_in_" = true ->
  forall c0, In c0 (cancellations db0) ->
             Cancellation.id c0 = Cancellation.id c ->
             Js.startsWith (Cancellation.userId c0) "walk_in_" = true.
Proof.
  intros [_ Hkept] Hc Hw c0 Hc0 E.
  destruct (Forall2_right_In _ _ _ c Hkept Hc) as (c1 & Hc1 & Hid & Hsame).
  assert (c0 = c1) as <-.
  { apply (NoDup_map_same Cancellation.id _ c0 c1 cancellationIds Hc0 Hc1).
    congruence. }
  destruct (Js.startsWith (Cancellation.userId c0) "walk_in_") eqn:H0;
    [reflexivity|].
  rewrite (Hsame eq_refl) in Hw. congruence.
Qed.

Lemma postCleanupDuplicates_scope :
  ClientsKept db0 (snd (postCleanupDuplicates db0)).
Proof.
  unfold postCleanupDuplicates. rewrite tryCatch_snd, bind_query.
  destruct (groupWalkIns Booking.userId Booking.userName
              (Storage.getBookings db0) []) as [groups|] eqn:Hgroups;
    [|exact ClientsKept_same].
  cbn [orThrow]. rewrite bind_ret.
  apply Keeps_apply; [|exact ClientsKept_same].
  apply Keeps_bind.
  { apply Keeps_forOf_In. intros acc [name group] Hentry.
    apply dedupGroup_scope. intros b Hb.
    apply (groupWalkIns_members Booking.userId Booking.userName
             (fun b => In b (bookings db0) /\
                       Js.startsWith (Booking.userId b) "walk_in_" = true)
             (Storage.getBookings db0)) with (groups0 := []) (groups := groups)
             (k := name) (xs := group); auto.
    - intros x Hx Hw. split; [|exact Hw].
      unfold Storage.getBookings in Hx. now apply sortBy_In in Hx.
    - intros k xs y []. }
  intros n. apply Keeps_bind.
  { apply Keeps_forOf_In. intros acc b Hb. apply normalizeStoredPhone_scope.
    unfold Storage.getBookings in Hb. now apply sortBy_In in Hb. }
  intros n'. apply Keeps_bind_query. intros db Hdb.
  destruct (groupWalkIns Cancellation.userId Cancellation.userName
              (Storage.getCancellations db) []) as [cancelGroups|] eqn:Hcancel;
    [|exact Hdb].
  cbn [orThrow]. rewrite bind_ret.
  apply Keeps_apply; [|exact Hdb].
  apply Keeps_bind; [|intros; apply Keeps_reply].
  apply Keeps_forOf_In. intros acc [name cancels] Hentry.
  apply dedupCancelGroup_scope. cbn [snd]. intros c Hc.
  apply (groupWalkIns_members Cancellation.userId Cancellation.userName
           (fun c => forall c0, In c0 (cancellations db0) ->
                                Cancellation.id c0 = Cancellation.id c ->
                                Js.startsWith (Cancellation.userId c0) "walk_in_"
                                = true)
           (Storage.getCancellations db)) with (groups0 := [])
           (groups := cancelGroups) (k := name) (xs := cancels); auto.
  intros x Hx Hw. apply (walk_in_cancellation_write db x Hdb); [|exact Hw].
  unfold Storage.getCancellations in Hx. now apply sortBy_In in Hx.
Qed.

End DedupScope.

(** X21. The dedup re-attributes walk-ins only.  When the ids of the
    bookings and of the cancellations are unique, then after
    [POST /api/admin/cleanup-duplicates], whatever it answered, every
    booking that did not belong to a walk-in still has its userId and its
    userName, and its phone is the stored one or the normal form of the
    stored one; every cancellation that did not belong to a walk-in is
    unchanged.  Rows correspond position by position. *)
Theorem cleanup_reattributes_walk_ins_only (db : Db) :
  NoDup (map Booking.id (bookings db)) ->
  NoDup (map Cancellation.id (cancellations db)) ->
  ClientsKept db (snd (postCleanupDuplicates db)).
Proof. intros Hb Hc. now apply postCleanupDuplicates_scope. Qed.

Lemma cleanup_reattributes_walk_ins_only_witness :
  ClientsKept SampleDedup.db (snd (postCleanupDuplicates SampleDedup.db)).
Proof.
  apply cleanup_reattributes_walk_ins_only.
  - repeat constructor; simpl; intuition discriminate.
  - repeat constructor; simpl; intuition discriminate.
Defined.
